(** * Host side of the GVDB to NanoVDB exporter

    A shallow embedding of [source/gNanoVDB/gvdb_export_nanovdb.cpp]:
    the type-size tables, [ComputeTypeSizes], the sentinels of the value
    types, [ProcessGridExtents] (root tiles, keys, sort, extents) and the
    entry point [ExportToNanoVDB].  Device kernels are outside the file;
    what they leave in the level-2 region is an input of the model. *)

From Stdlib Require Import ZArith List Lia Bool.
From Stdlib Require Import Sorting.Sorted Sorting.Permutation.
From Stdlib Require Import Floats.SpecFloat.
From Stdlib Require Import Strings.Byte.
Import ListNotations.

Local Open Scope Z_scope.

(** ** Machine integers

    [int] is a 32-bit two's-complement integer and [uint64_t], [size_t]
    are 64-bit unsigned; all are carried by [Z] and the wrap-around is
    written where the source converts or can overflow. *)

Definition INT_MAX : Z := 2 ^ 31 - 1.
Definition INT_MIN : Z := - 2 ^ 31.

(** Conversion of a (signed) value to [uint64_t]: reduction modulo 2^64,
    which sign-extends a negative [int]. *)
Definition uint64_t (v : Z) : Z := v mod 2 ^ 64.

(** [size_t] is 64 bits wide on the targets of the exporter. *)
Definition size_t (v : Z) : Z := v mod 2 ^ 64.

(** [a >> n] on an [int]: the arithmetic shift every supported compiler
    emits. *)
Definition int_shr (a n : Z) : Z := Z.shiftr a n.

(** [a << n] on a [uint64_t]: bits shifted past bit 63 are lost. *)
Definition u64_shl (a n : Z) : Z := uint64_t (Z.shiftl a n).

(** ** Coordinates and boxes (the fields of nanovdb::Coord, CoordBBox) *)

Record Coord : Type := mkCoord { c0 : Z; c1 : Z; c2 : Z }.

Definition Coord_eqb (a b : Coord) : bool :=
  (c0 a =? c0 b) && (c1 a =? c1 b) && (c2 a =? c2 b).

Record CoordBBox : Type := mkBBox { bbox_min : Coord; bbox_max : Coord }.

(** A closed integer box holds no voxel as soon as one component of its
    minimum exceeds that of its maximum. *)
Definition bbox_empty (b : CoordBBox) : Prop :=
  c0 (bbox_max b) < c0 (bbox_min b) \/
  c1 (bbox_max b) < c1 (bbox_min b) \/
  c2 (bbox_max b) < c2 (bbox_min b).

(** ** Root tiles *)

Record Tile : Type := mkTile { key : Z; childID : Z }.

(** The tile as [memset] leaves it. *)
Definition zeroTile : Tile := mkTile 0 0.

(** Lines 299-301: the key written into a tile,
    [uint64_t(ijk[2] >> T) | (uint64_t(ijk[1] >> T) << 21)
       | (uint64_t(ijk[0] >> T) << 42)]. *)
Definition CoordToKey (ijk : Coord) (totalLog2Dim : Z) : Z :=
  Z.lor
    (Z.lor (uint64_t (int_shr (c2 ijk) totalLog2Dim))
           (u64_shl (uint64_t (int_shr (c1 ijk) totalLog2Dim)) 21))
    (u64_shl (uint64_t (int_shr (c0 ijk) totalLog2Dim)) 42).

(** The same expression read over the unbounded integers, as the key
    encoding is written in prose. *)
Definition encode (i j k T : Z) : Z :=
  Z.lor (Z.lor (Z.shiftr k T) (Z.shiftl (Z.shiftr j T) 21))
        (Z.shiftl (Z.shiftr i T) 42).

(** Coordinates an [int] holds without its sign bit. *)
Definition nonneg_coord (c : Coord) : Prop :=
  0 <= c0 c <= INT_MAX /\ 0 <= c1 c <= INT_MAX /\ 0 <= c2 c <= INT_MAX.

(** The cell of the root a coordinate falls in: each component shifted
    by the summed log2dims, as [CoordToKey] shifts them. *)
Definition cell (c : Coord) (T : Z) : Coord :=
  mkCoord (int_shr (c0 c) T) (int_shr (c1 c) T) (int_shr (c2 c) T).

(** ** [std::sort] with the comparison [a.key < b.key]

    The standard fixes the result of [std::sort] only up to the order of
    equivalent elements; the model is an insertion sort driven by the same
    comparison, and the theorems use no more than its two standard
    guarantees (a permutation, ordered by the comparison). *)

Definition tile_less (a b : Tile) : bool := key a <? key b.

Fixpoint sort_insert (comp : Tile -> Tile -> bool) (x : Tile) (l : list Tile)
  : list Tile :=
  match l with
  | [] => [x]
  | y :: l' => if comp x y then x :: y :: l' else y :: sort_insert comp x l'
  end.

Fixpoint std_sort (comp : Tile -> Tile -> bool) (l : list Tile) : list Tile :=
  match l with
  | [] => []
  | x :: l' => sort_insert comp x (std_sort comp l')
  end.

(** ** Single-precision values

    [float] is IEEE-754 binary32, carried by [spec_float] with a 24-bit
    mantissa. *)

Definition float : Type := spec_float.

Definition FLT_MAX : float := S754_finite false (2 ^ 24 - 1) 104.
(** [FLT_MIN], the value of [std::numeric_limits<float>::min()], is the
    smallest positive normal number 2^-126. *)
Definition FLT_MIN : float := S754_finite false (2 ^ 23) (-149).
Definition float_neg (a : float) : float := SFopp a.
Definition float_lt (a b : float) : bool := SFltb a b.

Record Vec3f : Type := mkVec3f { v0 : float; v1 : float; v2 : float }.

(** [union ValueUnion { float f; Vec3f f3; int i; }]: the three views of
    the same storage. *)
Record ValueUnion : Type := mkValueUnion { f : float; f3 : Vec3f; i : Z }.

(** ** The value types of the exporter

    [ProcessGridExtents] is a template over [ValueT]; the operations it
    asks of [ValueT] form a class with one instance per supported type. *)

Inductive ValueTag : Type := VFloat | VVec3f | VInt.

Class ValueT (T : Type) : Type := {
  value_tag : ValueTag;
  (** all bits zero, the content of the buffer after [memset] *)
  zero_value : T;
  ExportToNanoVDB_MaximumValue : T;
  ExportToNanoVDB_MinimumValue : T;
  ExportToNanoVDB_Min : T -> T -> T;
  ExportToNanoVDB_Max : T -> T -> T;
  getValueUnion : ValueUnion -> T
}.

(** Modelled from the spec: [ExportToNanoVDB_Min] and [ExportToNanoVDB_Max]
    are declared in gvdb_export_nanovdb.h, which is not among the sources.
    They are the pairwise minimum and maximum, under the IEEE ordering for
    [float] (a NaN is neither less nor greater, so the first argument is
    kept), two's-complement ordering for [int], and componentwise for
    [Vec3f]. *)
Definition float_min (a b : float) : float := if float_lt b a then b else a.
Definition float_max (a b : float) : float := if float_lt a b then b else a.
Definition Vec3f_min (a b : Vec3f) : Vec3f :=
  mkVec3f (float_min (v0 a) (v0 b)) (float_min (v1 a) (v1 b))
          (float_min (v2 a) (v2 b)).
Definition Vec3f_max (a b : Vec3f) : Vec3f :=
  mkVec3f (float_max (v0 a) (v0 b)) (float_max (v1 a) (v1 b))
          (float_max (v2 a) (v2 b)).

Definition float_zero : float := S754_zero false.

(** Lines 154-165.  The primary templates return
    [std::numeric_limits<T>::max()] and [std::numeric_limits<T>::min()];
    only [Vec3f] is specialised. *)
#[export] Instance ValueT_float : ValueT float := {|
  value_tag := VFloat;
  zero_value := float_zero;
  ExportToNanoVDB_MaximumValue := FLT_MAX;
  ExportToNanoVDB_MinimumValue := FLT_MIN;
  ExportToNanoVDB_Min := float_min;
  ExportToNanoVDB_Max := float_max;
  getValueUnion := f
|}.

#[export] Instance ValueT_Vec3f : ValueT Vec3f := {|
  value_tag := VVec3f;
  zero_value := mkVec3f float_zero float_zero float_zero;
  ExportToNanoVDB_MaximumValue := mkVec3f FLT_MAX FLT_MAX FLT_MAX;
  ExportToNanoVDB_MinimumValue :=
    mkVec3f (float_neg FLT_MAX) (float_neg FLT_MAX) (float_neg FLT_MAX);
  ExportToNanoVDB_Min := Vec3f_min;
  ExportToNanoVDB_Max := Vec3f_max;
  getValueUnion := f3
|}.

#[export] Instance ValueT_int : ValueT Z := {|
  value_tag := VInt;
  zero_value := 0;
  ExportToNanoVDB_MaximumValue := INT_MAX;
  ExportToNanoVDB_MinimumValue := INT_MIN;
  ExportToNanoVDB_Min := Z.min;
  ExportToNanoVDB_Max := Z.max;
  getValueUnion := i
|}.

(** ** What the host reads from a level-2 node *)

Record NodeRangeData : Type := mkRange {
  valueMin : ValueUnion;
  valueMax : ValueUnion;
  aabb : CoordBBox
}.

(** The level-2 region as the device kernels leave it, node by node. *)
Definition Node2Region : Type := nat -> NodeRangeData.

Definition Node2RangeFunc : Type := Node2Region -> nat -> NodeRangeData.

(** [GetNode2Range<ValueT, LOG2DIM>]: value range and box of node
    [nodeIdx]. *)
Definition GetNode2Range (ty : ValueTag) (LOG2DIM : Z) : Node2RangeFunc :=
  fun node2Start nodeIdx => node2Start nodeIdx.

Definition table_log2dims : list Z := [2; 3; 4; 5; 6; 7].
Definition table_types : list ValueTag := [VFloat; VVec3f; VInt].

(** [rangeFunctions[3][6]] *)
Definition rangeFunctions : list (list Node2RangeFunc) :=
  map (fun ty => map (GetNode2Range ty) table_log2dims) table_types.

(** Reading [table[row][col]]; [None] outside the array. *)
Definition table_get {A : Type} (table : list (list A)) (row : nat) (col : Z)
  : option A :=
  if col <? 0 then None
  else match nth_error table row with
       | Some r => nth_error r (Z.to_nat col)
       | None => None
       end.

(** ** The root header and its tile array *)

Record RootData (T : Type) : Type := mkRoot {
  mBBox : CoordBBox;
  mActiveVoxelCount : Z;
  mTileCount : Z;
  mBackground : T;
  mMinimum : T;
  mMaximum : T;
  tiles : list Tile
}.
Arguments mkRoot {T}.
Arguments mBBox {T}.
Arguments mActiveVoxelCount {T}.
Arguments mTileCount {T}.
Arguments mBackground {T}.
Arguments mMinimum {T}.
Arguments mMaximum {T}.
Arguments tiles {T}.

Definition zeroCoord : Coord := mkCoord 0 0 0.

(** The root region after [memset]: a zeroed header and [n] zeroed tiles. *)
Definition zeroRoot {T} `{ValueT T} (n : nat) : RootData T :=
  mkRoot (mkBBox zeroCoord zeroCoord) 0 0 zero_value zero_value zero_value
         (repeat zeroTile n).

(** ** Effects: messages, allocations, assertions *)

Inductive Message : Type :=
| Error_backgroundPtr_nullptr
| Error_outTotalSize_nullptr
| Error_brick_log2dim (ld : Z)
| Error_node1_log2dim (ld : Z)
| Error_node2_log2dim (ld : Z)
| Error_channel_type (channel : Z) (tag : Z)   (* channel, its type tag *)
| Error_too_many_nodes (level : Z)
| Warning_zero_volume.

Inductive Assertion : Type :=
| TypeTableIndex_unrecognized_type
| DataTypeSizeLookup_out_of_range
| ProcessRoot_rootDataPtr_nullptr
| ProcessRoot_background_nullptr
| CoordToKey_restriction.

Record World : Type := mkWorld {
  printed : list Message;       (* [gprintf], oldest first *)
  cuMemAlloc_sizes : list Z;    (* device allocations *)
  new_sizes : list Z            (* host allocations *)
}.

Definition initial_world : World := mkWorld [] [] [].

Inductive Outcome (A : Type) : Type :=
| Done (a : A)
| Aborted (which : Assertion)   (* a failed [assert] *)
| Undefined.                    (* a read outside an array *)
Arguments Done {A}.
Arguments Aborted {A}.
Arguments Undefined {A}.

Definition M (A : Type) : Type := World -> Outcome A * World.

Definition ret {A} (a : A) : M A := fun w => (Done a, w).

Definition bind {A B} (m : M A) (k : A -> M B) : M B :=
  fun w => match m w with
           | (Done a, w') => k a w'
           | (Aborted which, w') => (Aborted which, w')
           | (Undefined, w') => (Undefined, w')
           end.

Notation "x <- m ;; k" := (bind m (fun x => k))
  (at level 61, m at next level, right associativity).
Notation "m ;;; k" := (bind m (fun _ => k))
  (at level 61, right associativity).

Definition gprintf (msg : Message) : M unit :=
  fun w => (Done tt, mkWorld (printed w ++ [msg]) (cuMemAlloc_sizes w) (new_sizes w)).

Definition cuMemAlloc (bytes : Z) : M unit :=
  fun w => (Done tt, mkWorld (printed w) (cuMemAlloc_sizes w ++ [bytes]) (new_sizes w)).

Definition new_uint8_t (bytes : Z) : M unit :=
  fun w => (Done tt, mkWorld (printed w) (cuMemAlloc_sizes w) (new_sizes w ++ [bytes])).

Definition undefined {A} : M A := fun w => (Undefined, w).

(** [assert(cond)]: aborts when assertions are compiled in and [cond] is
    false, and is empty under [NDEBUG]. *)
Definition assert (NDEBUG : bool) (cond : bool) (which : Assertion) : M unit :=
  fun w => if NDEBUG || cond then (Done tt, w) else (Aborted which, w).

Definition from_option {A} (o : option A) : M A :=
  match o with
  | Some a => ret a
  | None => undefined
  end.

(** ** Constants and sizes of the target format

    The sizes are [sizeof] of NanoVDB's types and with [MaxNameSize], the
    magic number and the default-constructed [CoordBBox] they come from
    the NanoVDB headers; the exporter is modelled over any choice of
    them. *)

Record NanoVDB : Type := mkNanoVDB {
  sizeof_GridData : Z;
  sizeof_TreeData : Z;
  sizeof_RootData : ValueTag -> Z;
  sizeof_Tile : ValueTag -> Z;
  sizeof_InternalNode : ValueTag -> Z -> Z;
  sizeof_LeafNode : ValueTag -> Z -> Z;
  MaxNameSize : nat;
  NANOVDB_MAGIC_NUMBER : Z;
  CoordBBox_default : CoordBBox
}.

(** The channel type tags of GVDB; only three are exported. *)
Inductive ChannelType : Type :=
| T_FLOAT
| T_FLOAT3
| T_INT
| T_OTHER (tag : Z).

(** The source tree, through the accessors the exporter calls. *)
Record VolumeGVDB : Type := mkGVDB {
  getLD : Z -> Z;                      (* log2dim of a level *)
  GetChannelType : Z -> ChannelType;
  getNumTotalNodes : Z -> Z;           (* node count of a level *)
  deviceNode2 : Node2Region            (* level-2 nodes after the kernels *)
}.

(** Modelled from the spec: [VolumeGVDB::getVoxCnt] lives in the GVDB
    library, not among the sources; a leaf of log2dim [L] holds
    [2^(3 L)] voxels, as a 64-bit count. *)
Definition getVoxCnt (gvdb : VolumeGVDB) (lev : Z) : Z :=
  uint64_t (2 ^ (3 * getLD gvdb lev)).

Record NanoVDBTypeSizes : Type := mkSizes {
  grid : Z; tree : Z; root : Z; rootTile : Z;
  node2 : Z; node1 : Z; leaf : Z
}.

Inductive GridType : Type := GridType_Unknown | GridType_Float | GridType_Vec3f | GridType_Int32.

(** The fields of the grid header the exporter writes with integer or
    byte data; the affine map, the voxel size and the world-space box are
    double-precision data and are left out. *)
Record GridData : Type := mkGrid {
  mMagic : Z;
  mGridName : list byte;
  mGridClass : Z;
  mGridType : GridType;
  mBlindMetadataCount : Z;
  mBlindMetadataOffset : Z
}.

Record TreeData : Type := mkTree { mBytes : list Z; mCount : list Z }.

Inductive RootAny : Type :=
| Root_float (r : RootData float)
| Root_Vec3f (r : RootData Vec3f)
| Root_int (r : RootData Z).

Definition root_tiles (r : RootAny) : list Tile :=
  match r with Root_float r => tiles r | Root_Vec3f r => tiles r | Root_int r => tiles r end.
Definition root_bbox (r : RootAny) : CoordBBox :=
  match r with Root_float r => mBBox r | Root_Vec3f r => mBBox r | Root_int r => mBBox r end.
Definition root_activeVoxelCount (r : RootAny) : Z :=
  match r with
  | Root_float r => mActiveVoxelCount r
  | Root_Vec3f r => mActiveVoxelCount r
  | Root_int r => mActiveVoxelCount r
  end.
Definition root_tileCount (r : RootAny) : Z :=
  match r with Root_float r => mTileCount r | Root_Vec3f r => mTileCount r | Root_int r => mTileCount r end.

(** The typed fields of a root header, read at whichever value type the
    root has: [v] gives the expected value at each type. *)
Definition root_minimum_is (r : RootAny) (v : forall T, ValueT T -> T) : Prop :=
  match r with
  | Root_float r' => mMinimum r' = v float _
  | Root_Vec3f r' => mMinimum r' = v Vec3f _
  | Root_int r' => mMinimum r' = v Z _
  end.
Definition root_maximum_is (r : RootAny) (v : forall T, ValueT T -> T) : Prop :=
  match r with
  | Root_float r' => mMaximum r' = v float _
  | Root_Vec3f r' => mMaximum r' = v Vec3f _
  | Root_int r' => mMaximum r' = v Z _
  end.

Definition root_type (r : RootAny) : ChannelType :=
  match r with Root_float _ => T_FLOAT | Root_Vec3f _ => T_FLOAT3 | Root_int _ => T_INT end.

(** The running minimum and maximum of lines 248-249 and 309-310 after
    the nodes [ids]: a left fold from the sentinels. *)
Definition fold_valueMin (node2Start : Node2Region) (ids : list nat)
    (T : Type) (VT : ValueT T) : T :=
  fold_left ExportToNanoVDB_Min
    (map (fun t => getValueUnion (valueMin (node2Start t))) ids)
    ExportToNanoVDB_MaximumValue.
Definition fold_valueMax (node2Start : Node2Region) (ids : list nat)
    (T : Type) (VT : ValueT T) : T :=
  fold_left ExportToNanoVDB_Max
    (map (fun t => getValueUnion (valueMax (node2Start t))) ids)
    ExportToNanoVDB_MinimumValue.

Definition supported (ty : ChannelType) : Prop :=
  ty = T_FLOAT \/ ty = T_FLOAT3 \/ ty = T_INT.

(** The exported image: the three host-written regions and its length. *)
Record Image : Type := mkImage {
  gridData : GridData;
  treeData : TreeData;
  rootData : RootAny;
  image_size : Z
}.

Inductive CUdeviceptr : Type :=
| GVDB_EXPORT_NANOVDB_NULL
| bufferGPU (img : Image).

(** What the caller holds after the call: the returned pointer and the
    content of [*outTotalSize] ([None] for a null pointer). *)
Record Exported : Type := mkExported {
  returned : CUdeviceptr;
  outTotalSize_after : option Z
}.

(** Writing element [n] of an array; nothing is written past its end. *)
Fixpoint array_set {A} (l : list A) (n : nat) (x : A) : list A :=
  match l, n with
  | [], _ => []
  | _ :: l', O => x :: l'
  | y :: l', S n' => y :: array_set l' n' x
  end.

(** [memcpy(dst, src, n)] out of the array [src]: its first [n] bytes;
    reading past the end of [src] is undefined. *)
Definition memcpy (src : list byte) (n : nat) : M (list byte) :=
  if (n <=? length src)%nat then ret (firstn n src) else undefined.

Definition Coord_min (a b : Coord) : Coord :=
  mkCoord (Z.min (c0 a) (c0 b)) (Z.min (c1 a) (c1 b)) (Z.min (c2 a) (c2 b)).
Definition Coord_max (a b : Coord) : Coord :=
  mkCoord (Z.max (c0 a) (c0 b)) (Z.max (c1 a) (c1 b)) (Z.max (c2 a) (c2 b)).

(** Lines 305-308: the running box grown by the box of a node. *)
Definition expand_box (running node : CoordBBox) : CoordBBox :=
  mkBBox (Coord_min (bbox_min running) (bbox_min node))
         (Coord_max (bbox_max running) (bbox_max node)).

(** The variables of the tile loop of [ProcessGridExtents]. *)
Record Extents (T : Type) : Type := mkExtents {
  x_tiles : list Tile;
  indexAABB : CoordBBox;
  x_valueMin : T;
  x_valueMax : T
}.
Arguments mkExtents {T}.
Arguments x_tiles {T}.
Arguments indexAABB {T}.
Arguments x_valueMin {T}.
Arguments x_valueMax {T}.

(** The row of [rangeFunctions] the [std::is_same] chain selects. *)
Definition type_row (ty : ValueTag) : nat :=
  match ty with VFloat => 0 | VVec3f => 1 | VInt => 2 end%nat.

(** Lines 298-302, "equivalent to [tile.setChild(ijk, tileIdx)]". *)
Definition setChild (ijk : Coord) (totalLog2Dim : Z) (tileIdx : nat) : Tile :=
  mkTile (CoordToKey ijk totalLog2Dim) (Z.of_nat tileIdx).

(** Lines 286-310: one iteration of the tile loop. *)
Definition tile_step {T} `{ValueT T} (rangeFunc : Node2RangeFunc)
    (node2Start : Node2Region) (totalLog2Dim : Z)
    (st : Extents T) (tileIdx : nat) : Extents T :=
  let rangeData := rangeFunc node2Start tileIdx in
  let ijk := bbox_min (aabb rangeData) in
  let tile := setChild ijk totalLog2Dim tileIdx in
  mkExtents
    (array_set (x_tiles st) tileIdx tile)
    (expand_box (indexAABB st) (aabb rangeData))
    (ExportToNanoVDB_Min (x_valueMin st) (getValueUnion (valueMin rangeData)))
    (ExportToNanoVDB_Max (x_valueMax st) (getValueUnion (valueMax rangeData))).

(** The tile iteration [t] of the loop writes. *)
Definition written_tile (rangeFunc : Node2RangeFunc) (node2Start : Node2Region)
    (totalLog2Dim : Z) (t : nat) : Tile :=
  setChild (bbox_min (aabb (rangeFunc node2Start t))) totalLog2Dim t.

(** The two orders on tiles the properties speak of. *)
Definition key_le (a b : Tile) : Prop := key a <= key b.
Definition key_lt (a b : Tile) : Prop := key a < key b.

(** Lines 320-329: [std::sort] over the tiles [0 .. numNode2s - 1]. *)
Definition sort_tiles (numNode2s : nat) (ts : list Tile) : list Tile :=
  std_sort tile_less (firstn numNode2s ts) ++ skipn numNode2s ts.

Section Exporter.

Variable nanovdb : NanoVDB.
(** [true] when the file is compiled with assertions disabled. *)
Variable NDEBUG : bool.

(** Lines 229-372.  [rootDataPtr] and [background] are [None] for a null
    pointer and hold the pointed-to storage otherwise; the result is the
    storage behind [rootDataPtr] after the call.  The last branch of the
    [std::is_same] chain (an unsupported [ValueT]) has no instance to be
    taken at; the world-space box of lines 337-359 is double-precision
    data and is left out. *)
Definition ProcessGridExtents {T} `{ValueT T}
    (rootDataPtr : option (RootData T)) (node2Start : Node2Region)
    (activeVoxelCount : Z) (background : option ValueUnion)
    (numNode2s node2Log2Dim totalLog2Dim : Z) : M (option (RootData T)) :=
  match rootDataPtr, background with
  | None, _ =>
      assert NDEBUG false ProcessRoot_rootDataPtr_nullptr ;;; ret None
  | Some rootData, None =>
      assert NDEBUG false ProcessRoot_background_nullptr ;;; ret (Some rootData)
  | Some rootData, Some bg =>
      rangeFunc <- from_option
        (table_get rangeFunctions (type_row value_tag) (node2Log2Dim - 2)) ;;
      assert NDEBUG (32 - totalLog2Dim <=? 21) CoordToKey_restriction ;;;
      let st := fold_left (tile_step rangeFunc node2Start totalLog2Dim)
                  (seq 0 (Z.to_nat numNode2s))
                  (mkExtents (tiles rootData) (CoordBBox_default nanovdb)
                     ExportToNanoVDB_MaximumValue ExportToNanoVDB_MinimumValue) in
      (if Coord_eqb (bbox_min (indexAABB st)) (bbox_max (indexAABB st))
       then gprintf Warning_zero_volume else ret tt) ;;;
      ret (Some (mkRoot (indexAABB st) activeVoxelCount numNode2s
                   (getValueUnion bg) (x_valueMin st) (x_valueMax st)
                   (sort_tiles (Z.to_nat numNode2s) (x_tiles st))))
  end.

(** Lines 48-60. *)
Definition TypeTableIndex (gvdbType : ChannelType) : M nat :=
  match gvdbType with
  | T_FLOAT => ret 0%nat
  | T_FLOAT3 => ret 1%nat
  | T_INT => ret 2%nat
  | T_OTHER _ => assert NDEBUG false TypeTableIndex_unrecognized_type ;;; ret 0%nat
  end.

(** Lines 62-69. *)
Definition DataTypeSizeLookup (sizes : list (list Z)) (gvdbType : ChannelType)
    (log2Dim : Z) : M Z :=
  if (log2Dim <? 2) || (log2Dim >? 7) then
    assert NDEBUG false DataTypeSizeLookup_out_of_range ;;; ret 0
  else
    row <- TypeTableIndex gvdbType ;;
    from_option (table_get sizes row (log2Dim - 2)).

(** Lines 86-90 and 107-111: [nodeSizes[3][6]] and [leafSizes[3][6]]. *)
Definition nodeSizes : list (list Z) :=
  map (fun ty => map (sizeof_InternalNode nanovdb ty) table_log2dims) table_types.

Definition leafSizes : list (list Z) :=
  map (fun ty => map (sizeof_LeafNode nanovdb ty) table_log2dims) table_types.

(** Lines 116-150. *)
Definition ComputeTypeSizes (gvdbType : ChannelType)
    (brickLog2Dim node1Log2Dim node2Log2Dim : Z) : M NanoVDBTypeSizes :=
  let result_grid := sizeof_GridData nanovdb in
  let result_tree := sizeof_TreeData nanovdb in
  let '(result_root, result_rootTile) :=
    match gvdbType with
    | T_FLOAT => (sizeof_RootData nanovdb VFloat, sizeof_Tile nanovdb VFloat)
    | T_INT => (sizeof_RootData nanovdb VInt, sizeof_Tile nanovdb VInt)
    | T_FLOAT3 => (sizeof_RootData nanovdb VVec3f, sizeof_Tile nanovdb VVec3f)
    | T_OTHER _ => (0, 0)
    end in
  result_node2 <- DataTypeSizeLookup nodeSizes gvdbType node2Log2Dim ;;
  result_node1 <- DataTypeSizeLookup nodeSizes gvdbType node1Log2Dim ;;
  result_leaf <- DataTypeSizeLookup leafSizes gvdbType brickLog2Dim ;;
  ret (mkSizes result_grid result_tree result_root result_rootTile
         result_node2 result_node1 result_leaf).

(** Modelled from the spec: [ExportToNanoVDB_GetNumNodes] is declared in
    gvdb_export_nanovdb.h, which is not among the sources.  It reads the
    node count of a level and fails, with a message, when the count
    exceeds [INT_MAX]. *)
Definition ExportToNanoVDB_GetNumNodes (gvdb : VolumeGVDB) (level : Z)
  : M (option Z) :=
  let n := getNumTotalNodes gvdb level in
  if n >? INT_MAX then gprintf (Error_too_many_nodes level) ;;; ret None
  else ret (Some n).

Definition failed (outTotalSize : option Z) : M Exported :=
  ret (mkExported GVDB_EXPORT_NANOVDB_NULL outTotalSize).

(** Lines 487-502: the sizes of the six regions and their exclusive prefix
    sum, in [size_t] arithmetic. *)
Definition dataSizes (typeSizes : NanoVDBTypeSizes)
    (numNode2s numNode1s numLeaves : Z) : list Z :=
  [ grid typeSizes;
    tree typeSizes;
    size_t (root typeSizes + size_t (rootTile typeSizes * numNode2s));
    size_t (numNode2s * node2 typeSizes);
    size_t (numNode1s * node1 typeSizes);
    size_t (numLeaves * leaf typeSizes) ].

Fixpoint prefix_sum (acc : Z) (sizes : list Z) : list Z :=
  acc :: match sizes with
         | [] => []
         | s :: sizes' => prefix_sum (size_t (acc + s)) sizes'
         end.

Definition dataOffsetsBytes (sizes : list Z) : list Z := prefix_sum 0 sizes.

(** The regions, as indices into [dataSizes] and [dataOffsetsBytes]. *)
Definition R_GRID : nat := 0.
Definition R_TREE : nat := 1.
Definition R_ROOT : nat := 2.
Definition R_NODE2 : nat := 3.
Definition R_NODE1 : nat := 4.
Definition R_LEAF : nat := 5.
Definition R_COUNT : nat := 6.

Definition off (offsets : list Z) (r : nat) : Z := nth r offsets 0.

(** Lines 598-655, the grid header.  The consistency assertion that closes
    the block compares [sizeof(GridData)] with [dataSizes[R_GRID]], which
    was set from it, and cannot fail. *)
Definition fill_grid (gvdbType : ChannelType) (gridName : list byte)
    (gridClass : Z) : M GridData :=
  name <- memcpy gridName (MaxNameSize nanovdb) ;;
  ret (mkGrid (NANOVDB_MAGIC_NUMBER nanovdb) name gridClass
         match gvdbType with
         | T_FLOAT => GridType_Float
         | T_FLOAT3 => GridType_Vec3f
         | T_INT => GridType_Int32
         | T_OTHER _ => GridType_Unknown
         end
         0 0).

(** Lines 659-674, the tree header. *)
Definition fill_tree (offsets : list Z) (numNode2s numNode1s numLeaves : Z)
  : TreeData :=
  mkTree
    [ size_t (off offsets R_LEAF - off offsets R_TREE);
      size_t (off offsets R_NODE1 - off offsets R_TREE);
      size_t (off offsets R_NODE2 - off offsets R_TREE);
      size_t (off offsets R_ROOT - off offsets R_TREE) ]
    [ numLeaves; numNode1s; numNode2s; 1 ].

(** Lines 696-709: the instantiation of [ProcessGridExtents] the switch
    over [gvdbType] calls, on the root region seen at that type; the root
    pointer [bufferCPU + dataOffsetsBytes[R_ROOT]] is never null.  Tags
    other than the three cases were rejected during validation; the
    switch has no case for them and the root region stays as it is. *)
Definition ProcessGridExtents_switch (gvdbType : ChannelType)
    (root_f : RootData float) (root_v : RootData Vec3f) (root_i : RootData Z)
    (node2Start : Node2Region) (activeVoxelCount : Z)
    (backgroundPtr : option ValueUnion)
    (numNode2s node2Log2Dim totalLog2Dim : Z) : M RootAny :=
  match gvdbType with
  | T_FLOAT =>
      r <- ProcessGridExtents (Some root_f) node2Start activeVoxelCount
             backgroundPtr numNode2s node2Log2Dim totalLog2Dim ;;
      r <- from_option r ;; ret (Root_float r)
  | T_FLOAT3 =>
      r <- ProcessGridExtents (Some root_v) node2Start activeVoxelCount
             backgroundPtr numNode2s node2Log2Dim totalLog2Dim ;;
      r <- from_option r ;; ret (Root_Vec3f r)
  | T_INT =>
      r <- ProcessGridExtents (Some root_i) node2Start activeVoxelCount
             backgroundPtr numNode2s node2Log2Dim totalLog2Dim ;;
      r <- from_option r ;; ret (Root_int r)
  | T_OTHER _ => ret (Root_int root_i)
  end.

(** Lines 374-722. *)
Definition ExportToNanoVDB (gvdb : VolumeGVDB) (channel : Z)
    (backgroundPtr : option ValueUnion) (gridName : list byte)
    (gridClass : Z) (outTotalSize : option Z) : M Exported :=
  match backgroundPtr, outTotalSize with
  | None, _ => gprintf Error_backgroundPtr_nullptr ;;; failed outTotalSize
  | Some _, None => gprintf Error_outTotalSize_nullptr ;;; failed outTotalSize
  | Some backgroundUnion, Some _ =>
    let brickLog2Dim := getLD gvdb 0 in
    let node1Log2Dim := getLD gvdb 1 in
    let node2Log2Dim := getLD gvdb 2 in
    let gvdbType := GetChannelType gvdb channel in
    if (brickLog2Dim <? 1) || (brickLog2Dim >? 8) then
      gprintf (Error_brick_log2dim brickLog2Dim) ;;; failed outTotalSize
    else if (node1Log2Dim <? 1) || (node1Log2Dim >? 8) then
      gprintf (Error_node1_log2dim node1Log2Dim) ;;; failed outTotalSize
    else if (node2Log2Dim <? 1) || (node2Log2Dim >? 8) then
      gprintf (Error_node2_log2dim node2Log2Dim) ;;; failed outTotalSize
    else
    match gvdbType with
    | T_OTHER tag =>
        gprintf (Error_channel_type channel tag) ;;; failed outTotalSize
    | _ =>
    n2 <- ExportToNanoVDB_GetNumNodes gvdb 2 ;;
    match n2 with None => failed outTotalSize | Some numNode2s =>
    n1 <- ExportToNanoVDB_GetNumNodes gvdb 1 ;;
    match n1 with None => failed outTotalSize | Some numNode1s =>
    n0 <- ExportToNanoVDB_GetNumNodes gvdb 0 ;;
    match n0 with None => failed outTotalSize | Some numLeaves =>
    typeSizes <- ComputeTypeSizes gvdbType brickLog2Dim node1Log2Dim node2Log2Dim ;;
    let sizes := dataSizes typeSizes numNode2s numNode1s numLeaves in
    let offsets := dataOffsetsBytes sizes in
    cuMemAlloc (off offsets R_COUNT) ;;;
    new_uint8_t (off offsets R_NODE1) ;;;
    typeTableIndex <- TypeTableIndex gvdbType ;;
    (* the three kernel launches fill the leaf, level-1 and level-2
       regions on the device *)
    grid_ <- fill_grid gvdbType gridName gridClass ;;
    let tree_ := fill_tree offsets numNode2s numNode1s numLeaves in
    let node2Start := deviceNode2 gvdb in
    let activeVoxelCount := uint64_t (numLeaves * getVoxCnt gvdb 0) in
    let totalLog2Dim := node2Log2Dim + node1Log2Dim + brickLog2Dim in
    let tileCount := Z.to_nat numNode2s in
    root_ <- ProcessGridExtents_switch gvdbType (zeroRoot tileCount) (zeroRoot tileCount)
               (zeroRoot tileCount) node2Start activeVoxelCount backgroundPtr
               numNode2s node2Log2Dim totalLog2Dim ;;
    ret (mkExported
           (bufferGPU (mkImage grid_ tree_ root_ (off offsets R_COUNT)))
           (Some (off offsets R_COUNT)))
    end end end
    end
  end.

End Exporter.

(** ** The grid name as a C string

    The characters of the caller's array before its first terminator, and
    a string truncated or zero-padded to a field of [n] bytes. *)

Fixpoint c_str (buf : list byte) : list byte :=
  match buf with
  | [] => []
  | b :: rest => if Byte.eqb b x00 then [] else b :: c_str rest
  end.

Definition truncated_or_padded (s : list byte) (n : nat) : list byte :=
  firstn n (s ++ repeat x00 n).

(** The C++ value type of a supported channel type. *)
Definition value_tag_of (ty : ChannelType) : ValueTag :=
  match ty with T_FLOAT => VFloat | T_FLOAT3 => VVec3f | T_INT | T_OTHER _ => VInt end.

(** ** The inputs validation rejects, and the message for each *)

Definition invalid_input (gvdb : VolumeGVDB) (channel : Z)
    (backgroundPtr : option ValueUnion) (outTotalSize : option Z) : Prop :=
  backgroundPtr = None \/ outTotalSize = None \/
  ~ (1 <= getLD gvdb 0 <= 8) \/ ~ (1 <= getLD gvdb 1 <= 8) \/
  ~ (1 <= getLD gvdb 2 <= 8) \/
  ~ supported (GetChannelType gvdb channel).

(** [reports msg ...]: the message names a defect the input has. *)
Definition reports (msg : Message) (gvdb : VolumeGVDB) (channel : Z)
    (backgroundPtr : option ValueUnion) (outTotalSize : option Z) : Prop :=
  match msg with
  | Error_backgroundPtr_nullptr => backgroundPtr = None
  | Error_outTotalSize_nullptr => outTotalSize = None
  | Error_brick_log2dim ld => ld = getLD gvdb 0 /\ ~ (1 <= ld <= 8)
  | Error_node1_log2dim ld => ld = getLD gvdb 1 /\ ~ (1 <= ld <= 8)
  | Error_node2_log2dim ld => ld = getLD gvdb 2 /\ ~ (1 <= ld <= 8)
  | Error_channel_type ch tag =>
      ch = channel /\ GetChannelType gvdb channel = T_OTHER tag
  | Error_too_many_nodes _ | Warning_zero_volume => False
  end.

(** ** Sample inputs

    One instance of the target constants and a few small trees, on which
    the model is run. *)

Definition pow8 (ld : Z) : Z := 2 ^ (3 * ld).

Definition value_width (ty : ValueTag) : Z :=
  match ty with VFloat => 4 | VVec3f => 12 | VInt => 4 end.

Definition default_box : CoordBBox :=
  mkBBox (mkCoord INT_MAX INT_MAX INT_MAX) (mkCoord INT_MIN INT_MIN INT_MIN).

Definition sample_nanovdb : NanoVDB := {|
  sizeof_GridData := 672;
  sizeof_TreeData := 64;
  sizeof_RootData := fun ty => 48 + 4 * value_width ty;
  sizeof_Tile := fun ty => 16 + 2 * value_width ty;
  sizeof_InternalNode := fun ty ld => 64 + 2 * (pow8 ld / 8) + pow8 ld * Z.max 8 (value_width ty);
  sizeof_LeafNode := fun ty ld => 32 + pow8 ld / 8 + pow8 ld * value_width ty;
  MaxNameSize := 256;
  NANOVDB_MAGIC_NUMBER := 0x304244566f6e614e;
  CoordBBox_default := default_box
|}.

Definition float_one : float := S754_finite false (2 ^ 23) (-23).
Definition float_minus_one : float := S754_finite true (2 ^ 23) (-23).
Definition float_infinity : float := S754_infinity false.

Definition union_float (x : float) : ValueUnion :=
  mkValueUnion x (mkVec3f x float_zero float_zero) 0.
Definition union_int (x : Z) : ValueUnion :=
  mkValueUnion float_zero (mkVec3f float_zero float_zero float_zero) x.

Definition zero_union : ValueUnion := union_int 0.

(** A level-2 node whose box is the full cube of side [2^T] at [origin]. *)
Definition full_node (origin : Coord) (T : Z) (lo hi : ValueUnion) : NodeRangeData :=
  mkRange lo hi
    (mkBBox origin (mkCoord (c0 origin + 2 ^ T - 1) (c1 origin + 2 ^ T - 1)
                            (c2 origin + 2 ^ T - 1))).

Definition sample_gvdb (ld0 ld1 ld2 : Z) (ty : ChannelType)
    (count2 count1 count0 : Z) (nodes : list NodeRangeData) : VolumeGVDB := {|
  getLD := fun lev => if lev =? 0 then ld0 else if lev =? 1 then ld1 else ld2;
  GetChannelType := fun _ => ty;
  getNumTotalNodes := fun lev => if lev =? 0 then count0 else if lev =? 1 then count1 else count2;
  deviceNode2 := fun n => nth n nodes (mkRange zero_union zero_union (mkBBox zeroCoord zeroCoord))
|}.

(** A caller's name array: the characters, a terminator and [fill] up to
    [n] bytes. *)
Definition name_array (chars : list byte) (fill : byte) (n : nat) : list byte :=
  firstn n (chars ++ [x00] ++ repeat fill n).

Definition name_volume : list byte := name_array [x76; x6f; x6c] x00 256.

(** S3: the empty tree, with the configuration (3, 3, 5) of the mesh
    demo. *)
Definition gvdb_empty : VolumeGVDB := sample_gvdb 5 3 3 T_FLOAT 0 0 0 [].

(** S2: an [int] channel with two level-2 nodes, T = 12. *)
Definition gvdb_S2 : VolumeGVDB :=
  sample_gvdb 4 4 4 T_INT 2 2 2
    [ full_node (mkCoord 4096 0 0) 12 (union_int 1) (union_int 5);
      full_node (mkCoord 0 0 0) 12 (union_int (-3)) (union_int 2) ].

(** Two level-2 nodes of an [int] channel at distinct, aligned origins
    with a negative coordinate, T = 12. *)
Definition gvdb_negative : VolumeGVDB :=
  sample_gvdb 4 4 4 T_INT 2 2 2
    [ full_node (mkCoord 0 0 (-4096)) 12 (union_int 1) (union_int 1);
      full_node (mkCoord 4096 0 (-4096)) 12 (union_int 1) (union_int 1) ].

(** A [float] channel whose only level-2 node holds the value -1
    everywhere, and one that holds +infinity everywhere. *)
Definition gvdb_all_negative : VolumeGVDB :=
  sample_gvdb 5 3 3 T_FLOAT 1 1 1
    [ full_node zeroCoord 11 (union_float float_minus_one) (union_float float_minus_one) ].

Definition gvdb_all_infinite : VolumeGVDB :=
  sample_gvdb 5 3 3 T_FLOAT 1 1 1
    [ full_node zeroCoord 11 (union_float float_infinity) (union_float float_infinity) ].

(** The name "vol" in an array whose bytes after the terminator are
    not zero, as an array that was not cleared before the name was copied
    into it. *)
Definition name_dirty : list byte := name_array [x76; x6f; x6c] xff 256.

(** S4: a level-2 log2dim of 9. *)
Definition gvdb_ld9 : VolumeGVDB := sample_gvdb 3 3 9 T_FLOAT 0 0 0 [].

(** A level-2 log2dim of 8 and a leaf log2dim of 1: both pass the
    validation of the entry point. *)
Definition gvdb_ld8 : VolumeGVDB := sample_gvdb 3 3 8 T_FLOAT 0 0 0 [].
Definition gvdb_ld1 : VolumeGVDB := sample_gvdb 1 5 5 T_FLOAT 0 0 0 [].

(** S5: the configuration (3, 3, 3), T = 9 and 32 - T = 23, with two
    level-2 nodes in distinct cells. *)
Definition gvdb_T9 : VolumeGVDB :=
  sample_gvdb 3 3 3 T_INT 2 2 2
    [ full_node (mkCoord 0 512 0) 9 (union_int 1) (union_int 1);
      full_node (mkCoord 0 0 (2 ^ 30)) 9 (union_int 1) (union_int 1) ].

(** The buffer a call returned, if it returned one. *)
Definition returned_buffer (r : Outcome Exported * World) : option Image :=
  match fst r with
  | Done e => match returned e with bufferGPU img => Some img | GVDB_EXPORT_NANOVDB_NULL => None end
  | _ => None
  end.

(** A call with valid pointers on the sample constants. *)
Definition sample_call (NDEBUG : bool) (gvdb : VolumeGVDB) : Outcome Exported * World :=
  ExportToNanoVDB sample_nanovdb NDEBUG gvdb 0 (Some zero_union) name_volume 0
    (Some 0) initial_world.

(** * Region sums, boxes and launch geometry *)

(** ** Sums of region sizes *)

(** The sum of a list of sizes over the integers. *)
Definition Zsum (l : list Z) : Z := fold_right Z.add 0 l.

(** Sizes that are not negative and whose sum fits [size_t]. *)
Definition no_overflow (sizes : list Z) : Prop :=
  Forall (fun s => 0 <= s) sizes /\ Zsum sizes < 2 ^ 64.

(** ** Boxes inside boxes *)

(** [bbox_contains outer inner]: every face of [inner] lies within
    [outer]. *)
Definition bbox_contains (outer inner : CoordBBox) : Prop :=
  c0 (bbox_min outer) <= c0 (bbox_min inner) /\
  c1 (bbox_min outer) <= c1 (bbox_min inner) /\
  c2 (bbox_min outer) <= c2 (bbox_min inner) /\
  c0 (bbox_max inner) <= c0 (bbox_max outer) /\
  c1 (bbox_max inner) <= c1 (bbox_max outer) /\
  c2 (bbox_max inner) <= c2 (bbox_max outer).

(** A box whose six coordinates are values of [int]. *)
Definition is_int (v : Z) : Prop := INT_MIN <= v <= INT_MAX.

Definition int_box (b : CoordBBox) : Prop :=
  is_int (c0 (bbox_min b)) /\ is_int (c1 (bbox_min b)) /\ is_int (c2 (bbox_min b)) /\
  is_int (c0 (bbox_max b)) /\ is_int (c1 (bbox_max b)) /\ is_int (c2 (bbox_max b)).

(** The background slot of a root header, read at its value type. *)
Definition root_background_is (r : RootAny) (v : forall T, ValueT T -> T) : Prop :=
  match r with
  | Root_float r' => mBackground r' = v float _
  | Root_Vec3f r' => mBackground r' = v Vec3f _
  | Root_int r' => mBackground r' = v Z _
  end.

(** A level-2 node count beyond [INT_MAX]. *)
Definition gvdb_too_many : VolumeGVDB := sample_gvdb 5 3 3 T_FLOAT (2 ^ 31) 0 0 [].

(** ** Launch geometry *)

(** [unsigned int]: 32 bits. *)
Definition uint (v : Z) : Z := v mod 2 ^ 32.

(** Lines 537-538, 560-561 and 581-582: the number of blocks of the
    linear launches, [(numNodes + blockSize - 1) / blockSize] with
    [const uint blockSize = 32], in [unsigned int] arithmetic. *)
Definition export_blockSize : Z := 32.
Definition numBlocks (numNodes : Z) : Z :=
  uint (uint (uint numNodes + export_blockSize) - 1) / export_blockSize.

(** Lines 733 and 739-741 of [RenderNanoVDB]: the size of the image
    buffer, in [size_t] arithmetic, and the grid of 8 x 8 blocks, in
    [unsigned int] arithmetic on the [uint] parameters [width] and
    [height]; both grid dimensions are computed from [width]. *)
Definition render_blockSize : Z := 8.
Definition RenderNanoVDB_imageSize (width height : Z) : Z :=
  size_t (size_t (size_t (width * height) * 4) * 1).
Definition RenderNanoVDB_gridX (width height : Z) : Z :=
  uint (uint (width + render_blockSize) - 1) / render_blockSize.
Definition RenderNanoVDB_gridY (width height : Z) : Z :=
  uint (uint (width + render_blockSize) - 1) / render_blockSize.

(** The lexicographic order of coordinates, first component first. *)
Definition Coord_lex_lt (a b : Coord) : Prop :=
  c0 a < c0 b \/
  (c0 a = c0 b /\ (c1 a < c1 b \/ (c1 a = c1 b /\ c2 a < c2 b))).

(** * Properties *)

(** ** The key encoding *)

Lemma mod64_land a : a mod 2 ^ 64 = Z.land a (Z.ones 64).
Proof. now rewrite Z.land_ones by lia. Qed.

Lemma uint64_lor a b : uint64_t (Z.lor a b) = Z.lor (uint64_t a) (uint64_t b).
Proof. unfold uint64_t. rewrite !mod64_land. apply Z.land_lor_distr_l. Qed.

Lemma u64_shl_uint64 a n : 0 <= n -> u64_shl (uint64_t a) n = uint64_t (Z.shiftl a n).
Proof.
  intros Hn. unfold u64_shl, uint64_t. apply Z.bits_inj'. intros m Hm.
  destruct (Z_lt_ge_dec m 64) as [Hlt|Hge].
  - rewrite !Z.mod_pow2_bits_low by lia. rewrite !Z.shiftl_spec by lia.
    destruct (Z_lt_ge_dec (m - n) 0) as [Hneg|Hpos].
    + now rewrite !Z.testbit_neg_r by lia.
    + now rewrite Z.mod_pow2_bits_low by lia.
  - now rewrite !Z.mod_pow2_bits_high by lia.
Qed.

Lemma CoordToKey_encode ijk T :
  CoordToKey ijk T = uint64_t (encode (c0 ijk) (c1 ijk) (c2 ijk) T).
Proof.
  unfold CoordToKey, encode, int_shr.
  rewrite !u64_shl_uint64 by lia. now rewrite !uint64_lor.
Qed.

Lemma land_low_shiftl a b n :
  0 <= a < 2 ^ n -> 0 <= n -> Z.land a (Z.shiftl b n) = 0.
Proof.
  intros Ha Hn. apply Z.bits_inj'; intros m Hm.
  rewrite Z.land_spec, Z.bits_0.
  destruct (Z_lt_ge_dec m n) as [Hlt|Hge].
  - rewrite (Z.shiftl_spec_low b n m) by lia. apply andb_false_r.
  - destruct (Z.eq_dec a 0) as [->|Hne]; [now rewrite Z.bits_0|].
    rewrite (Z.bits_above_log2 a m); trivial; try lia.
    apply Z.log2_lt_pow2; [lia|].
    apply Z.lt_le_trans with (2 ^ n); [lia|].
    apply Z.pow_le_mono_r; lia.
Qed.

Lemma lor_disjoint_add a b n :
  0 <= a < 2 ^ n -> 0 <= n -> Z.lor a (Z.shiftl b n) = a + b * 2 ^ n.
Proof.
  intros Ha Hn.
  rewrite <- Z.lxor_lor, <- Z.add_nocarry_lxor, Z.shiftl_mul_pow2; trivial;
    now apply land_low_shiftl.
Qed.

Lemma int_shr_range c T :
  0 <= c <= INT_MAX -> 32 - T <= 21 -> 0 <= int_shr c T < 2 ^ 20.
Proof.
  intros Hc HT. unfold int_shr, INT_MAX in *.
  rewrite Z.shiftr_div_pow2 by lia.
  assert (H11 : 2 ^ 11 <= 2 ^ T) by (apply Z.pow_le_mono_r; lia).
  split.
  - apply Z.div_pos; lia.
  - apply Z.div_lt_upper_bound; [lia|].
    change (2 ^ 31) with (2 ^ 11 * 2 ^ 20) in Hc. nia.
Qed.

Lemma CoordToKey_sum ijk T :
  nonneg_coord ijk -> 32 - T <= 21 ->
  CoordToKey ijk T
  = int_shr (c2 ijk) T + int_shr (c1 ijk) T * 2 ^ 21 + int_shr (c0 ijk) T * 2 ^ 42.
Proof.
  intros (H0 & H1 & H2) HT.
  apply (int_shr_range _ T) in H0, H1, H2; trivial.
  rewrite CoordToKey_encode. unfold encode. fold (int_shr (c0 ijk) T) (int_shr (c1 ijk) T) (int_shr (c2 ijk) T).
  rewrite (lor_disjoint_add (int_shr (c2 ijk) T)) by lia.
  rewrite lor_disjoint_add by lia.
  unfold uint64_t. apply Z.mod_small. lia.
Qed.

Lemma CoordToKey_63_bits ijk T :
  nonneg_coord ijk -> 32 - T <= 21 -> 0 <= CoordToKey ijk T < 2 ^ 63.
Proof.
  intros Hc HT. rewrite CoordToKey_sum by trivial.
  destruct Hc as (H0 & H1 & H2).
  apply (int_shr_range _ T) in H0, H1, H2; trivial. lia.
Qed.

Lemma CoordToKey_injective a b T :
  nonneg_coord a -> nonneg_coord b -> 32 - T <= 21 ->
  CoordToKey a T = CoordToKey b T -> cell a T = cell b T.
Proof.
  intros Ha Hb HT. rewrite !CoordToKey_sum by trivial.
  destruct Ha as (A0 & A1 & A2), Hb as (B0 & B1 & B2).
  apply (int_shr_range _ T) in A0, A1, A2, B0, B1, B2; trivial.
  intros E. unfold cell. f_equal; lia.
Qed.

(** ** The sort *)

Lemma sort_insert_Permutation comp x l :
  Permutation (sort_insert comp x l) (x :: l).
Proof.
  induction l as [|y l IH]; simpl.
  - apply Permutation_refl.
  - destruct (comp x y).
    + apply Permutation_refl.
    + eapply perm_trans; [apply perm_skip, IH | apply perm_swap].
Qed.

Lemma std_sort_Permutation comp l : Permutation (std_sort comp l) l.
Proof.
  induction l as [|x l IH]; simpl.
  - constructor.
  - eapply perm_trans; [apply sort_insert_Permutation | now apply perm_skip].
Qed.

Lemma sort_insert_HdRel a x l :
  key_le a x -> HdRel key_le a l -> HdRel key_le a (sort_insert tile_less x l).
Proof.
  intros Hax Hal. destruct l as [|y l]; simpl.
  - now constructor.
  - destruct (tile_less x y); constructor; trivial.
    now inversion Hal.
Qed.

Lemma sort_insert_Sorted x l :
  Sorted key_le l -> Sorted key_le (sort_insert tile_less x l).
Proof.
  induction 1 as [|y l Hs IH Hhd]; simpl.
  - repeat constructor.
  - unfold tile_less at 1. destruct (Z.ltb_spec (key x) (key y)) as [Hlt|Hge].
    + constructor; [now constructor|]. constructor. unfold key_le. lia.
    + constructor; trivial. apply sort_insert_HdRel; trivial.
Qed.

Lemma std_sort_Sorted l : Sorted key_le (std_sort tile_less l).
Proof.
  induction l as [|x l IH]; simpl.
  - constructor.
  - now apply sort_insert_Sorted.
Qed.

(** With no two equal keys, an ascending order is a strict one. *)
Lemma Sorted_distinct_keys l :
  Sorted key_le l -> NoDup (map key l) -> Sorted key_lt l.
Proof.
  induction 1 as [|a l Hs IH Hhd]; simpl; intros Hnd.
  - constructor.
  - inversion Hnd as [|k ks Hnotin Hnd']; subst.
    constructor; [now apply IH|].
    destruct Hhd as [|b l' Hab]; constructor.
    unfold key_le in Hab. unfold key_lt.
    assert (key a <> key b) by (intros E; apply Hnotin; simpl; now left).
    lia.
Qed.

(** ** Arrays and the tile loop *)

Lemma array_set_length {A} (l : list A) n x : length (array_set l n x) = length l.
Proof.
  revert n; induction l as [|y l IH]; intros [|n]; simpl; auto.
Qed.

Lemma array_set_middle {A} (l1 l2 : list A) y x :
  array_set (l1 ++ y :: l2) (length l1) x = l1 ++ x :: l2.
Proof.
  induction l1 as [|z l1 IH]; simpl; [reflexivity | now rewrite IH].
Qed.

Section Loop.

Context {T : Type} `{ValueT T}.
Variable rangeFunc : Node2RangeFunc.
Variable node2Start : Node2Region.
Variable totalLog2Dim : Z.

Local Abbreviation written_tile := (written_tile rangeFunc node2Start totalLog2Dim).

Let step := tile_step rangeFunc node2Start totalLog2Dim.

Lemma loop_tiles l (st : Extents T) :
  x_tiles (fold_left step l st)
  = fold_left (fun ts t => array_set ts t (written_tile t)) l (x_tiles st).
Proof.
  revert st; induction l as [|t l IH]; intros st; simpl; [reflexivity|].
  now rewrite IH.
Qed.

Lemma loop_valueMin l (st : Extents T) :
  x_valueMin (fold_left step l st)
  = fold_left ExportToNanoVDB_Min
      (map (fun t => getValueUnion (valueMin (rangeFunc node2Start t))) l)
      (x_valueMin st).
Proof.
  revert st; induction l as [|t l IH]; intros st; simpl; [reflexivity|].
  now rewrite IH.
Qed.

Lemma loop_valueMax l (st : Extents T) :
  x_valueMax (fold_left step l st)
  = fold_left ExportToNanoVDB_Max
      (map (fun t => getValueUnion (valueMax (rangeFunc node2Start t))) l)
      (x_valueMax st).
Proof.
  revert st; induction l as [|t l IH]; intros st; simpl; [reflexivity|].
  now rewrite IH.
Qed.

Lemma loop_indexAABB l (st : Extents T) :
  indexAABB (fold_left step l st)
  = fold_left expand_box (map (fun t => aabb (rangeFunc node2Start t)) l)
      (indexAABB st).
Proof.
  revert st; induction l as [|t l IH]; intros st; simpl; [reflexivity|].
  now rewrite IH.
Qed.

(** After [n] iterations the first [n] tiles are the written ones. *)
Lemma tiles_written n (ts : list Tile) :
  (n <= length ts)%nat ->
  fold_left (fun ts t => array_set ts t (written_tile t)) (seq 0 n) ts
  = map written_tile (seq 0 n) ++ skipn n ts.
Proof.
  induction n as [|n IH]; intros Hn.
  - reflexivity.
  - rewrite seq_S, fold_left_app, map_app; simpl.
    rewrite IH by lia.
    destruct (skipn n ts) as [|y rest] eqn:Hsk.
    + apply (f_equal (@length Tile)) in Hsk. rewrite length_skipn in Hsk.
      simpl in Hsk; lia.
    + assert (Hlen : length (map written_tile (seq 0 n)) = n)
        by now rewrite length_map, length_seq.
      rewrite <- Hlen at 2. rewrite array_set_middle.
      rewrite <- app_assoc; simpl. do 2 f_equal.
      assert (E : skipn (S n) ts = skipn 1 (skipn n ts))
        by (rewrite skipn_skipn; reflexivity).
      change (rest = skipn (S n) ts). rewrite E, Hsk. reflexivity.
Qed.

End Loop.

(** ** Running the monad *)

Lemma bind_Done {A B} (m : M A) (k : A -> M B) w b w' :
  bind m k w = (Done b, w') ->
  exists a w1, m w = (Done a, w1) /\ k a w1 = (Done b, w').
Proof.
  unfold bind. destruct (m w) as [[a| |] w1]; intros E; try discriminate.
  now exists a, w1.
Qed.

Lemma ret_Done {A} (a b : A) w w' : ret a w = (Done b, w') -> a = b /\ w = w'.
Proof. unfold ret. intros E; inversion E; auto. Qed.

Lemma assert_Done NDEBUG cond which w u w' :
  assert NDEBUG cond which w = (Done u, w') ->
  (NDEBUG = true \/ cond = true) /\ w = w'.
Proof.
  unfold assert. destruct NDEBUG; simpl.
  - intros E; inversion E; auto.
  - destruct cond; intros E; inversion E; auto.
Qed.

Lemma from_option_Done {A} (o : option A) a w w' :
  from_option o w = (Done a, w') -> o = Some a /\ w = w'.
Proof.
  destruct o; simpl; unfold ret, undefined; intros E; inversion E; auto.
Qed.

(** ** The function tables *)

Lemma table_get_rangeFunctions row col rf :
  table_get rangeFunctions row col = Some rf ->
  0 <= col <= 5 /\ rf = (fun node2Start nodeIdx => node2Start nodeIdx).
Proof.
  unfold table_get. destruct (Z.ltb_spec col 0) as [|Hcol]; [discriminate|].
  intros E.
  assert (Hrow : (row < 3)%nat).
  { destruct row as [|[|[|row]]]; try lia.
    simpl in E. destruct row; discriminate. }
  assert (Hc : (Z.to_nat col < 6)%nat).
  { destruct row as [|[|[|row]]]; try lia; simpl in E;
      match type of E with nth_error ?l _ = _ =>
        apply (proj1 (nth_error_Some l (Z.to_nat col))) end;
      rewrite E; discriminate. }
  split; [lia|].
  destruct row as [|[|[|row]]]; try lia; simpl in E;
    destruct (Z.to_nat col) as [|[|[|[|[|[|c]]]]]]; simpl in E; try lia;
    inversion E; reflexivity.
Qed.

Lemma table_get_in_range {A} (g : ValueTag -> Z -> A) ty ld :
  2 <= ld <= 7 ->
  table_get (map (fun ty => map (g ty) table_log2dims) table_types)
    (type_row ty) (ld - 2) = Some (g ty ld).
Proof.
  intros Hld. unfold table_get.
  destruct (Z.ltb_spec (ld - 2) 0); [lia|].
  assert (Hcases : ld = 2 \/ ld = 3 \/ ld = 4 \/ ld = 5 \/ ld = 6 \/ ld = 7) by lia.
  destruct ty; destruct Hcases as [->|[->|[->|[->|[->| ->]]]]]; reflexivity.
Qed.

(** ** What a completed [ProcessGridExtents] has written *)

Section ExporterFacts.

Variable nanovdb : NanoVDB.
Variable NDEBUG : bool.

Lemma ProcessGridExtents_Done {T} `{ValueT T} (root0 : RootData T)
    node2Start avc bg n ld2 tot w r w' :
  ProcessGridExtents nanovdb NDEBUG (Some root0) node2Start avc (Some bg)
    n ld2 tot w = (Done r, w') ->
  (Z.to_nat n <= length (tiles root0))%nat ->
  let ids := seq 0 (Z.to_nat n) in
  exists r',
    r = Some r' /\
    2 <= ld2 <= 7 /\
    (NDEBUG = true \/ 32 - tot <= 21) /\
    tiles r' =
      std_sort tile_less
        (map (fun t => setChild (bbox_min (aabb (node2Start t))) tot t) ids)
      ++ skipn (Z.to_nat n) (tiles root0) /\
    mMinimum r' =
      fold_left ExportToNanoVDB_Min
        (map (fun t => getValueUnion (valueMin (node2Start t))) ids)
        ExportToNanoVDB_MaximumValue /\
    mMaximum r' =
      fold_left ExportToNanoVDB_Max
        (map (fun t => getValueUnion (valueMax (node2Start t))) ids)
        ExportToNanoVDB_MinimumValue /\
    mBBox r' =
      fold_left expand_box (map (fun t => aabb (node2Start t)) ids)
        (CoordBBox_default nanovdb) /\
    mActiveVoxelCount r' = avc /\
    mTileCount r' = n /\
    mBackground r' = getValueUnion bg /\
    printed w' =
      printed w ++
      (if Coord_eqb (bbox_min (mBBox r')) (bbox_max (mBBox r'))
       then [Warning_zero_volume] else []) /\
    cuMemAlloc_sizes w' = cuMemAlloc_sizes w /\
    new_sizes w' = new_sizes w.
Proof.
  intros E Hlen ids. unfold ProcessGridExtents in E.
  apply bind_Done in E as (rf & w1 & Erf & E).
  apply from_option_Done in Erf as [Erf ->].
  apply table_get_rangeFunctions in Erf as [Hcol ->].
  apply bind_Done in E as (u & w2 & Eas & E).
  apply assert_Done in Eas as [Has ->].
  apply bind_Done in E as (u' & w3 & Ewarn & E).
  apply ret_Done in E as [<- ->].
  eexists; split; [reflexivity|]. simpl.
  rewrite loop_tiles, loop_valueMin, loop_valueMax, loop_indexAABB; simpl.
  unfold sort_tiles. rewrite tiles_written by exact Hlen.
  rewrite firstn_app, skipn_app, length_map, length_seq, Nat.sub_diag; simpl.
  rewrite app_nil_r.
  rewrite firstn_all2 by (rewrite length_map, length_seq; lia).
  rewrite (skipn_all2 (n := Z.to_nat n)) by (rewrite length_map, length_seq; lia).
  simpl.
  repeat split; try reflexivity; try lia.
  - destruct Has as [Hn|Hc]; [now left|right]. apply Z.leb_le in Hc. exact Hc.
  - rewrite loop_indexAABB in Ewarn; simpl in Ewarn. fold ids in Ewarn.
    destruct (Coord_eqb _ _); [unfold gprintf in Ewarn|apply ret_Done in Ewarn as [_ <-]].
    + inversion Ewarn; reflexivity.
    + now rewrite app_nil_r.
  - rewrite loop_indexAABB in Ewarn; simpl in Ewarn.
    destruct (Coord_eqb _ _); [unfold gprintf in Ewarn|apply ret_Done in Ewarn as [_ <-]];
      [inversion Ewarn|]; reflexivity.
  - rewrite loop_indexAABB in Ewarn; simpl in Ewarn.
    destruct (Coord_eqb _ _); [unfold gprintf in Ewarn|apply ret_Done in Ewarn as [_ <-]];
      [inversion Ewarn|]; reflexivity.
Qed.

Lemma ProcessGridExtents_switch_Done ty n node2Start avc bg ld2 tot w r w' :
  ProcessGridExtents_switch nanovdb NDEBUG ty
    (zeroRoot (Z.to_nat n)) (zeroRoot (Z.to_nat n)) (zeroRoot (Z.to_nat n))
    node2Start avc (Some bg) n ld2 tot w = (Done r, w') ->
  supported ty ->
  let ids := seq 0 (Z.to_nat n) in
  2 <= ld2 <= 7 /\
  (NDEBUG = true \/ 32 - tot <= 21) /\
  root_type r = ty /\
  root_tiles r =
    std_sort tile_less
      (map (fun t => setChild (bbox_min (aabb (node2Start t))) tot t) ids) /\
  root_minimum_is r (fold_valueMin node2Start ids) /\
  root_maximum_is r (fold_valueMax node2Start ids) /\
  root_bbox r =
    fold_left expand_box (map (fun t => aabb (node2Start t)) ids)
      (CoordBBox_default nanovdb) /\
  root_activeVoxelCount r = avc /\
  root_tileCount r = n /\
  printed w' =
    printed w ++
    (if Coord_eqb (bbox_min (root_bbox r)) (bbox_max (root_bbox r))
     then [Warning_zero_volume] else []) /\
  cuMemAlloc_sizes w' = cuMemAlloc_sizes w /\
  new_sizes w' = new_sizes w.
Proof.
  intros E Hsup ids.
  assert (Hlen : forall T (VT : ValueT T),
             (Z.to_nat n <= length (tiles (zeroRoot (T := T) (Z.to_nat n))))%nat)
    by (intros; simpl; rewrite repeat_length; lia).
  assert (Hskip : forall T (VT : ValueT T),
             skipn (Z.to_nat n) (tiles (zeroRoot (T := T) (Z.to_nat n))) = [])
    by (intros; simpl; apply skipn_all2; rewrite repeat_length; lia).
  destruct Hsup as [->|[->| ->]]; unfold ProcessGridExtents_switch in E;
    apply bind_Done in E as (o & w1 & E & E2);
    apply bind_Done in E2 as (r' & w2 & Eo & E2);
    apply from_option_Done in Eo as [-> ->];
    apply ret_Done in E2 as [<- ->];
    apply ProcessGridExtents_Done in E; try apply Hlen;
    destruct E as (r0 & Er0 & Hld & Has & Ht & Hmin & Hmax & Hbox & Havc & Hcnt & _ & Hp & Ha & Hn);
    inversion Er0; subst r0; rewrite Hskip, app_nil_r in Ht;
    simpl; repeat split; trivial; try lia.
Qed.

Lemma failed_not_buffer o w img sz w' :
  failed o w = (Done (mkExported (bufferGPU img) sz), w') -> False.
Proof. unfold failed, ret. intros E; inversion E. Qed.

Lemma gprintf_failed_not_buffer msg o w img sz w' :
  (gprintf msg ;;; failed o) w = (Done (mkExported (bufferGPU img) sz), w') -> False.
Proof. unfold bind, gprintf. apply failed_not_buffer. Qed.

Lemma GetNumNodes_Done gvdb level w o w' :
  ExportToNanoVDB_GetNumNodes gvdb level w = (Done o, w') ->
  (o = None \/ (o = Some (getNumTotalNodes gvdb level) /\
                getNumTotalNodes gvdb level <= INT_MAX /\ w' = w)).
Proof.
  unfold ExportToNanoVDB_GetNumNodes.
  destruct (Z.gtb_spec (getNumTotalNodes gvdb level) INT_MAX).
  - unfold bind, gprintf, ret. intros E; inversion E; now left.
  - intros E; apply ret_Done in E as [<- <-]. right; repeat split; lia.
Qed.

Lemma TypeTableIndex_world ty w o w' :
  TypeTableIndex NDEBUG ty w = (o, w') -> w' = w.
Proof.
  destruct ty; simpl; unfold ret; try (intros E; now inversion E).
  unfold bind, assert, ret; simpl. destruct NDEBUG; simpl; intros E; now inversion E.
Qed.

Lemma DataTypeSizeLookup_world sizes ty ld w o w' :
  DataTypeSizeLookup NDEBUG sizes ty ld w = (o, w') -> w' = w.
Proof.
  unfold DataTypeSizeLookup. destruct (_ || _).
  - unfold bind, assert, ret; simpl. destruct NDEBUG; simpl; intros E; now inversion E.
  - unfold bind. destruct (TypeTableIndex NDEBUG ty w) as [[row| |] w1] eqn:Ei;
      apply TypeTableIndex_world in Ei; subst w1;
      try (intros E; now inversion E).
    destruct (table_get sizes row (ld - 2)); simpl; unfold ret, undefined;
      intros E; now inversion E.
Qed.

Lemma ComputeTypeSizes_world ty ld0 ld1 ld2 w o w' :
  ComputeTypeSizes nanovdb NDEBUG ty ld0 ld1 ld2 w = (o, w') -> w' = w.
Proof.
  unfold ComputeTypeSizes.
  destruct (match ty with T_FLOAT => _ | T_FLOAT3 => _ | T_INT => _ | T_OTHER _ => _ end)
    as [rr rt].
  unfold bind.
  destruct (DataTypeSizeLookup NDEBUG (nodeSizes nanovdb) ty ld2 w) as [[a| |] w1] eqn:E1;
    apply DataTypeSizeLookup_world in E1; subst w1; try (intros E; now inversion E).
  destruct (DataTypeSizeLookup NDEBUG (nodeSizes nanovdb) ty ld1 w) as [[b| |] w1] eqn:E2;
    apply DataTypeSizeLookup_world in E2; subst w1; try (intros E; now inversion E).
  destruct (DataTypeSizeLookup NDEBUG (leafSizes nanovdb) ty ld0 w) as [[c| |] w1] eqn:E3;
    apply DataTypeSizeLookup_world in E3; subst w1; intros E; now inversion E.
Qed.

Lemma log2dim_check ld : (ld <? 1) || (ld >? 8) = false <-> 1 <= ld <= 8.
Proof.
  rewrite orb_false_iff, Z.ltb_ge, Z.gtb_ltb, Z.ltb_ge. lia.
Qed.

(** What a call that returned a buffer went through. *)
Lemma ExportToNanoVDB_Done gvdb channel bgp name cls out w img sz w' :
  ExportToNanoVDB nanovdb NDEBUG gvdb channel bgp name cls out w
    = (Done (mkExported (bufferGPU img) sz), w') ->
  let ty := GetChannelType gvdb channel in
  let n2 := getNumTotalNodes gvdb 2 in
  exists bg w1,
    bgp = Some bg /\ out <> None /\ supported ty /\
    1 <= getLD gvdb 0 <= 8 /\ 1 <= getLD gvdb 1 <= 8 /\ 1 <= getLD gvdb 2 <= 8 /\
    n2 <= INT_MAX /\ getNumTotalNodes gvdb 1 <= INT_MAX /\
    getNumTotalNodes gvdb 0 <= INT_MAX /\
    (MaxNameSize nanovdb <= length name)%nat /\
    mGridName (gridData img) = firstn (MaxNameSize nanovdb) name /\
    sz = Some (image_size img) /\
    printed w1 = printed w /\
    (exists typeSizes,
        ComputeTypeSizes nanovdb NDEBUG ty (getLD gvdb 0) (getLD gvdb 1) (getLD gvdb 2) w
        = (Done typeSizes, w) /\
        image_size img =
          off (dataOffsetsBytes (dataSizes typeSizes n2 (getNumTotalNodes gvdb 1)
                                   (getNumTotalNodes gvdb 0))) R_COUNT /\
        cuMemAlloc_sizes w1 = cuMemAlloc_sizes w ++ [image_size img]) /\
    ProcessGridExtents_switch nanovdb NDEBUG ty
      (zeroRoot (Z.to_nat n2)) (zeroRoot (Z.to_nat n2)) (zeroRoot (Z.to_nat n2))
      (deviceNode2 gvdb) (uint64_t (getNumTotalNodes gvdb 0 * getVoxCnt gvdb 0))
      (Some bg) n2 (getLD gvdb 2)
      (getLD gvdb 2 + getLD gvdb 1 + getLD gvdb 0) w1
    = (Done (rootData img), w').
Proof.
  intros E. cbv zeta. unfold ExportToNanoVDB in E. cbv zeta in E.
  remember (GetChannelType gvdb channel) as ty eqn:Ety.
  remember (getNumTotalNodes gvdb 2) as n2 eqn:En2.
  destruct bgp as [bg|]; [|now apply gprintf_failed_not_buffer in E].
  destruct out as [old|]; [|now apply gprintf_failed_not_buffer in E].
  destruct ((getLD gvdb 0 <? 1) || (getLD gvdb 0 >? 8)) eqn:H0;
    [now apply gprintf_failed_not_buffer in E|].
  destruct ((getLD gvdb 1 <? 1) || (getLD gvdb 1 >? 8)) eqn:H1;
    [now apply gprintf_failed_not_buffer in E|].
  destruct ((getLD gvdb 2 <? 1) || (getLD gvdb 2 >? 8)) eqn:H2;
    [now apply gprintf_failed_not_buffer in E|].
  apply log2dim_check in H0, H1, H2.
  assert (Hsup : supported ty /\
    exists w1, printed w1 = printed w /\
      (MaxNameSize nanovdb <= length name)%nat /\
      mGridName (gridData img) = firstn (MaxNameSize nanovdb) name /\
      sz = Some (image_size img) /\
      n2 <= INT_MAX /\ getNumTotalNodes gvdb 1 <= INT_MAX /\
      getNumTotalNodes gvdb 0 <= INT_MAX /\
      (exists typeSizes,
        ComputeTypeSizes nanovdb NDEBUG ty (getLD gvdb 0) (getLD gvdb 1) (getLD gvdb 2) w
        = (Done typeSizes, w) /\
        image_size img =
          off (dataOffsetsBytes (dataSizes typeSizes n2 (getNumTotalNodes gvdb 1)
                                   (getNumTotalNodes gvdb 0))) R_COUNT /\
        cuMemAlloc_sizes w1 = cuMemAlloc_sizes w ++ [image_size img]) /\
      ProcessGridExtents_switch nanovdb NDEBUG ty
        (zeroRoot (Z.to_nat n2)) (zeroRoot (Z.to_nat n2)) (zeroRoot (Z.to_nat n2))
        (deviceNode2 gvdb) (uint64_t (getNumTotalNodes gvdb 0 * getVoxCnt gvdb 0))
        (Some bg) n2 (getLD gvdb 2)
        (getLD gvdb 2 + getLD gvdb 1 + getLD gvdb 0) w1
      = (Done (rootData img), w')).
  { unfold supported.
    destruct ty; [| | |now apply gprintf_failed_not_buffer in E];
      (split; [auto|]);
      apply bind_Done in E as (o2 & wa & E2 & E);
      (apply GetNumNodes_Done in E2 as [->|(-> & Hn2 & ->)];
        [now apply failed_not_buffer in E|]);
      apply bind_Done in E as (o1 & wa & E1 & E);
      (apply GetNumNodes_Done in E1 as [->|(-> & Hn1 & ->)];
        [now apply failed_not_buffer in E|]);
      apply bind_Done in E as (o0 & wa & E0 & E);
      (apply GetNumNodes_Done in E0 as [->|(-> & Hn0 & ->)];
        [now apply failed_not_buffer in E|]);
      apply bind_Done in E as (ts & wa & Ets & E);
      pose proof (ComputeTypeSizes_world _ _ _ _ _ _ _ Ets) as Ewa; subst wa;
      apply bind_Done in E as (u1 & wa & Ea & E);
      apply bind_Done in E as (u2 & wb & Eb & E);
      apply bind_Done in E as (idx & wc & Ec & E);
      apply TypeTableIndex_world in Ec; subst wc;
      apply bind_Done in E as (g & wd & Eg & E);
      apply bind_Done in E as (r & we & Er & E);
      apply ret_Done in E as [E <-];
      inversion E; subst; clear E;
      unfold fill_grid in Eg;
      apply bind_Done in Eg as (nm & wf & Em & Eg);
      apply ret_Done in Eg as [<- ->];
      unfold memcpy in Em;
      (destruct (Nat.leb_spec (MaxNameSize nanovdb) (length name));
        [apply ret_Done in Em as [<- ->] | discriminate]);
      unfold cuMemAlloc in Ea; inversion Ea; subst; clear Ea;
      unfold new_uint8_t in Eb; inversion Eb; subst; clear Eb;
      match type of Er with ?c ?w1 = _ => exists w1 end;
      (repeat split; try exact Er; try assumption; try reflexivity);
      exists ts; repeat split; try assumption; reflexivity. }
  destruct Hsup as (Hsup & w1 & Hp & Hlen & Hname & Hsz & Hn2 & Hn1 & Hn0 & Hts & Hr).
  exists bg, w1. repeat split; try assumption; try lia. discriminate.
Qed.

End ExporterFacts.

(** * The claims *)



(** For origins without a sign bit and under the restriction
    [32 - T <= 21] the key needs no more than 63 bits and is the encoding
    read over the integers. *)
Lemma key_is_63_bit ijk T :
  nonneg_coord ijk -> 32 - T <= 21 ->
  CoordToKey ijk T = encode (c0 ijk) (c1 ijk) (c2 ijk) T /\
  0 <= CoordToKey ijk T < 2 ^ 63.
Proof.
  intros Hc HT. pose proof (CoordToKey_63_bits ijk T Hc HT) as Hb. split; trivial.
  rewrite CoordToKey_encode in *. unfold uint64_t in *.
  assert (Hm := Z.mod_pos_bound (encode (c0 ijk) (c1 ijk) (c2 ijk) T) (2 ^ 64) ltac:(lia)).
  destruct Hc as (A0 & A1 & A2).
  apply (int_shr_range _ T) in A0, A1, A2; trivial.
  unfold encode. fold (int_shr (c0 ijk) T) (int_shr (c1 ijk) T) (int_shr (c2 ijk) T).
  rewrite (lor_disjoint_add (int_shr (c2 ijk) T)) by lia.
  rewrite lor_disjoint_add by lia.
  apply Z.mod_small. lia.
Qed.

(** A negative coordinate is sign-extended by the conversion to
    [uint64_t] and sets every higher bit of the key. *)
Lemma key_of_negative_origin :
  CoordToKey (mkCoord 0 0 (-4096)) 12 = 2 ^ 64 - 1 /\
  CoordToKey (mkCoord 4096 0 (-4096)) 12 = 2 ^ 64 - 1.
Proof. split; reflexivity. Qed.

(** The keys the loop writes are pairwise distinct as soon as the nodes
    lie in distinct cells, at origins without a sign bit. *)
Lemma written_keys_NoDup (node2Start : Node2Region) T n :
  32 - T <= 21 ->
  (forall t, (t < n)%nat -> nonneg_coord (bbox_min (aabb (node2Start t)))) ->
  (forall s t, (s < n)%nat -> (t < n)%nat ->
     cell (bbox_min (aabb (node2Start s))) T = cell (bbox_min (aabb (node2Start t))) T ->
     s = t) ->
  NoDup (map key (map (fun t => setChild (bbox_min (aabb (node2Start t))) T t) (seq 0 n))).
Proof.
  intros HT Hpos Hcell. rewrite map_map. simpl.
  apply NoDup_map_NoDup_ForallPairs; [|apply seq_NoDup].
  intros s t Hs Ht E. apply in_seq in Hs, Ht.
  apply Hcell; try lia.
  apply CoordToKey_injective in E; trivial; apply Hpos; lia.
Qed.

(** What the sort gives for every export: the keys of the emitted tile
    array are in ascending order, and strictly so (no ties between
    adjacent tiles) when [32 - T <= 21] and the origins of the level-2
    nodes have no negative component and fall in pairwise distinct cells
    [(i >> T, j >> T, k >> T)]. *)
Lemma keys_ascending nanovdb NDEBUG gvdb channel bgp name cls out w img sz w' :
  ExportToNanoVDB nanovdb NDEBUG gvdb channel bgp name cls out w
    = (Done (mkExported (bufferGPU img) sz), w') ->
  let T := getLD gvdb 0 + getLD gvdb 1 + getLD gvdb 2 in
  let emitted := root_tiles (rootData img) in
  let origin := fun t => bbox_min (aabb (deviceNode2 gvdb t)) in
  let numNode2s := Z.to_nat (getNumTotalNodes gvdb 2) in
  Sorted key_le emitted /\
  (32 - T <= 21 ->
   (forall t, (t < numNode2s)%nat -> nonneg_coord (origin t)) ->
   (forall s t, (s < numNode2s)%nat -> (t < numNode2s)%nat ->
      cell (origin s) T = cell (origin t) T -> s = t) ->
   Sorted key_lt emitted).
Proof.
  intros E T emitted origin numNode2s.
  apply ExportToNanoVDB_Done in E
    as (bg & w1 & _ & _ & Hsup & _ & _ & _ & _ & _ & _ & _ & _ & _ & _ & _ & E).
  apply ProcessGridExtents_switch_Done in E as (_ & _ & _ & Ht & _); trivial.
  fold emitted in Ht.
  replace (getLD gvdb 2 + getLD gvdb 1 + getLD gvdb 0) with T in Ht by (unfold T; lia).
  fold numNode2s in Ht.
  assert (Hle : Sorted key_le emitted) by (rewrite Ht; apply std_sort_Sorted).
  split; [exact Hle|].
  intros HT Hpos Hcell. apply Sorted_distinct_keys; [exact Hle|].
  eapply Permutation_NoDup.
  - apply Permutation_map, Permutation_sym. rewrite Ht. apply std_sort_Permutation.
  - now apply written_keys_NoDup.
Qed.

Lemma keys_ascending_witness :
  exists img sz w',
    sample_call false gvdb_S2 = (Done (mkExported (bufferGPU img) sz), w') /\
    Sorted key_lt (root_tiles (rootData img)).
Proof.
  eexists _, _, _. split.
  - vm_compute. reflexivity.
  - apply (keys_ascending sample_nanovdb false gvdb_S2 0 (Some zero_union)
             name_volume 0 (Some 0) initial_world _ _ _ eq_refl).
    + vm_compute. discriminate.
    + intros [|[|t]] Ht; [| |simpl in Ht; lia];
        vm_compute; repeat split; discriminate.
    + intros [|[|s]] [|[|t]] Hs Ht; simpl in Hs, Ht; try lia; trivial;
        vm_compute; discriminate.
Defined.

(** C2.  The packing of lines 299-301 gives each shifted coordinate a
    field of 21 bits, and the comment of lines 318-319 has the sort put
    the keys in ascending order for [RootNode::findTile].  The conversion
    [uint64_t(ijk[2] >> T)] of a negative coordinate sign-extends over the
    two higher fields: the level-2 nodes at the aligned origins
    (0, 0, -4096) and (4096, 0, -4096), T = 12 and [32 - T = 20], lie in
    the distinct cells (0, 0, -1) and (1, 0, -1) and are exported, with
    and without assertions, under the one key 2^64 - 1, so that the
    emitted keys are not strictly ascending. *)
Theorem C2_negative_origin_ties :
  let origin := fun t => bbox_min (aabb (deviceNode2 gvdb_negative t)) in
  let T := getLD gvdb_negative 0 + getLD gvdb_negative 1 + getLD gvdb_negative 2 in
  getNumTotalNodes gvdb_negative 2 = 2 /\
  32 - T = 20 /\
  origin 0%nat = mkCoord 0 0 (-4096) /\
  origin 1%nat = mkCoord 4096 0 (-4096) /\
  cell (origin 0%nat) T = mkCoord 0 0 (-1) /\
  cell (origin 1%nat) T = mkCoord 1 0 (-1) /\
  uint64_t (int_shr (c2 (origin 0%nat)) T) = 2 ^ 64 - 1 /\
  (forall NDEBUG,
   exists img sz w',
     sample_call NDEBUG gvdb_negative = (Done (mkExported (bufferGPU img) sz), w') /\
     map key (root_tiles (rootData img)) = [2 ^ 64 - 1; 2 ^ 64 - 1] /\
     ~ Sorted key_lt (root_tiles (rootData img))).
Proof.
  cbv zeta. repeat (split; [reflexivity|]).
  intros [|]; eexists _, _, _;
    (split; [vm_compute; reflexivity|]);
    (split; [reflexivity|]);
    intros Hs; simpl in Hs; inversion Hs as [|a l Hs' Hhd]; subst;
    inversion Hhd as [|b l' Hlt]; subst; unfold key_lt in Hlt; simpl in Hlt; lia.
Qed.

(** The typed part of a completed export. *)
Lemma exported_value_range nanovdb NDEBUG gvdb channel bgp name cls out w img sz w' :
  ExportToNanoVDB nanovdb NDEBUG gvdb channel bgp name cls out w
    = (Done (mkExported (bufferGPU img) sz), w') ->
  let ids := seq 0 (Z.to_nat (getNumTotalNodes gvdb 2)) in
  root_minimum_is (rootData img) (fold_valueMin (deviceNode2 gvdb) ids) /\
  root_maximum_is (rootData img) (fold_valueMax (deviceNode2 gvdb) ids).
Proof.
  intros E ids.
  apply ExportToNanoVDB_Done in E
    as (bg & w1 & _ & _ & Hsup & _ & _ & _ & _ & _ & _ & _ & _ & _ & _ & _ & E).
  apply ProcessGridExtents_switch_Done in E as (_ & _ & _ & _ & Hmin & Hmax & _); trivial.
  now split.
Qed.

(** C4, amended.  The root header's value minimum is the pairwise-minimum
    fold of the level-2 nodes' value minima started from the largest
    finite value of the type (FLT_MAX, componentwise for Vec3F32, INT_MAX
    for I32), and for Vec3F32 and I32 its value maximum is the
    pairwise-maximum fold of their value maxima started from -FLT_MAX
    componentwise, respectively INT_MIN. *)
Theorem C4_value_range_fold nanovdb NDEBUG gvdb channel bgp name cls out w img sz w' :
  ExportToNanoVDB nanovdb NDEBUG gvdb channel bgp name cls out w
    = (Done (mkExported (bufferGPU img) sz), w') ->
  let ids := seq 0 (Z.to_nat (getNumTotalNodes gvdb 2)) in
  let lows := fun {A} (view : ValueUnion -> A) =>
    map (fun t => view (valueMin (deviceNode2 gvdb t))) ids in
  let highs := fun {A} (view : ValueUnion -> A) =>
    map (fun t => view (valueMax (deviceNode2 gvdb t))) ids in
  match rootData img with
  | Root_float r =>
      mMinimum r = fold_left float_min (lows f) FLT_MAX
  | Root_Vec3f r =>
      mMinimum r = fold_left Vec3f_min (lows f3) (mkVec3f FLT_MAX FLT_MAX FLT_MAX) /\
      mMaximum r = fold_left Vec3f_max (highs f3)
                     (mkVec3f (float_neg FLT_MAX) (float_neg FLT_MAX) (float_neg FLT_MAX))
  | Root_int r =>
      mMinimum r = fold_left Z.min (lows i) INT_MAX /\
      mMaximum r = fold_left Z.max (highs i) INT_MIN
  end.
Proof.
  intros E ids lows highs.
  apply exported_value_range in E as [Hmin Hmax].
  destruct (rootData img); simpl in Hmin, Hmax; [exact Hmin| |]; now split.
Qed.

Lemma C4_value_range_fold_witness :
  exists img sz w' r,
    sample_call false gvdb_S2 = (Done (mkExported (bufferGPU img) sz), w') /\
    rootData img = Root_int r /\ mMinimum r = -3 /\ mMaximum r = 5.
Proof.
  eexists _, _, _, _. split; [vm_compute; reflexivity|].
  split; [reflexivity|].
  exact (C4_value_range_fold sample_nanovdb false gvdb_S2 0 (Some zero_union)
           name_volume 0 (Some 0) initial_world _ _ _ eq_refl).
Defined.

(** The claim as it stands fails.  With the value -1 in every voxel of an
    F32 channel the maximum folded from negative infinity is -1, and the
    root header holds FLT_MIN, the smallest positive normal number; with
    +infinity in every voxel the minimum folded from positive infinity is
    +infinity, and the root header holds FLT_MAX. *)
Lemma C4_counterexample :
  (exists img sz w' r,
    sample_call false gvdb_all_negative = (Done (mkExported (bufferGPU img) sz), w') /\
    getNumTotalNodes gvdb_all_negative 2 = 1 /\
    rootData img = Root_float r /\
    fold_left float_max
      (map (fun t => f (valueMax (deviceNode2 gvdb_all_negative t))) (seq 0 1))
      (S754_infinity true) = float_minus_one /\
    mMaximum r = FLT_MIN /\
    mMaximum r <> float_minus_one) /\
  (exists img sz w' r,
    sample_call false gvdb_all_infinite = (Done (mkExported (bufferGPU img) sz), w') /\
    getNumTotalNodes gvdb_all_infinite 2 = 1 /\
    rootData img = Root_float r /\
    fold_left float_min
      (map (fun t => f (valueMin (deviceNode2 gvdb_all_infinite t))) (seq 0 1))
      (S754_infinity false) = float_infinity /\
    mMinimum r = FLT_MAX /\
    mMinimum r <> float_infinity).
Proof.
  split; eexists _, _, _, _; (split; [vm_compute; reflexivity|]);
    repeat split; discriminate.
Qed.

(** What the F32 maximum is: the fold of the primary template, started
    from [std::numeric_limits<float>::min()]. *)
Lemma float_maximum_fold nanovdb NDEBUG gvdb channel bgp name cls out w img sz w' r :
  ExportToNanoVDB nanovdb NDEBUG gvdb channel bgp name cls out w
    = (Done (mkExported (bufferGPU img) sz), w') ->
  rootData img = Root_float r ->
  mMaximum r =
    fold_left float_max
      (map (fun t => f (valueMax (deviceNode2 gvdb t)))
           (seq 0 (Z.to_nat (getNumTotalNodes gvdb 2))))
      FLT_MIN.
Proof.
  intros E Hr. apply exported_value_range in E as [_ Hmax].
  rewrite Hr in Hmax. exact Hmax.
Qed.

(** For I32 the folds are the least and the greatest of the nodes'
    values. *)
Lemma fold_Z_min_spec l a :
  (forall x, In x l -> fold_left Z.min l a <= x) /\ fold_left Z.min l a <= a /\
  (fold_left Z.min l a = a \/ In (fold_left Z.min l a) l).
Proof.
  revert a; induction l as [|y l IH]; intros a; simpl.
  - repeat split; [contradiction|lia|now left].
  - destruct (IH (Z.min a y)) as (H1 & H2 & H3). repeat split.
    + intros x [<-|Hx]; [lia|now apply H1].
    + lia.
    + destruct H3 as [H3|H3]; [|now right; right].
      destruct (Z.min_spec a y) as [[_ E]|[_ E]]; rewrite E in *;
        [now left|right; left; congruence].
Qed.

Lemma fold_Z_max_spec l a :
  (forall x, In x l -> x <= fold_left Z.max l a) /\ a <= fold_left Z.max l a /\
  (fold_left Z.max l a = a \/ In (fold_left Z.max l a) l).
Proof.
  revert a; induction l as [|y l IH]; intros a; simpl.
  - repeat split; [contradiction|lia|now left].
  - destruct (IH (Z.max a y)) as (H1 & H2 & H3). repeat split.
    + intros x [<-|Hx]; [lia|now apply H1].
    + lia.
    + destruct H3 as [H3|H3]; [|now right; right].
      destruct (Z.max_spec a y) as [[_ E]|[_ E]]; rewrite E in *;
        [right; left; congruence|now left].
Qed.

(** C10.  With zero level-2 nodes the fold does not run: the root
    header's value minimum is the maximum sentinel of the value type and
    its value maximum the minimum sentinel, for F32 the values of
    [numeric_limits<float>::max()] and [numeric_limits<float>::min()]. *)
Theorem C10_empty_tree_sentinels nanovdb NDEBUG gvdb channel bgp name cls out w img sz w' :
  ExportToNanoVDB nanovdb NDEBUG gvdb channel bgp name cls out w
    = (Done (mkExported (bufferGPU img) sz), w') ->
  getNumTotalNodes gvdb 2 = 0 ->
  match rootData img with
  | Root_float r => mMinimum r = FLT_MAX /\ mMaximum r = FLT_MIN
  | Root_Vec3f r =>
      mMinimum r = mkVec3f FLT_MAX FLT_MAX FLT_MAX /\
      mMaximum r = mkVec3f (float_neg FLT_MAX) (float_neg FLT_MAX) (float_neg FLT_MAX)
  | Root_int r => mMinimum r = INT_MAX /\ mMaximum r = INT_MIN
  end.
Proof.
  intros E Hn. apply exported_value_range in E as [Hmin Hmax].
  rewrite Hn in Hmin, Hmax. simpl in Hmin, Hmax.
  destruct (rootData img); simpl in Hmin, Hmax; now split.
Qed.

Lemma C10_empty_tree_sentinels_witness :
  exists img sz w' r,
    sample_call false gvdb_empty = (Done (mkExported (bufferGPU img) sz), w') /\
    getNumTotalNodes gvdb_empty 2 = 0 /\
    rootData img = Root_float r /\ mMinimum r = FLT_MAX /\ mMaximum r = FLT_MIN.
Proof.
  eexists _, _, _, _. split; [vm_compute; reflexivity|].
  split; [reflexivity|]. split; [reflexivity|].
  exact (C10_empty_tree_sentinels sample_nanovdb false gvdb_empty 0 (Some zero_union)
           name_volume 0 (Some 0) initial_world _ _ _ eq_refl eq_refl).
Defined.

(** [FLT_MIN] is positive: it lies strictly between 0 and 1. *)
Lemma FLT_MIN_positive :
  float_lt float_zero FLT_MIN = true /\ float_lt FLT_MIN float_one = true.
Proof. split; reflexivity. Qed.

(** C8.  After a successful export the active voxel count of the root
    header is [numLeaves * 2^(3 * leafLog2Dim)]. *)
Theorem C8_active_voxel_count nanovdb NDEBUG gvdb channel bgp name cls out w img sz w' :
  ExportToNanoVDB nanovdb NDEBUG gvdb channel bgp name cls out w
    = (Done (mkExported (bufferGPU img) sz), w') ->
  0 <= getNumTotalNodes gvdb 0 ->
  root_activeVoxelCount (rootData img)
  = getNumTotalNodes gvdb 0 * 2 ^ (3 * getLD gvdb 0).
Proof.
  intros E Hpos.
  apply ExportToNanoVDB_Done in E
    as (bg & w1 & _ & _ & Hsup & Hld & _ & _ & _ & _ & Hmax & _ & _ & _ & _ & _ & E).
  apply ProcessGridExtents_switch_Done in E
    as (_ & _ & _ & _ & _ & _ & _ & Havc & _); trivial.
  rewrite Havc. unfold getVoxCnt, uint64_t, INT_MAX in *.
  assert (Hpow : 0 < 2 ^ (3 * getLD gvdb 0) <= 2 ^ 24).
  { split; [apply Z.pow_pos_nonneg; lia|apply Z.pow_le_mono_r; lia]. }
  rewrite (Z.mod_small (2 ^ (3 * getLD gvdb 0))) by lia.
  apply Z.mod_small. split; [nia|].
  apply Z.le_lt_trans with (2 ^ 31 * 2 ^ 24); [nia|reflexivity].
Qed.

Lemma C8_active_voxel_count_witness :
  exists img sz w',
    sample_call false gvdb_S2 = (Done (mkExported (bufferGPU img) sz), w') /\
    0 <= getNumTotalNodes gvdb_S2 0 /\
    root_activeVoxelCount (rootData img) = 2 * 2 ^ (3 * 4).
Proof.
  eexists _, _, _. split; [vm_compute; reflexivity|].
  split; [vm_compute; discriminate|].
  exact (C8_active_voxel_count sample_nanovdb false gvdb_S2 0 (Some zero_union)
           name_volume 0 (Some 0) initial_world _ _ _ eq_refl
           ltac:(vm_compute; discriminate)).
Defined.

(** C6.  A null background pointer, a null size pointer, a log2dim
    outside [1, 8] or an unsupported value type makes the export print the
    message of the first such defect and return GVDB_EXPORT_NANOVDB_NULL;
    nothing has been allocated on the device or the host, no buffer is
    returned and [*outTotalSize] is left as it was. *)
Theorem C6_invalid_input_fails nanovdb NDEBUG gvdb channel bgp name cls out w :
  invalid_input gvdb channel bgp out ->
  exists msg,
    ExportToNanoVDB nanovdb NDEBUG gvdb channel bgp name cls out w
    = (Done (mkExported GVDB_EXPORT_NANOVDB_NULL out),
       mkWorld (printed w ++ [msg]) (cuMemAlloc_sizes w) (new_sizes w)) /\
    reports msg gvdb channel bgp out.
Proof.
  intros Hinv. unfold ExportToNanoVDB.
  destruct bgp as [bg|]; [|now exists Error_backgroundPtr_nullptr].
  destruct out as [old|]; [|now exists Error_outTotalSize_nullptr].
  cbv zeta.
  destruct ((getLD gvdb 0 <? 1) || (getLD gvdb 0 >? 8)) eqn:H0.
  { exists (Error_brick_log2dim (getLD gvdb 0)). split; [reflexivity|].
    split; [reflexivity|]. intros H. apply log2dim_check in H. congruence. }
  destruct ((getLD gvdb 1 <? 1) || (getLD gvdb 1 >? 8)) eqn:H1.
  { exists (Error_node1_log2dim (getLD gvdb 1)). split; [reflexivity|].
    split; [reflexivity|]. intros H. apply log2dim_check in H. congruence. }
  destruct ((getLD gvdb 2 <? 1) || (getLD gvdb 2 >? 8)) eqn:H2.
  { exists (Error_node2_log2dim (getLD gvdb 2)). split; [reflexivity|].
    split; [reflexivity|]. intros H. apply log2dim_check in H. congruence. }
  apply log2dim_check in H0, H1, H2.
  destruct (GetChannelType gvdb channel) as [| | |tag] eqn:Ety.
  4: { exists (Error_channel_type channel tag). split; [reflexivity|].
       split; [reflexivity|exact Ety]. }
  all: exfalso; destruct Hinv as [H|[H|[H|[H|[H|H]]]]]; try discriminate;
    try contradiction; apply H; unfold supported; auto.
Qed.

Lemma C6_invalid_input_fails_witness :
  invalid_input gvdb_ld9 0 (Some zero_union) (Some 0) /\
  exists msg,
    sample_call false gvdb_ld9
    = (Done (mkExported GVDB_EXPORT_NANOVDB_NULL (Some 0)), mkWorld [msg] [] []) /\
    reports msg gvdb_ld9 0 (Some zero_union) (Some 0).
Proof.
  assert (Hinv : invalid_input gvdb_ld9 0 (Some zero_union) (Some 0)).
  { right; right; right; right; left. vm_compute. intros [_ H]. apply H. reflexivity. }
  split; [exact Hinv|].
  exact (C6_invalid_input_fails sample_nanovdb false gvdb_ld9 0 (Some zero_union)
           name_volume 0 (Some 0) initial_world Hinv).
Defined.

(** ** The grid name *)

Lemma c_str_prefix buf k d :
  (k < length (c_str buf))%nat -> nth k buf d = nth k (c_str buf) d.
Proof.
  revert k; induction buf as [|b rest IH]; intros k; simpl; [lia|].
  destruct (Byte.eqb b x00); simpl; [lia|].
  destruct k; [reflexivity|]. intros Hk. apply IH. lia.
Qed.

Lemma c_str_length buf : (length (c_str buf) <= length buf)%nat.
Proof.
  induction buf as [|b rest IH]; simpl; [lia|].
  destruct (Byte.eqb b x00); simpl; lia.
Qed.

Lemma c_str_firstn buf n :
  (n <= length (c_str buf))%nat -> firstn n buf = firstn n (c_str buf).
Proof.
  revert n; induction buf as [|b rest IH]; intros n; simpl; [reflexivity|].
  destruct (Byte.eqb b x00); simpl.
  - intros Hn. assert (n = 0)%nat by lia. now subst.
  - destruct n; [reflexivity|]. intros Hn. simpl. f_equal. apply IH. lia.
Qed.

Lemma nth_padded s n k :
  (k < n)%nat ->
  nth k (truncated_or_padded s n) x00 = if (k <? length s)%nat then nth k s x00 else x00.
Proof.
  intros Hk. unfold truncated_or_padded.
  rewrite nth_firstn. destruct (Nat.ltb_spec k n); [|lia].
  destruct (Nat.ltb_spec k (length s)).
  - now rewrite app_nth1.
  - rewrite app_nth2 by lia. apply nth_repeat.
Qed.

Lemma padded_length s n : length (truncated_or_padded s n) = n.
Proof.
  unfold truncated_or_padded. rewrite length_firstn, length_app, repeat_length. lia.
Qed.

Lemma copy_is_padded_iff buf n :
  (n <= length buf)%nat ->
  firstn n buf = truncated_or_padded (c_str buf) n <->
  (forall k, (length (c_str buf) <= k < n)%nat -> nth k buf x00 = x00).
Proof.
  intros Hn. split.
  - intros E k Hk.
    assert (Hnth : nth k (firstn n buf) x00 = nth k (truncated_or_padded (c_str buf) n) x00)
      by now rewrite E.
    rewrite nth_firstn, nth_padded in Hnth by lia.
    destruct (Nat.ltb_spec k n); [|lia].
    destruct (Nat.ltb_spec k (length (c_str buf))); [lia|]. exact Hnth.
  - intros Hz. apply (nth_ext _ _ x00 x00).
    + rewrite padded_length, length_firstn. lia.
    + intros k Hk. rewrite length_firstn in Hk.
      rewrite nth_firstn, nth_padded by lia.
      destruct (Nat.ltb_spec k n); [|lia].
      destruct (Nat.ltb_spec k (length (c_str buf))).
      * now apply c_str_prefix.
      * apply Hz. lia.
Qed.

(** C9, amended.  For every caller array of at least MaxNameSize bytes the
    grid header's name field holds exactly MaxNameSize bytes, the first
    MaxNameSize bytes of the array as they are, and the copy does not fail:
    a name that fills the field is truncated to it, and the bytes after a
    shorter name are those of the caller's array, so that the field is the
    zero-padded name exactly when the array is zero from the terminator to
    the field width. *)
Theorem C9_grid_name_copy nanovdb gvdbType name cls w :
  let n := MaxNameSize nanovdb in
  (n <= length name)%nat ->
  exists g,
    fill_grid nanovdb gvdbType name cls w = (Done g, w) /\
    mGridName g = firstn n name /\
    length (mGridName g) = n /\
    ((n <= length (c_str name))%nat -> mGridName g = firstn n (c_str name)) /\
    (mGridName g = truncated_or_padded (c_str name) n <->
     forall k, (length (c_str name) <= k < n)%nat -> nth k name x00 = x00) /\
    (forall NDEBUG gvdb channel bgp out w0 img sz w',
        ExportToNanoVDB nanovdb NDEBUG gvdb channel bgp name cls out w0
          = (Done (mkExported (bufferGPU img) sz), w') ->
        mGridName (gridData img) = mGridName g).
Proof.
  intros n Hn. unfold fill_grid, memcpy, bind. fold n.
  destruct (Nat.leb_spec n (length name)); [|lia].
  eexists. split; [reflexivity|]. simpl.
  split; [reflexivity|]. split; [rewrite length_firstn; lia|].
  split; [apply c_str_firstn|]. split; [now apply copy_is_padded_iff|].
  intros NDEBUG gvdb channel bgp out w0 img sz w' E.
  apply ExportToNanoVDB_Done in E
    as (bg & w1 & _ & _ & _ & _ & _ & _ & _ & _ & _ & _ & Hname & _).
  exact Hname.
Qed.

Lemma C9_grid_name_copy_witness :
  (MaxNameSize sample_nanovdb <= length name_volume)%nat /\
  exists g,
    fill_grid sample_nanovdb T_FLOAT name_volume 0 initial_world = (Done g, initial_world) /\
    length (mGridName g) = 256%nat.
Proof.
  assert (H : (MaxNameSize sample_nanovdb <= length name_volume)%nat)
    by (vm_compute; repeat constructor).
  split; [exact H|].
  destruct (C9_grid_name_copy sample_nanovdb T_FLOAT name_volume 0 initial_world H)
    as (g & E & _ & Hlen & _).
  exists g. split; [exact E|exact Hlen].
Defined.

(** The claim as it stands fails: the name "vol" in an array that holds
    0xff after the terminator is exported with those bytes, not with
    zeros. *)
Lemma C9_counterexample :
  exists img sz w',
    ExportToNanoVDB sample_nanovdb false gvdb_empty 0 (Some zero_union) name_dirty 0
      (Some 0) initial_world = (Done (mkExported (bufferGPU img) sz), w') /\
    c_str name_dirty = [x76; x6f; x6c] /\
    nth 4 (mGridName (gridData img)) x00 = xff /\
    mGridName (gridData img)
      <> truncated_or_padded (c_str name_dirty) (MaxNameSize sample_nanovdb).
Proof.
  eexists _, _, _. split; [vm_compute; reflexivity|].
  split; [reflexivity|]. split; [reflexivity|].
  intros E. apply (f_equal (fun l => nth 4 l x00)) in E. vm_compute in E. discriminate.
Qed.

(** An array shorter than the field, such as a short string literal, is
    read past its end. *)
Lemma short_name_array_is_overread :
  fst (ExportToNanoVDB sample_nanovdb false gvdb_empty 0 (Some zero_union)
         [x76; x6f; x6c; x00] 0 (Some 0) initial_world) = Undefined.
Proof. reflexivity. Qed.

(** ** Running a call that passes validation *)

Section Forward.

Variable nanovdb : NanoVDB.
Variable NDEBUG : bool.

Lemma GetNumNodes_ok gvdb level w :
  getNumTotalNodes gvdb level <= INT_MAX ->
  ExportToNanoVDB_GetNumNodes gvdb level w = (Done (Some (getNumTotalNodes gvdb level)), w).
Proof.
  intros H. unfold ExportToNanoVDB_GetNumNodes.
  destruct (Z.gtb_spec (getNumTotalNodes gvdb level) INT_MAX); [lia|reflexivity].
Qed.

Lemma TypeTableIndex_supported ty w :
  supported ty -> TypeTableIndex NDEBUG ty w = (Done (type_row (value_tag_of ty)), w).
Proof. intros [->|[->| ->]]; reflexivity. Qed.

Lemma DataTypeSizeLookup_in_range (g : ValueTag -> Z -> Z) ty ld w :
  supported ty -> 2 <= ld <= 7 ->
  DataTypeSizeLookup NDEBUG (map (fun ty => map (g ty) table_log2dims) table_types) ty ld w
  = (Done (g (value_tag_of ty) ld), w).
Proof.
  intros Hsup Hld. unfold DataTypeSizeLookup.
  replace ((ld <? 2) || (ld >? 7)) with false
    by (symmetry; rewrite orb_false_iff, Z.ltb_ge, Z.gtb_ltb, Z.ltb_ge; lia).
  unfold bind. rewrite TypeTableIndex_supported by trivial.
  now rewrite table_get_in_range.
Qed.

Lemma DataTypeSizeLookup_outside sizes ty ld w :
  ~ 2 <= ld <= 7 ->
  DataTypeSizeLookup NDEBUG sizes ty ld w
  = (if NDEBUG then Done 0 else Aborted DataTypeSizeLookup_out_of_range, w).
Proof.
  intros Hld. unfold DataTypeSizeLookup.
  replace ((ld <? 2) || (ld >? 7)) with true.
  - unfold bind, assert, ret. now destruct NDEBUG.
  - symmetry. apply orb_true_iff. rewrite Z.ltb_lt, Z.gtb_ltb, Z.ltb_lt. lia.
Qed.

Lemma ComputeTypeSizes_in_range ty ld0 ld1 ld2 w :
  supported ty -> 2 <= ld0 <= 7 -> 2 <= ld1 <= 7 -> 2 <= ld2 <= 7 ->
  ComputeTypeSizes nanovdb NDEBUG ty ld0 ld1 ld2 w
  = (Done (mkSizes (sizeof_GridData nanovdb) (sizeof_TreeData nanovdb)
             (sizeof_RootData nanovdb (value_tag_of ty))
             (sizeof_Tile nanovdb (value_tag_of ty))
             (sizeof_InternalNode nanovdb (value_tag_of ty) ld2)
             (sizeof_InternalNode nanovdb (value_tag_of ty) ld1)
             (sizeof_LeafNode nanovdb (value_tag_of ty) ld0)), w).
Proof.
  intros Hsup H0 H1 H2. unfold ComputeTypeSizes, nodeSizes, leafSizes.
  assert (Hroot :
    match ty with
    | T_FLOAT => (sizeof_RootData nanovdb VFloat, sizeof_Tile nanovdb VFloat)
    | T_FLOAT3 => (sizeof_RootData nanovdb VVec3f, sizeof_Tile nanovdb VVec3f)
    | T_INT => (sizeof_RootData nanovdb VInt, sizeof_Tile nanovdb VInt)
    | T_OTHER _ => (0, 0)
    end = (sizeof_RootData nanovdb (value_tag_of ty), sizeof_Tile nanovdb (value_tag_of ty)))
    by (destruct Hsup as [->|[->| ->]]; reflexivity).
  rewrite Hroot. unfold bind.
  rewrite !DataTypeSizeLookup_in_range by trivial. reflexivity.
Qed.

(** With assertions compiled in, a log2dim of 1 or 8 stops
    [ComputeTypeSizes] at the range assertion of the lookup. *)
Lemma ComputeTypeSizes_aborts ty ld0 ld1 ld2 w :
  NDEBUG = false -> supported ty ->
  ~ (2 <= ld0 <= 7 /\ 2 <= ld1 <= 7 /\ 2 <= ld2 <= 7) ->
  ComputeTypeSizes nanovdb NDEBUG ty ld0 ld1 ld2 w
  = (Aborted DataTypeSizeLookup_out_of_range, w).
Proof.
  intros HN Hsup Hld. unfold ComputeTypeSizes, nodeSizes, leafSizes.
  destruct (match ty with T_FLOAT => _ | T_FLOAT3 => _ | T_INT => _ | T_OTHER _ => _ end)
    as [rr rt].
  unfold bind.
  destruct (Z_le_dec 2 ld2), (Z_le_dec ld2 7);
    try (rewrite DataTypeSizeLookup_outside by lia; now rewrite HN).
  rewrite DataTypeSizeLookup_in_range by (trivial; lia).
  destruct (Z_le_dec 2 ld1), (Z_le_dec ld1 7);
    try (rewrite DataTypeSizeLookup_outside by lia; now rewrite HN).
  rewrite DataTypeSizeLookup_in_range by (trivial; lia).
  rewrite DataTypeSizeLookup_outside by lia. now rewrite HN.
Qed.

(** A call that passes validation, as far as the root. *)
Lemma ExportToNanoVDB_valid gvdb channel bg name cls old w :
  let ty := GetChannelType gvdb channel in
  let n2 := getNumTotalNodes gvdb 2 in
  let n1 := getNumTotalNodes gvdb 1 in
  let n0 := getNumTotalNodes gvdb 0 in
  supported ty ->
  1 <= getLD gvdb 0 <= 8 -> 1 <= getLD gvdb 1 <= 8 -> 1 <= getLD gvdb 2 <= 8 ->
  n2 <= INT_MAX -> n1 <= INT_MAX -> n0 <= INT_MAX ->
  ExportToNanoVDB nanovdb NDEBUG gvdb channel (Some bg) name cls (Some old) w
  = match ComputeTypeSizes nanovdb NDEBUG ty (getLD gvdb 0) (getLD gvdb 1) (getLD gvdb 2) w with
    | (Done typeSizes, _) =>
        let offsets := dataOffsetsBytes (dataSizes typeSizes n2 n1 n0) in
        let w1 := mkWorld (printed w) (cuMemAlloc_sizes w ++ [off offsets R_COUNT])
                    (new_sizes w ++ [off offsets R_NODE1]) in
        if (MaxNameSize nanovdb <=? length name)%nat then
          match ProcessGridExtents_switch nanovdb NDEBUG ty
                  (zeroRoot (Z.to_nat n2)) (zeroRoot (Z.to_nat n2)) (zeroRoot (Z.to_nat n2))
                  (deviceNode2 gvdb) (uint64_t (n0 * getVoxCnt gvdb 0)) (Some bg)
                  n2 (getLD gvdb 2) (getLD gvdb 2 + getLD gvdb 1 + getLD gvdb 0) w1 with
          | (Done root_, w') =>
              (Done (mkExported
                       (bufferGPU
                          (mkImage
                             (mkGrid (NANOVDB_MAGIC_NUMBER nanovdb)
                                (firstn (MaxNameSize nanovdb) name) cls
                                match ty with
                                | T_FLOAT => GridType_Float
                                | T_FLOAT3 => GridType_Vec3f
                                | T_INT => GridType_Int32
                                | T_OTHER _ => GridType_Unknown
                                end 0 0)
                             (fill_tree offsets n2 n1 n0) root_ (off offsets R_COUNT)))
                       (Some (off offsets R_COUNT))), w')
          | (Aborted which, w') => (Aborted which, w')
          | (Undefined, w') => (Undefined, w')
          end
        else (Undefined, w1)
    | (Aborted which, w') => (Aborted which, w')
    | (Undefined, w') => (Undefined, w')
    end.
Proof.
  intros ty n2 n1 n0 Hsup H0 H1 H2 Hn2 Hn1 Hn0.
  unfold ExportToNanoVDB. cbv zeta.
  apply log2dim_check in H0, H1, H2. rewrite H0, H1, H2.
  fold ty.
  assert (Hbody : forall (body : M Exported) tag_case,
     match ty with
     | T_OTHER tag => tag_case tag
     | _ => body
     end = body) by (intros; destruct Hsup as [E|[E|E]]; rewrite E; reflexivity).
  rewrite Hbody. unfold bind at 1.
  rewrite GetNumNodes_ok by exact Hn2. unfold bind at 1.
  rewrite GetNumNodes_ok by exact Hn1. unfold bind at 1.
  rewrite GetNumNodes_ok by exact Hn0. unfold bind at 1.
  fold n2 n1 n0.
  destruct (ComputeTypeSizes nanovdb NDEBUG ty (getLD gvdb 0) (getLD gvdb 1) (getLD gvdb 2) w)
    as [[ts| |] wts] eqn:Ets; try reflexivity.
  apply ComputeTypeSizes_world in Ets. subst wts.
  unfold bind at 1. unfold cuMemAlloc at 1. unfold bind at 1. unfold new_uint8_t at 1.
  unfold bind at 1. rewrite TypeTableIndex_supported by exact Hsup.
  unfold bind at 1. unfold fill_grid, memcpy. simpl printed. simpl cuMemAlloc_sizes.
  simpl new_sizes. cbv zeta.
  destruct (MaxNameSize nanovdb <=? length name)%nat; [|reflexivity].
  unfold bind at 2. unfold ret at 1. unfold ret at 1. cbv beta iota.
  unfold bind at 1.
  destruct (ProcessGridExtents_switch _ _ _ _ _ _ _ _ _ _ _ _ _) as [[r| |] wr];
    reflexivity.
Qed.

Lemma ProcessGridExtents_runs {T} `{ValueT T} (root0 : RootData T)
    node2Start avc bg n ld2 tot w :
  2 <= ld2 <= 7 ->
  exists r w',
    ProcessGridExtents nanovdb NDEBUG (Some root0) node2Start avc (Some bg) n ld2 tot w
    = (if NDEBUG || (32 - tot <=? 21) then Done (Some r) else Aborted CoordToKey_restriction,
       if NDEBUG || (32 - tot <=? 21) then w' else w).
Proof.
  intros Hld. unfold ProcessGridExtents, rangeFunctions.
  unfold bind at 1. rewrite table_get_in_range by exact Hld. simpl from_option.
  unfold ret at 1. unfold bind at 1. unfold assert.
  destruct (NDEBUG || (32 - tot <=? 21)).
  - unfold bind at 1.
    destruct (Coord_eqb _ _); unfold gprintf, ret; eexists _, _; reflexivity.
  - exists root0, w. reflexivity.
Qed.

Lemma ProcessGridExtents_switch_runs ty r0 r1 r2 node2Start avc bg n ld2 tot w :
  supported ty -> 2 <= ld2 <= 7 ->
  exists r w',
    ProcessGridExtents_switch nanovdb NDEBUG ty r0 r1 r2 node2Start avc (Some bg)
      n ld2 tot w
    = (if NDEBUG || (32 - tot <=? 21) then Done r else Aborted CoordToKey_restriction,
       if NDEBUG || (32 - tot <=? 21) then w' else w).
Proof.
  intros Hsup Hld. unfold ProcessGridExtents_switch.
  destruct Hsup as [->|[->| ->]]; unfold bind at 1.
  - destruct (ProcessGridExtents_runs r0 node2Start avc bg n ld2 tot w Hld)
      as (r & w' & ->).
    destruct (NDEBUG || (32 - tot <=? 21)); [|now exists (Root_float r0), w].
    now exists (Root_float r), w'.
  - destruct (ProcessGridExtents_runs r1 node2Start avc bg n ld2 tot w Hld)
      as (r & w' & ->).
    destruct (NDEBUG || (32 - tot <=? 21)); [|now exists (Root_float r0), w].
    now exists (Root_Vec3f r), w'.
  - destruct (ProcessGridExtents_runs r2 node2Start avc bg n ld2 tot w Hld)
      as (r & w' & ->).
    destruct (NDEBUG || (32 - tot <=? 21)); [|now exists (Root_float r0), w].
    now exists (Root_int r), w'.
Qed.

(** A level-2 log2dim of 1 or 8 indexes [rangeFunctions] outside its
    six columns. *)
Lemma ProcessGridExtents_switch_outside ty r0 r1 r2 node2Start avc bg n ld2 tot w :
  supported ty -> ~ 2 <= ld2 <= 7 ->
  ProcessGridExtents_switch nanovdb NDEBUG ty r0 r1 r2 node2Start avc (Some bg)
    n ld2 tot w = (Undefined, w).
Proof.
  intros Hsup Hld.
  assert (Hnone : forall row, table_get rangeFunctions row (ld2 - 2) = None).
  { intros row. destruct (table_get rangeFunctions row (ld2 - 2)) eqn:E; trivial.
    apply table_get_rangeFunctions in E. lia. }
  unfold ProcessGridExtents_switch, ProcessGridExtents.
  destruct Hsup as [->|[->| ->]]; unfold bind at 1; unfold bind at 1;
    rewrite Hnone; reflexivity.
Qed.

Lemma total_size_empty g t r tile n2s n1s ls :
  off (dataOffsetsBytes (dataSizes (mkSizes g t r tile n2s n1s ls) 0 0 0)) R_COUNT
  = size_t (g + t + r).
Proof.
  unfold dataOffsetsBytes, dataSizes, off, R_COUNT. simpl.
  rewrite Z.mul_0_r. unfold size_t.
  rewrite !Z.mod_0_l, !Z.add_0_r by lia.
  rewrite !Z.mod_mod by lia.
  rewrite Z.add_mod_idemp_r by lia.
  rewrite Z.add_mod_idemp_l by lia.
  rewrite <- Z.add_assoc, Z.add_mod_idemp_l, Z.add_assoc by lia. reflexivity.
Qed.

End Forward.

(** C7, amended.  For a tree with no node at any level (and an otherwise
    valid call) the export succeeds and returns a buffer of the size of
    the grid, tree and root regions; no tile is written, the root's
    index-space box is the default-constructed box, the active voxel count
    is 0, and the zero-volume warning is printed only if the two corners
    of that box coincide: for an empty box no warning is emitted. *)
Theorem C7_empty_tree nanovdb NDEBUG gvdb channel bg name cls old w :
  let ty := GetChannelType gvdb channel in
  supported ty ->
  2 <= getLD gvdb 0 <= 7 -> 2 <= getLD gvdb 1 <= 7 -> 2 <= getLD gvdb 2 <= 7 ->
  (NDEBUG = true \/ 32 - (getLD gvdb 0 + getLD gvdb 1 + getLD gvdb 2) <= 21) ->
  getNumTotalNodes gvdb 2 = 0 -> getNumTotalNodes gvdb 1 = 0 ->
  getNumTotalNodes gvdb 0 = 0 ->
  (MaxNameSize nanovdb <= length name)%nat ->
  exists img w',
    ExportToNanoVDB nanovdb NDEBUG gvdb channel (Some bg) name cls (Some old) w
      = (Done (mkExported (bufferGPU img) (Some (image_size img))), w') /\
    image_size img
      = size_t (sizeof_GridData nanovdb + sizeof_TreeData nanovdb
                + sizeof_RootData nanovdb (value_tag_of ty)) /\
    cuMemAlloc_sizes w' = cuMemAlloc_sizes w ++ [image_size img] /\
    root_tiles (rootData img) = [] /\
    root_tileCount (rootData img) = 0 /\
    root_bbox (rootData img) = CoordBBox_default nanovdb /\
    root_activeVoxelCount (rootData img) = 0 /\
    printed w' =
      printed w ++
      (if Coord_eqb (bbox_min (CoordBBox_default nanovdb))
                    (bbox_max (CoordBBox_default nanovdb))
       then [Warning_zero_volume] else []) /\
    (bbox_empty (CoordBBox_default nanovdb) -> printed w' = printed w).
Proof.
  intros ty Hsup H0 H1 H2 HT Hn2 Hn1 Hn0 Hname.
  assert (Hcond : NDEBUG || (32 - (getLD gvdb 2 + getLD gvdb 1 + getLD gvdb 0) <=? 21) = true).
  { destruct HT as [->|HT]; [reflexivity|].
    apply orb_true_iff; right. apply Z.leb_le. lia. }
  rewrite ExportToNanoVDB_valid; fold ty; trivial; try lia;
    try (rewrite ?Hn2, ?Hn1, ?Hn0; unfold INT_MAX; lia).
  rewrite ComputeTypeSizes_in_range by trivial. cbv zeta.
  rewrite Hn2, Hn1, Hn0. rewrite total_size_empty.
  destruct (Nat.leb_spec (MaxNameSize nanovdb) (length name)) as [_|]; [|lia].
  match goal with
  | |- context [ProcessGridExtents_switch ?a ?b ?c ?r0 ?r1 ?r2 ?d ?e (Some ?g) ?n ?ld ?tot ?w1] =>
      destruct (ProcessGridExtents_switch_runs a b c r0 r1 r2 d e g n ld tot w1 Hsup H2)
        as (r & w' & Er)
  end.
  rewrite Hcond in Er. rewrite Er.
  match goal with |- context [bufferGPU ?i] => exists i, w' end.
  split; [reflexivity|]. simpl image_size. simpl rootData.
  change 0%nat with (Z.to_nat 0) in Er.
  apply ProcessGridExtents_switch_Done in Er
    as (_ & _ & _ & Ht & _ & _ & Hbox & Havc & Hcnt & Hp & Ha & _); trivial.
  simpl in Ht, Hbox, Ha, Hp. rewrite Hbox in Hp.
  repeat split; trivial.
  intros Hempty. rewrite Hp.
  replace (Coord_eqb _ _) with false; [apply app_nil_r|].
  symmetry. unfold Coord_eqb. unfold bbox_empty in Hempty.
  rewrite !andb_false_iff, !Z.eqb_neq. lia.
Qed.

Lemma C7_empty_tree_witness :
  exists img w',
    sample_call false gvdb_empty
      = (Done (mkExported (bufferGPU img) (Some (image_size img))), w') /\
    image_size img = 672 + 64 + 64 /\
    root_bbox (rootData img) = default_box /\
    printed w' = [].
Proof.
  destruct (C7_empty_tree sample_nanovdb false gvdb_empty 0 zero_union name_volume 0 0
              initial_world)
    as (img & w' & E & Hsize & _ & _ & _ & Hbox & _ & _ & Hp);
    try (vm_compute; repeat constructor; discriminate).
  exists img, w'. repeat split; trivial.
  apply Hp. left. vm_compute. reflexivity.
Defined.

(** The claim as it stands fails: the export of the empty tree succeeds
    with an empty box and a zero count, and prints nothing. *)
Lemma C7_counterexample :
  exists img sz w',
    sample_call false gvdb_empty = (Done (mkExported (bufferGPU img) sz), w') /\
    bbox_empty (root_bbox (rootData img)) /\
    root_activeVoxelCount (rootData img) = 0 /\
    ~ In Warning_zero_volume (printed w').
Proof.
  eexists _, _, _. split; [vm_compute; reflexivity|].
  split; [left; vm_compute; reflexivity|]. split; [reflexivity|].
  simpl. tauto.
Qed.

(** The warning is for a box of a single voxel. *)
Lemma zero_volume_warning nanovdb NDEBUG gvdb channel bgp name cls out w img sz w' :
  ExportToNanoVDB nanovdb NDEBUG gvdb channel bgp name cls out w
    = (Done (mkExported (bufferGPU img) sz), w') ->
  printed w' =
    printed w ++
    (if Coord_eqb (bbox_min (root_bbox (rootData img))) (bbox_max (root_bbox (rootData img)))
     then [Warning_zero_volume] else []).
Proof.
  intros E.
  apply ExportToNanoVDB_Done in E
    as (bg & w1 & _ & _ & Hsup & _ & _ & _ & _ & _ & _ & _ & _ & _ & Hp1 & _ & E).
  apply ProcessGridExtents_switch_Done in E
    as (_ & _ & _ & _ & _ & _ & _ & _ & _ & Hp & _); trivial.
  now rewrite Hp, Hp1.
Qed.

(** ** Log2dims the validation admits and the size tables lack *)

(** The validation of the entry point admits a log2dim exactly in
    [1, 8]. *)
Lemma validation_range ld : (ld <? 1) || (ld >? 8) = false <-> 1 <= ld <= 8.
Proof. apply log2dim_check. Qed.

(** The size lookup answers, with assertions compiled in, exactly in
    [2, 7]. *)
Lemma DataTypeSizeLookup_range nanovdb ty ld w :
  supported ty ->
  (exists size, DataTypeSizeLookup false (nodeSizes nanovdb) ty ld w = (Done size, w))
  <-> 2 <= ld <= 7.
Proof.
  intros Hsup. split.
  - intros [size E]. destruct (Z_le_dec 2 ld), (Z_le_dec ld 7); try lia;
      rewrite DataTypeSizeLookup_outside in E by lia; discriminate.
  - intros Hld. eexists. unfold nodeSizes. now apply DataTypeSizeLookup_in_range.
Qed.

(** With assertions compiled in, a call that passes validation with a
    log2dim of 1 or 8 stops at the range assertion of the size lookup,
    before any allocation. *)
Lemma log2dim_1_or_8_aborts nanovdb gvdb channel bg name cls old w :
  supported (GetChannelType gvdb channel) ->
  1 <= getLD gvdb 0 <= 8 -> 1 <= getLD gvdb 1 <= 8 -> 1 <= getLD gvdb 2 <= 8 ->
  getNumTotalNodes gvdb 2 <= INT_MAX -> getNumTotalNodes gvdb 1 <= INT_MAX ->
  getNumTotalNodes gvdb 0 <= INT_MAX ->
  ~ (2 <= getLD gvdb 0 <= 7 /\ 2 <= getLD gvdb 1 <= 7 /\ 2 <= getLD gvdb 2 <= 7) ->
  ExportToNanoVDB nanovdb false gvdb channel (Some bg) name cls (Some old) w
  = (Aborted DataTypeSizeLookup_out_of_range, w).
Proof.
  intros Hsup H0 H1 H2 Hn2 Hn1 Hn0 Hout.
  rewrite ExportToNanoVDB_valid by trivial.
  now rewrite ComputeTypeSizes_aborts.
Qed.

(** C3.  The log2dims 8 and 1 pass the validation of the entry point, and
    the size lookup has no entry for them: with assertions compiled in the
    call stops at the assertion of [DataTypeSizeLookup], without them the
    lookup yields the size 0 and, for the level-2 log2dim, the table of
    range functions is read outside its bounds. *)
Theorem C3_log2dim_8_and_1 :
  ~ invalid_input gvdb_ld8 0 (Some zero_union) (Some 0) /\
  ~ invalid_input gvdb_ld1 0 (Some zero_union) (Some 0) /\
  sample_call false gvdb_ld8 = (Aborted DataTypeSizeLookup_out_of_range, initial_world) /\
  sample_call false gvdb_ld1 = (Aborted DataTypeSizeLookup_out_of_range, initial_world) /\
  (exists typeSizes,
      fst (ComputeTypeSizes sample_nanovdb true T_FLOAT 3 3 8 initial_world)
        = Done typeSizes /\ node2 typeSizes = 0) /\
  fst (sample_call true gvdb_ld8) = Undefined /\
  (exists img, returned_buffer (sample_call true gvdb_ld1) = Some img).
Proof.
  assert (Hvalid : forall g,
            (g = gvdb_ld8 \/ g = gvdb_ld1) ->
            ~ invalid_input g 0 (Some zero_union) (Some 0)).
  { intros g Hg [H|[H|[H|[H|[H|H]]]]]; try discriminate;
      destruct Hg as [-> | ->]; apply H; vm_compute;
      try (split; discriminate); auto. }
  split; [apply Hvalid; now left|]. split; [apply Hvalid; now right|].
  split; [reflexivity|]. split; [reflexivity|].
  split; [eexists; split; vm_compute; reflexivity|].
  split; [reflexivity|].
  eexists. vm_compute. reflexivity.
Qed.

(** ** The restriction on the summed log2dims *)

(** With assertions compiled in, a call whose summed log2dims violate
    [32 - T <= 21] runs up to the assertion in [ProcessGridExtents], after
    the buffers were allocated; without them it returns a buffer. *)
Lemma key_restriction_is_only_asserted nanovdb NDEBUG gvdb channel bg name cls old w :
  supported (GetChannelType gvdb channel) ->
  2 <= getLD gvdb 0 <= 7 -> 2 <= getLD gvdb 1 <= 7 -> 2 <= getLD gvdb 2 <= 7 ->
  getNumTotalNodes gvdb 2 <= INT_MAX -> getNumTotalNodes gvdb 1 <= INT_MAX ->
  getNumTotalNodes gvdb 0 <= INT_MAX ->
  (MaxNameSize nanovdb <= length name)%nat ->
  21 < 32 - (getLD gvdb 0 + getLD gvdb 1 + getLD gvdb 2) ->
  exists total w',
    cuMemAlloc_sizes w' = cuMemAlloc_sizes w ++ [total] /\
    (NDEBUG = true ->
      exists img,
        ExportToNanoVDB nanovdb NDEBUG gvdb channel (Some bg) name cls (Some old) w
        = (Done (mkExported (bufferGPU img) (Some total)), w')) /\
    (NDEBUG = false ->
      ExportToNanoVDB nanovdb NDEBUG gvdb channel (Some bg) name cls (Some old) w
      = (Aborted CoordToKey_restriction, w')).
Proof.
  intros Hsup H0 H1 H2 Hn2 Hn1 Hn0 Hname HT.
  rewrite ExportToNanoVDB_valid by (trivial; lia).
  rewrite ComputeTypeSizes_in_range by trivial. cbv zeta.
  destruct (Nat.leb_spec (MaxNameSize nanovdb) (length name)) as [_|]; [|lia].
  match goal with
  | |- context [ProcessGridExtents_switch ?a ?b ?c ?r0 ?r1 ?r2 ?d ?e (Some ?g) ?n ?ld ?tot ?w1] =>
      destruct (ProcessGridExtents_switch_runs a b c r0 r1 r2 d e g n ld tot w1 Hsup H2)
        as (r & w' & Er)
  end.
  replace (32 - (getLD gvdb 2 + getLD gvdb 1 + getLD gvdb 0) <=? 21) with false in Er
    by (symmetry; apply Z.leb_gt; lia).
  rewrite orb_false_r in Er. rewrite Er.
  destruct NDEBUG.
  - pose proof Er as Er'.
    apply ProcessGridExtents_switch_Done in Er' as (_ & _ & _ & _ & _ & _ & _ & _ & _ & _ & Ha & _);
      trivial.
    eexists _, w'. split; [exact Ha|]. split; [|discriminate].
    intros _. eexists. reflexivity.
  - match type of Er with ?c ?w1 = _ =>
      exists (off (dataOffsetsBytes
                (dataSizes
                   (mkSizes (sizeof_GridData nanovdb) (sizeof_TreeData nanovdb)
                      (sizeof_RootData nanovdb (value_tag_of (GetChannelType gvdb channel)))
                      (sizeof_Tile nanovdb (value_tag_of (GetChannelType gvdb channel)))
                      (sizeof_InternalNode nanovdb
                         (value_tag_of (GetChannelType gvdb channel)) (getLD gvdb 2))
                      (sizeof_InternalNode nanovdb
                         (value_tag_of (GetChannelType gvdb channel)) (getLD gvdb 1))
                      (sizeof_LeafNode nanovdb
                         (value_tag_of (GetChannelType gvdb channel)) (getLD gvdb 0)))
                   (getNumTotalNodes gvdb 2) (getNumTotalNodes gvdb 1)
                   (getNumTotalNodes gvdb 0))) R_COUNT), w1
    end.
    split; [reflexivity|]. split; [discriminate|reflexivity].
Qed.

(** C5.  The configuration (3, 3, 3) has T = 9 and 32 - T = 23.  It passes
    validation; with assertions compiled in the call stops at the
    assertion after the buffers are allocated, and without them it returns
    a buffer in which two level-2 nodes of distinct cells carry the same
    key.  No error value is returned in either build. *)
Theorem C5_key_overflow_not_reported :
  ~ invalid_input gvdb_T9 0 (Some zero_union) (Some 0) /\
  32 - (getLD gvdb_T9 0 + getLD gvdb_T9 1 + getLD gvdb_T9 2) = 23 /\
  (exists w',
      sample_call false gvdb_T9 = (Aborted CoordToKey_restriction, w') /\
      cuMemAlloc_sizes w' <> []) /\
  (exists img sz w',
      sample_call true gvdb_T9 = (Done (mkExported (bufferGPU img) sz), w') /\
      printed w' = [] /\
      cell (bbox_min (aabb (deviceNode2 gvdb_T9 0%nat))) 9
        <> cell (bbox_min (aabb (deviceNode2 gvdb_T9 1%nat))) 9 /\
      map key (root_tiles (rootData img)) = [2 ^ 21; 2 ^ 21]).
Proof.
  split.
  { intros [H|[H|[H|[H|[H|H]]]]]; try discriminate; apply H; vm_compute;
      try (split; discriminate); auto. }
  split; [reflexivity|]. split.
  - eexists. split; [vm_compute; reflexivity|discriminate].
  - eexists _, _, _. split; [vm_compute; reflexivity|].
    split; [reflexivity|]. split; [discriminate|reflexivity].
Qed.

(** * Further properties of the exporter *)

(** ** The offsets of the regions *)

Lemma prefix_sum_length acc l : length (prefix_sum acc l) = S (length l).
Proof. revert acc; induction l as [|s l IH]; intros acc; simpl; [reflexivity|]. now rewrite IH. Qed.

Lemma prefix_sum_step acc l k :
  (k < length l)%nat ->
  nth (S k) (prefix_sum acc l) 0 = size_t (nth k (prefix_sum acc l) 0 + nth k l 0).
Proof.
  revert acc k; induction l as [|s l IH]; intros acc k Hk; simpl in Hk; [lia|].
  destruct k as [|k].
  - simpl. destruct l; reflexivity.
  - change (nth (S (S k)) (prefix_sum acc (s :: l)) 0)
      with (nth (S k) (prefix_sum (size_t (acc + s)) l) 0).
    change (nth (S k) (prefix_sum acc (s :: l)) 0)
      with (nth k (prefix_sum (size_t (acc + s)) l) 0).
    simpl (nth (S k) (s :: l) 0). apply IH. lia.
Qed.

Lemma Zsum_nonneg l : Forall (fun s => 0 <= s) l -> 0 <= Zsum l.
Proof. induction 1; simpl; lia. Qed.

Lemma prefix_sum_exact acc l k :
  0 <= acc -> Forall (fun s => 0 <= s) l -> acc + Zsum l < 2 ^ 64 ->
  (k <= length l)%nat ->
  nth k (prefix_sum acc l) 0 = acc + Zsum (firstn k l).
Proof.
  revert acc k; induction l as [|s l IH]; intros acc k Hacc Hpos Hsum Hk.
  - simpl in Hk. assert (k = 0)%nat by lia. subst. simpl. lia.
  - inversion Hpos as [|? ? Hs Hl]; subst. simpl in Hsum.
    pose proof (Zsum_nonneg l Hl).
    destruct k as [|k]; [simpl; lia|].
    change (nth (S k) (prefix_sum acc (s :: l)) 0)
      with (nth k (prefix_sum (size_t (acc + s)) l) 0).
    assert (E : size_t (acc + s) = acc + s) by (apply Z.mod_small; lia).
    rewrite E. rewrite IH; simpl in *; try lia; trivial.
Qed.

(** Without overflow an offset is the sum of the sizes before it. *)
Lemma off_dataOffsetsBytes sizes k :
  no_overflow sizes -> (k <= length sizes)%nat ->
  off (dataOffsetsBytes sizes) k = Zsum (firstn k sizes).
Proof.
  intros [Hpos Hsum] Hk. unfold off, dataOffsetsBytes.
  rewrite prefix_sum_exact; trivial; lia.
Qed.

(** X1.  Without overflow the offsets of lines 498-502 are the running
    sums of the region sizes: they start at 0, never decrease, each region
    ends where the next begins, and the last offset is the total size. *)
Theorem offsets_are_prefix_sums (sizes : list Z) :
  no_overflow sizes ->
  let offsets := dataOffsetsBytes sizes in
  length offsets = S (length sizes) /\
  (forall k, (k <= length sizes)%nat -> off offsets k = Zsum (firstn k sizes)) /\
  (forall k, (k < length sizes)%nat ->
     off offsets k <= off offsets (S k) /\
     off offsets (S k) = off offsets k + nth k sizes 0) /\
  off offsets (length sizes) = Zsum sizes.
Proof.
  intros Hno offsets. pose proof Hno as [Hpos Hsum].
  assert (Hex : forall k, (k <= length sizes)%nat -> off offsets k = Zsum (firstn k sizes))
    by (intros k Hk; now apply off_dataOffsetsBytes).
  split; [apply prefix_sum_length|]. split; [exact Hex|]. split.
  - intros k Hk. rewrite !Hex by lia.
    assert (E : firstn (S k) sizes = firstn k sizes ++ [nth k sizes 0]).
    { clear -Hk. revert k Hk; induction sizes as [|s l IH]; intros k Hk; simpl in Hk; [lia|].
      destruct k; [reflexivity|]. simpl. f_equal. apply IH. lia. }
    rewrite E. unfold Zsum. rewrite fold_right_app. simpl.
    assert (Hn : 0 <= nth k sizes 0).
    { rewrite Forall_forall in Hpos. apply Hpos, nth_In. exact Hk. }
    assert (Hadd : forall l a, fold_right Z.add a l = fold_right Z.add 0 l + a).
    { induction l as [|x l IH]; intros a; simpl; [lia|]. rewrite IH. lia. }
    rewrite (Hadd _ (nth k sizes 0 + 0)). lia.
  - rewrite Hex by lia. now rewrite firstn_all.
Qed.

Lemma offsets_are_prefix_sums_witness :
  no_overflow [3; 5; 2; 5] /\
  off (dataOffsetsBytes [3; 5; 2; 5]) 4 = 15.
Proof.
  assert (H : no_overflow [3; 5; 2; 5])
    by (split; [repeat constructor; lia | reflexivity]).
  split; [exact H|].
  exact (proj2 (proj2 (proj2 (offsets_are_prefix_sums [3; 5; 2; 5] H)))).
Defined.

(** ** The image a completed export returns *)

Lemma ExportToNanoVDB_image nanovdb NDEBUG gvdb channel bgp name cls out w img sz w' :
  ExportToNanoVDB nanovdb NDEBUG gvdb channel bgp name cls out w
    = (Done (mkExported (bufferGPU img) sz), w') ->
  let ty := GetChannelType gvdb channel in
  let n2 := getNumTotalNodes gvdb 2 in
  let n1 := getNumTotalNodes gvdb 1 in
  let n0 := getNumTotalNodes gvdb 0 in
  exists typeSizes,
    ComputeTypeSizes nanovdb NDEBUG ty (getLD gvdb 0) (getLD gvdb 1) (getLD gvdb 2) w
      = (Done typeSizes, w) /\
    let offsets := dataOffsetsBytes (dataSizes typeSizes n2 n1 n0) in
    gridData img =
      mkGrid (NANOVDB_MAGIC_NUMBER nanovdb) (firstn (MaxNameSize nanovdb) name) cls
        match ty with
        | T_FLOAT => GridType_Float
        | T_FLOAT3 => GridType_Vec3f
        | T_INT => GridType_Int32
        | T_OTHER _ => GridType_Unknown
        end 0 0 /\
    treeData img = fill_tree offsets n2 n1 n0 /\
    image_size img = off offsets R_COUNT /\
    sz = Some (off offsets R_COUNT) /\
    cuMemAlloc_sizes w' = cuMemAlloc_sizes w ++ [off offsets R_COUNT] /\
    new_sizes w' = new_sizes w ++ [off offsets R_NODE1].
Proof.
  intros E ty n2 n1 n0.
  pose proof (ExportToNanoVDB_Done _ _ _ _ _ _ _ _ _ _ _ _ E)
    as (bg & w1 & -> & Hout & Hsup & H0 & H1 & H2 & Hn2 & Hn1 & Hn0 & _).
  destruct out as [old|]; [|congruence].
  rewrite ExportToNanoVDB_valid in E by trivial.
  fold ty n2 n1 n0 in E.
  destruct (ComputeTypeSizes nanovdb NDEBUG ty (getLD gvdb 0) (getLD gvdb 1) (getLD gvdb 2) w)
    as [[ts| |] wts] eqn:Ets; try discriminate.
  pose proof (ComputeTypeSizes_world _ _ _ _ _ _ _ _ _ Ets) as ->.
  exists ts. split; [reflexivity|]. cbv zeta in E |- *.
  destruct (MaxNameSize nanovdb <=? length name)%nat; [|discriminate].
  match type of E with
  | context [ProcessGridExtents_switch ?a ?b ?c ?r0 ?r1 ?r2 ?d ?e ?g ?n ?ld ?tot ?w1] =>
      destruct (ProcessGridExtents_switch a b c r0 r1 r2 d e g n ld tot w1)
        as [[r| |] wr] eqn:Er; try discriminate
  end.
  inversion E; subst; clear E. simpl.
  apply ProcessGridExtents_switch_Done in Er
    as (_ & _ & _ & _ & _ & _ & _ & _ & _ & _ & Ha & Hn); trivial.
  repeat split; trivial.
Qed.

Lemma fill_tree_bytes a b c d e f n2 n1 n0 :
  no_overflow [a; b; c; d; e; f] ->
  mBytes (fill_tree (dataOffsetsBytes [a; b; c; d; e; f]) n2 n1 n0)
  = [b + c + d + e; b + c + d; b + c; b].
Proof.
  intros [Hpos Hsum].
  repeat match goal with
         | H : Forall _ (_ :: _) |- _ => inversion H; subst; clear H
         end.
  unfold Zsum in Hsum. simpl in Hsum.
  unfold fill_tree, dataOffsetsBytes, off, R_LEAF, R_NODE1, R_NODE2, R_ROOT, R_TREE.
  simpl. unfold size_t.
  rewrite (Z.mod_small a) by lia.
  rewrite (Z.mod_small (a + b)) by lia.
  rewrite (Z.mod_small (a + b + c)) by lia.
  rewrite (Z.mod_small (a + b + c + d)) by lia.
  rewrite (Z.mod_small (a + b + c + d + e)) by lia.
  rewrite !Z.mod_small by lia.
  repeat (f_equal; try lia).
Qed.

(** X2.  The tree header of a returned buffer holds the node counts of
    the four levels, leaf first and 1 for the root, and, without overflow
    of the region sizes, the distances from the tree header to the leaf,
    level-1, level-2 and root regions: the root follows the tree header
    and each node region follows the one of the level above. *)
Theorem tree_header_offsets nanovdb NDEBUG gvdb channel bgp name cls out w img sz w' :
  ExportToNanoVDB nanovdb NDEBUG gvdb channel bgp name cls out w
    = (Done (mkExported (bufferGPU img) sz), w') ->
  let n2 := getNumTotalNodes gvdb 2 in
  let n1 := getNumTotalNodes gvdb 1 in
  let n0 := getNumTotalNodes gvdb 0 in
  exists typeSizes,
    ComputeTypeSizes nanovdb NDEBUG (GetChannelType gvdb channel)
      (getLD gvdb 0) (getLD gvdb 1) (getLD gvdb 2) w = (Done typeSizes, w) /\
    let region := fun r => nth r (dataSizes typeSizes n2 n1 n0) 0 in
    mCount (treeData img) = [n0; n1; n2; 1] /\
    (no_overflow (dataSizes typeSizes n2 n1 n0) ->
     mBytes (treeData img) =
       [ region R_TREE + region R_ROOT + region R_NODE2 + region R_NODE1;
         region R_TREE + region R_ROOT + region R_NODE2;
         region R_TREE + region R_ROOT;
         region R_TREE ]).
Proof.
  intros E n2 n1 n0.
  apply ExportToNanoVDB_image in E as (ts & Ets & _ & Htree & _).
  exists ts. split; [exact Ets|]. cbv zeta. fold n2 n1 n0 in Htree.
  rewrite Htree. split; [reflexivity|].
  intros Hno. unfold dataSizes in *. now rewrite fill_tree_bytes.
Qed.

Lemma tree_header_offsets_witness :
  exists img sz w',
    sample_call false gvdb_S2 = (Done (mkExported (bufferGPU img) sz), w') /\
    mCount (treeData img) = [2; 2; 2; 1].
Proof.
  assert (E : exists img sz w',
             sample_call false gvdb_S2 = (Done (mkExported (bufferGPU img) sz), w'))
    by (eexists _, _, _; vm_compute; reflexivity).
  destruct E as (img & sz & w' & E). exists img, sz, w'. split; [exact E|].
  destruct (tree_header_offsets sample_nanovdb false gvdb_S2 0 (Some zero_union)
              name_volume 0 (Some 0) initial_world img sz w' E)
    as (ts & _ & Hc & _).
  exact Hc.
Defined.

(** The sample exports that return a buffer. *)
Lemma sample_S2_returns :
  exists img sz w',
    sample_call false gvdb_S2 = (Done (mkExported (bufferGPU img) sz), w').
Proof. eexists _, _, _. vm_compute. reflexivity. Qed.

(** The root of a completed export: the facts of
    [ProcessGridExtents_switch_Done] for the call of the entry point. *)
Lemma ExportToNanoVDB_root nanovdb NDEBUG gvdb channel bgp name cls out w img sz w' :
  ExportToNanoVDB nanovdb NDEBUG gvdb channel bgp name cls out w
    = (Done (mkExported (bufferGPU img) sz), w') ->
  let n := getNumTotalNodes gvdb 2 in
  let ids := seq 0 (Z.to_nat n) in
  let tot := getLD gvdb 2 + getLD gvdb 1 + getLD gvdb 0 in
  root_type (rootData img) = GetChannelType gvdb channel /\
  root_tiles (rootData img) =
    std_sort tile_less
      (map (fun t => setChild (bbox_min (aabb (deviceNode2 gvdb t))) tot t) ids) /\
  root_bbox (rootData img) =
    fold_left expand_box (map (fun t => aabb (deviceNode2 gvdb t)) ids)
      (CoordBBox_default nanovdb) /\
  root_tileCount (rootData img) = n.
Proof.
  intros E n ids tot.
  apply ExportToNanoVDB_Done in E
    as (bg & w1 & _ & _ & Hsup & _ & _ & _ & _ & _ & _ & _ & _ & _ & _ & _ & E).
  apply ProcessGridExtents_switch_Done in E
    as (_ & _ & Hty & Ht & _ & _ & Hbox & _ & Hcnt & _); trivial.
  repeat split; trivial.
Qed.

(** ** The index-space box of the root *)

Lemma expand_box_fold l b0 :
  bbox_contains (fold_left expand_box l b0) b0 /\
  (forall x, In x l -> bbox_contains (fold_left expand_box l b0) x).
Proof.
  revert b0; induction l as [|y l IH]; intros b0; simpl.
  - split; [unfold bbox_contains; lia|contradiction].
  - destruct (IH (expand_box b0 y)) as [H0 Hl]. unfold bbox_contains in *.
    simpl in H0. split; [lia|].
    intros x [<-|Hx]; [lia|now apply Hl].
Qed.

Lemma expand_box_least l b0 B :
  bbox_contains B b0 -> (forall x, In x l -> bbox_contains B x) ->
  bbox_contains B (fold_left expand_box l b0).
Proof.
  revert b0; induction l as [|y l IH]; intros b0 H0 Hl; simpl; [exact H0|].
  apply IH.
  - pose proof (Hl y (or_introl eq_refl)) as Hy. unfold bbox_contains in *. simpl. lia.
  - intros x Hx. apply Hl. now right.
Qed.

(** X3.  The index-space box written into the root header contains the
    box of every level-2 node. *)
Theorem root_box_covers_nodes nanovdb NDEBUG gvdb channel bgp name cls out w img sz w' t :
  ExportToNanoVDB nanovdb NDEBUG gvdb channel bgp name cls out w
    = (Done (mkExported (bufferGPU img) sz), w') ->
  (t < Z.to_nat (getNumTotalNodes gvdb 2))%nat ->
  bbox_contains (root_bbox (rootData img)) (aabb (deviceNode2 gvdb t)).
Proof.
  intros E Ht. apply ExportToNanoVDB_root in E as (_ & _ & Hbox & _).
  rewrite Hbox. apply expand_box_fold.
  apply in_map_iff. exists t. split; [reflexivity|]. apply in_seq. lia.
Qed.

Lemma root_box_covers_nodes_witness :
  exists img sz w',
    sample_call false gvdb_S2 = (Done (mkExported (bufferGPU img) sz), w') /\
    bbox_contains (root_bbox (rootData img)) (aabb (deviceNode2 gvdb_S2 1%nat)).
Proof.
  destruct sample_S2_returns as (img & sz & w' & E). exists img, sz, w'.
  split; [exact E|].
  apply (root_box_covers_nodes sample_nanovdb false gvdb_S2 0 (Some zero_union)
           name_volume 0 (Some 0) initial_world img sz w' 1%nat E).
  vm_compute. repeat constructor.
Defined.

(** X4.  With at least one level-2 node and the default box of NanoVDB
    (minimum INT_MAX, maximum INT_MIN), the root's index-space box is the
    least box around the nodes: every box that contains all node boxes
    contains it. *)
Theorem root_box_is_least nanovdb NDEBUG gvdb channel bgp name cls out w img sz w' B :
  ExportToNanoVDB nanovdb NDEBUG gvdb channel bgp name cls out w
    = (Done (mkExported (bufferGPU img) sz), w') ->
  CoordBBox_default nanovdb = default_box ->
  0 < getNumTotalNodes gvdb 2 ->
  (forall t, (t < Z.to_nat (getNumTotalNodes gvdb 2))%nat ->
     int_box (aabb (deviceNode2 gvdb t)) /\ bbox_contains B (aabb (deviceNode2 gvdb t))) ->
  bbox_contains B (root_bbox (rootData img)).
Proof.
  intros E Hdef Hn Hnodes. apply ExportToNanoVDB_root in E as (_ & _ & Hbox & _).
  rewrite Hbox, Hdef. apply expand_box_least.
  - destruct (Hnodes 0%nat ltac:(lia)) as [Hint HB].
    unfold int_box, is_int, bbox_contains, default_box in *.
    cbn [bbox_min bbox_max c0 c1 c2] in *. lia.
  - intros x Hx. apply in_map_iff in Hx as (t & <- & Hx). apply in_seq in Hx.
    apply Hnodes. lia.
Qed.

Lemma root_box_is_least_witness :
  exists img sz w',
    sample_call false gvdb_S2 = (Done (mkExported (bufferGPU img) sz), w') /\
    bbox_contains (mkBBox (mkCoord 0 0 0) (mkCoord 8191 4095 4095))
      (root_bbox (rootData img)).
Proof.
  destruct sample_S2_returns as (img & sz & w' & E). exists img, sz, w'.
  split; [exact E|].
  apply (root_box_is_least sample_nanovdb false gvdb_S2 0 (Some zero_union)
           name_volume 0 (Some 0) initial_world img sz w' _ E).
  - reflexivity.
  - reflexivity.
  - intros [|[|t]] Ht; [| |simpl in Ht; lia];
      split; vm_compute; repeat split; discriminate.
Defined.

(** ** The tiles and the nodes they reference *)

(** X5.  The child identifiers of the emitted tile array are a
    permutation of 0 .. numNode2s - 1: after the sort every level-2 node
    is referenced by exactly one tile, and the tile count of the header is
    the length of the array. *)
Theorem tiles_reference_each_node_once
    nanovdb NDEBUG gvdb channel bgp name cls out w img sz w' :
  ExportToNanoVDB nanovdb NDEBUG gvdb channel bgp name cls out w
    = (Done (mkExported (bufferGPU img) sz), w') ->
  0 <= getNumTotalNodes gvdb 2 ->
  let emitted := root_tiles (rootData img) in
  Permutation (map childID emitted)
    (map Z.of_nat (seq 0 (Z.to_nat (getNumTotalNodes gvdb 2)))) /\
  NoDup (map childID emitted) /\
  root_tileCount (rootData img) = Z.of_nat (length emitted).
Proof.
  intros E Hn emitted. apply ExportToNanoVDB_root in E as (_ & Ht & _ & Hcnt).
  fold emitted in Ht.
  assert (Hperm : Permutation (map childID emitted)
            (map Z.of_nat (seq 0 (Z.to_nat (getNumTotalNodes gvdb 2))))).
  { rewrite Ht. eapply perm_trans.
    - apply Permutation_map, std_sort_Permutation.
    - rewrite map_map. simpl. apply Permutation_refl. }
  split; [exact Hperm|]. split.
  - eapply Permutation_NoDup; [apply Permutation_sym, Hperm|].
    apply NoDup_map_NoDup_ForallPairs; [|apply seq_NoDup].
    intros a b _ _ Hab. lia.
  - rewrite Hcnt. apply Permutation_length in Hperm.
    rewrite !length_map, length_seq in Hperm. rewrite Hperm. lia.
Qed.

Lemma tiles_reference_each_node_once_witness :
  exists img sz w',
    sample_call false gvdb_S2 = (Done (mkExported (bufferGPU img) sz), w') /\
    NoDup (map childID (root_tiles (rootData img))).
Proof.
  destruct sample_S2_returns as (img & sz & w' & E). exists img, sz, w'.
  split; [exact E|].
  apply (tiles_reference_each_node_once sample_nanovdb false gvdb_S2 0 (Some zero_union)
           name_volume 0 (Some 0) initial_world img sz w' E).
  vm_compute. discriminate.
Defined.

(** ** The headers *)

(** X6.  In a returned buffer the grid header carries the magic number,
    the caller's grid class and no blind metadata, and its grid type is
    the one of the value type the root was written at, which is the type
    of the exported channel. *)
Theorem grid_header_fields nanovdb NDEBUG gvdb channel bgp name cls out w img sz w' :
  ExportToNanoVDB nanovdb NDEBUG gvdb channel bgp name cls out w
    = (Done (mkExported (bufferGPU img) sz), w') ->
  mMagic (gridData img) = NANOVDB_MAGIC_NUMBER nanovdb /\
  mGridClass (gridData img) = cls /\
  mBlindMetadataCount (gridData img) = 0 /\
  mBlindMetadataOffset (gridData img) = 0 /\
  match rootData img with
  | Root_float _ =>
      GetChannelType gvdb channel = T_FLOAT /\ mGridType (gridData img) = GridType_Float
  | Root_Vec3f _ =>
      GetChannelType gvdb channel = T_FLOAT3 /\ mGridType (gridData img) = GridType_Vec3f
  | Root_int _ =>
      GetChannelType gvdb channel = T_INT /\ mGridType (gridData img) = GridType_Int32
  end.
Proof.
  intros E.
  pose proof (ExportToNanoVDB_root _ _ _ _ _ _ _ _ _ _ _ _ E) as (Hty & _).
  apply ExportToNanoVDB_image in E as (ts & _ & Hg & _).
  rewrite Hg. simpl. repeat split.
  destruct (rootData img); simpl in Hty; rewrite <- Hty; now split.
Qed.

Lemma grid_header_fields_witness :
  exists img sz w',
    sample_call false gvdb_S2 = (Done (mkExported (bufferGPU img) sz), w') /\
    mMagic (gridData img) = 0x304244566f6e614e /\ mGridClass (gridData img) = 0.
Proof.
  destruct sample_S2_returns as (img & sz & w' & E). exists img, sz, w'.
  split; [exact E|].
  destruct (grid_header_fields sample_nanovdb false gvdb_S2 0 (Some zero_union)
              name_volume 0 (Some 0) initial_world img sz w' E) as (Hm & Hc & _).
  split; [exact Hm|exact Hc].
Defined.

Lemma ProcessGridExtents_switch_background nanovdb NDEBUG ty n node2Start avc bg
    ld2 tot w r w' :
  ProcessGridExtents_switch nanovdb NDEBUG ty
    (zeroRoot (Z.to_nat n)) (zeroRoot (Z.to_nat n)) (zeroRoot (Z.to_nat n))
    node2Start avc (Some bg) n ld2 tot w = (Done r, w') ->
  supported ty ->
  root_background_is r (fun T VT => getValueUnion bg).
Proof.
  intros E Hsup.
  assert (Hlen : forall T (VT : ValueT T),
             (Z.to_nat n <= length (tiles (zeroRoot (T := T) (Z.to_nat n))))%nat)
    by (intros; simpl; rewrite repeat_length; lia).
  destruct Hsup as [->|[->| ->]]; unfold ProcessGridExtents_switch in E;
    apply bind_Done in E as (o & w1 & E & E2);
    apply bind_Done in E2 as (r' & w2 & Eo & E2);
    apply from_option_Done in Eo as [-> ->];
    apply ret_Done in E2 as [<- ->];
    apply ProcessGridExtents_Done in E; try apply Hlen;
    destruct E as (r0 & Er0 & _ & _ & _ & _ & _ & _ & _ & _ & Hbg & _);
    inversion Er0; subst r0; exact Hbg.
Qed.

(** X7.  The background slot of the root header holds the value behind
    the caller's background pointer, read at the value type of the
    channel. *)
Theorem root_background_is_callers
    nanovdb NDEBUG gvdb channel bgp name cls out w img sz w' :
  ExportToNanoVDB nanovdb NDEBUG gvdb channel bgp name cls out w
    = (Done (mkExported (bufferGPU img) sz), w') ->
  exists bg,
    bgp = Some bg /\
    match rootData img with
    | Root_float r => mBackground r = f bg
    | Root_Vec3f r => mBackground r = f3 bg
    | Root_int r => mBackground r = i bg
    end.
Proof.
  intros E.
  apply ExportToNanoVDB_Done in E
    as (bg & w1 & Hbg & _ & Hsup & _ & _ & _ & _ & _ & _ & _ & _ & _ & _ & _ & E).
  exists bg. split; [exact Hbg|].
  apply ProcessGridExtents_switch_background in E; [|exact Hsup].
  exact E.
Qed.

Lemma root_background_is_callers_witness :
  exists img sz w' bg,
    sample_call false gvdb_S2 = (Done (mkExported (bufferGPU img) sz), w') /\
    Some zero_union = Some bg /\
    match rootData img with
    | Root_float r => mBackground r = f bg
    | Root_Vec3f r => mBackground r = f3 bg
    | Root_int r => mBackground r = i bg
    end.
Proof.
  destruct sample_S2_returns as (img & sz & w' & E).
  destruct (root_background_is_callers sample_nanovdb false gvdb_S2 0 (Some zero_union)
              name_volume 0 (Some 0) initial_world img sz w' E) as (bg & Hbg & H).
  exists img, sz, w', bg. split; [exact E|]. split; [exact Hbg|exact H].
Defined.

(** ** Allocations *)

(** X8.  A call that returns a buffer has made exactly one device
    allocation, of the size it reports through [*outTotalSize], and one
    host allocation; without overflow of the region sizes the reported
    size is the sum of the six regions and the host buffer holds the grid,
    tree, root and level-2 regions. *)
Theorem reported_size_is_allocated
    nanovdb NDEBUG gvdb channel bgp name cls out w img sz w' :
  ExportToNanoVDB nanovdb NDEBUG gvdb channel bgp name cls out w
    = (Done (mkExported (bufferGPU img) sz), w') ->
  exists typeSizes host,
    ComputeTypeSizes nanovdb NDEBUG (GetChannelType gvdb channel)
      (getLD gvdb 0) (getLD gvdb 1) (getLD gvdb 2) w = (Done typeSizes, w) /\
    sz = Some (image_size img) /\
    cuMemAlloc_sizes w' = cuMemAlloc_sizes w ++ [image_size img] /\
    new_sizes w' = new_sizes w ++ [host] /\
    let sizes := dataSizes typeSizes (getNumTotalNodes gvdb 2)
                   (getNumTotalNodes gvdb 1) (getNumTotalNodes gvdb 0) in
    (no_overflow sizes ->
     image_size img = Zsum sizes /\
     host = Zsum (firstn 4 sizes) /\
     host <= image_size img).
Proof.
  intros E.
  apply ExportToNanoVDB_image in E as (ts & Ets & _ & _ & Himg & Hsz & Hdev & Hhost).
  cbv zeta in *.
  eexists ts, _. split; [exact Ets|].
  rewrite Himg. split; [exact Hsz|]. split; [exact Hdev|]. split; [exact Hhost|].
  intros Hno.
  pose proof (proj1 Hno) as Hpos.
  set (sizes := dataSizes ts _ _ _) in *.
  assert (H6 : length sizes = 6%nat) by reflexivity.
  unfold R_COUNT, R_NODE1.
  rewrite (off_dataOffsetsBytes sizes 6) by (trivial; lia).
  rewrite (off_dataOffsetsBytes sizes 4) by (trivial; lia).
  rewrite <- H6 at 1 2. rewrite firstn_all.
  split; [reflexivity|]. split; [reflexivity|].
  rewrite <- (firstn_skipn 4 sizes) at 2. unfold Zsum. rewrite fold_right_app.
  assert (Hadd : forall l a, fold_right Z.add a l = fold_right Z.add 0 l + a).
  { induction l as [|x l IH]; intros a; simpl; [lia|]. rewrite IH. lia. }
  rewrite (Hadd _ (fold_right Z.add 0 (skipn 4 sizes))).
  assert (0 <= Zsum (skipn 4 sizes)); [|unfold Zsum in *; lia].
  apply Zsum_nonneg. rewrite Forall_forall in *. intros x Hx. apply Hpos.
  rewrite <- (firstn_skipn 4 sizes). apply in_or_app. now right.
Qed.

Lemma reported_size_is_allocated_witness :
  exists img sz w',
    sample_call false gvdb_S2 = (Done (mkExported (bufferGPU img) sz), w') /\
    sz = Some (image_size img) /\
    cuMemAlloc_sizes w' = [image_size img].
Proof.
  destruct sample_S2_returns as (img & sz & w' & E). exists img, sz, w'.
  split; [exact E|].
  destruct (reported_size_is_allocated sample_nanovdb false gvdb_S2 0 (Some zero_union)
              name_volume 0 (Some 0) initial_world img sz w' E)
    as (ts & host & _ & Hsz & Hdev & _).
  split; [exact Hsz|exact Hdev].
Defined.

(** X9.  A call that returns GVDB_EXPORT_NANOVDB_NULL has allocated
    nothing on the device or the host and has left [*outTotalSize] as it
    was: every null return precedes the allocations. *)
Theorem null_return_allocates_nothing
    nanovdb NDEBUG gvdb channel bgp name cls out w sz w' :
  ExportToNanoVDB nanovdb NDEBUG gvdb channel bgp name cls out w
    = (Done (mkExported GVDB_EXPORT_NANOVDB_NULL sz), w') ->
  sz = out /\
  cuMemAlloc_sizes w' = cuMemAlloc_sizes w /\
  new_sizes w' = new_sizes w.
Proof.
  assert (Hfail : forall msg o wa,
            (gprintf msg ;;; failed o) wa
              = (Done (mkExported GVDB_EXPORT_NANOVDB_NULL sz), w') ->
            sz = o /\ cuMemAlloc_sizes w' = cuMemAlloc_sizes wa /\
            new_sizes w' = new_sizes wa).
  { intros msg o wa E. unfold bind, gprintf, failed, ret in E.
    inversion E; subst. simpl. repeat split. }
  assert (Hnum : forall level (k : Z -> M Exported) wa,
            (n <- ExportToNanoVDB_GetNumNodes gvdb level ;;
             match n with None => failed out | Some c => k c end) wa
              = (Done (mkExported GVDB_EXPORT_NANOVDB_NULL sz), w') ->
            (sz = out /\ cuMemAlloc_sizes w' = cuMemAlloc_sizes wa /\
             new_sizes w' = new_sizes wa) \/
            k (getNumTotalNodes gvdb level) wa
              = (Done (mkExported GVDB_EXPORT_NANOVDB_NULL sz), w')).
  { intros level k wa E. unfold bind at 1 in E. unfold ExportToNanoVDB_GetNumNodes in E.
    destruct (getNumTotalNodes gvdb level >? INT_MAX).
    - left. unfold bind, gprintf, ret, failed in E. inversion E; subst. simpl.
      repeat split.
    - right. exact E. }
  intros E. unfold ExportToNanoVDB in E. cbv zeta in E.
  destruct bgp as [bg|]; [|now apply Hfail in E].
  destruct out as [old|]; [|now apply Hfail in E].
  destruct ((getLD gvdb 0 <? 1) || (getLD gvdb 0 >? 8)); [now apply Hfail in E|].
  destruct ((getLD gvdb 1 <? 1) || (getLD gvdb 1 >? 8)); [now apply Hfail in E|].
  destruct ((getLD gvdb 2 <? 1) || (getLD gvdb 2 >? 8)); [now apply Hfail in E|].
  destruct (GetChannelType gvdb channel);
    [| | |now apply Hfail in E];
    (apply Hnum in E as [E|E]; [exact E|]);
    (apply Hnum in E as [E|E]; [exact E|]);
    (apply Hnum in E as [E|E]; [exact E|]);
    exfalso;
    apply bind_Done in E as (ts & wa & _ & E);
    apply bind_Done in E as (u1 & wb & _ & E);
    apply bind_Done in E as (u2 & wc & _ & E);
    apply bind_Done in E as (idx & wd & _ & E);
    apply bind_Done in E as (g & we & _ & E);
    apply bind_Done in E as (r & wf & _ & E);
    apply ret_Done in E as [E _]; discriminate.
Qed.

Lemma null_return_allocates_nothing_witness :
  exists sz w',
    sample_call false gvdb_too_many
      = (Done (mkExported GVDB_EXPORT_NANOVDB_NULL sz), w') /\
    cuMemAlloc_sizes w' = [] /\ new_sizes w' = [].
Proof.
  assert (E : exists sz w',
             sample_call false gvdb_too_many
               = (Done (mkExported GVDB_EXPORT_NANOVDB_NULL sz), w'))
    by (eexists _, _; vm_compute; reflexivity).
  destruct E as (sz & w' & E). exists sz, w'. split; [exact E|].
  destruct (null_return_allocates_nothing sample_nanovdb false gvdb_too_many 0
              (Some zero_union) name_volume 0 (Some 0) initial_world sz w' E)
    as (_ & Hd & Hh).
  split; [exact Hd|exact Hh].
Defined.

(** ** What a returned buffer has passed *)

Lemma ComputeTypeSizes_without_assertions nanovdb ty ld0 ld1 ld2 w :
  supported ty ->
  exists typeSizes,
    ComputeTypeSizes nanovdb true ty ld0 ld1 ld2 w = (Done typeSizes, w).
Proof.
  intros Hsup. unfold ComputeTypeSizes, nodeSizes, leafSizes.
  destruct (match ty with T_FLOAT => _ | T_FLOAT3 => _ | T_INT => _ | T_OTHER _ => _ end)
    as [rr rt].
  assert (Hlook : forall (g : ValueTag -> Z -> Z) ld,
            exists s,
              DataTypeSizeLookup true
                (map (fun ty => map (g ty) table_log2dims) table_types) ty ld w
              = (Done s, w)).
  { intros g ld. destruct (Z_le_dec 2 ld), (Z_le_dec ld 7);
      try (eexists; rewrite DataTypeSizeLookup_outside by lia; reflexivity).
    eexists. apply DataTypeSizeLookup_in_range; trivial. lia. }
  unfold bind.
  destruct (Hlook (sizeof_InternalNode nanovdb) ld2) as [s2 ->].
  destruct (Hlook (sizeof_InternalNode nanovdb) ld1) as [s1 ->].
  destruct (Hlook (sizeof_LeafNode nanovdb) ld0) as [s0 ->].
  eexists. reflexivity.
Qed.

Lemma ComputeTypeSizes_with_assertions nanovdb ty ld0 ld1 ld2 w typeSizes w' :
  supported ty ->
  ComputeTypeSizes nanovdb false ty ld0 ld1 ld2 w = (Done typeSizes, w') ->
  2 <= ld0 <= 7 /\ 2 <= ld1 <= 7 /\ 2 <= ld2 <= 7.
Proof.
  intros Hsup E.
  destruct (Z_le_dec 2 ld0), (Z_le_dec ld0 7), (Z_le_dec 2 ld1), (Z_le_dec ld1 7),
           (Z_le_dec 2 ld2), (Z_le_dec ld2 7); try lia;
    rewrite ComputeTypeSizes_aborts in E by (trivial; lia); discriminate.
Qed.

(** X10.  A call that returns a buffer had non-null background and size
    pointers, a channel of type float, float3 or int and the three
    log2dims in [1, 8]; compiled with assertions it had, moreover, the
    three log2dims in [2, 7] and [32 - T <= 21]: the assertion of the size
    lookup or the one of [ProcessGridExtents] stops every other call
    before it returns. *)
Theorem returned_buffer_passed_checks
    nanovdb NDEBUG gvdb channel bgp name cls out w img sz w' :
  ExportToNanoVDB nanovdb NDEBUG gvdb channel bgp name cls out w
    = (Done (mkExported (bufferGPU img) sz), w') ->
  let T := getLD gvdb 0 + getLD gvdb 1 + getLD gvdb 2 in
  bgp <> None /\ out <> None /\ supported (GetChannelType gvdb channel) /\
  1 <= getLD gvdb 0 <= 8 /\ 1 <= getLD gvdb 1 <= 8 /\ 1 <= getLD gvdb 2 <= 8 /\
  (NDEBUG = false ->
   2 <= getLD gvdb 0 <= 7 /\ 2 <= getLD gvdb 1 <= 7 /\ 2 <= getLD gvdb 2 <= 7 /\
   32 - T <= 21).
Proof.
  intros E T.
  pose proof (ExportToNanoVDB_Done _ _ _ _ _ _ _ _ _ _ _ _ E)
    as (bg & w1 & -> & Hout & Hsup & H0 & H1 & H2 & _ & _ & _ & _ & _ & _ & _
        & (ts & Ets & _) & Er).
  split; [discriminate|]. split; [exact Hout|]. split; [exact Hsup|].
  split; [exact H0|]. split; [exact H1|]. split; [exact H2|].
  intros ->.
  apply ComputeTypeSizes_with_assertions in Ets as (R0 & R1 & R2); trivial.
  apply ProcessGridExtents_switch_Done in Er as (_ & [Hn|HT] & _); trivial;
    [discriminate|].
  split; [exact R0|]. split; [exact R1|]. split; [exact R2|]. unfold T. lia.
Qed.

Lemma returned_buffer_passed_checks_witness :
  exists img sz w',
    sample_call false gvdb_S2 = (Done (mkExported (bufferGPU img) sz), w') /\
    2 <= getLD gvdb_S2 2 <= 7 /\
    32 - (getLD gvdb_S2 0 + getLD gvdb_S2 1 + getLD gvdb_S2 2) <= 21.
Proof.
  destruct sample_S2_returns as (img & sz & w' & E). exists img, sz, w'.
  split; [exact E|].
  destruct (returned_buffer_passed_checks sample_nanovdb false gvdb_S2 0
              (Some zero_union) name_volume 0 (Some 0) initial_world img sz w' E)
    as (_ & _ & _ & _ & _ & _ & H).
  destruct (H eq_refl) as (_ & _ & R2 & HT).
  split; [exact R2|exact HT].
Defined.

(** ** The kernel launches *)

Lemma ceil_div_uint n k :
  0 < k <= 32 -> 0 <= n < 2 ^ 32 - k ->
  uint (uint (uint n + k) - 1) / k = (n + k - 1) / k.
Proof.
  intros Hk Hn. unfold uint.
  rewrite (Z.mod_small n) by lia.
  rewrite (Z.mod_small (n + k)) by lia.
  rewrite (Z.mod_small (n + k - 1)) by lia. reflexivity.
Qed.

(** X12.  For a node count in [0, INT_MAX] the linear launch of the
    exporter has a thread for every node index, with 32 threads to a
    block, and no block without a node. *)
Theorem launch_covers_every_node numNodes :
  0 <= numNodes <= INT_MAX ->
  let blocks := numBlocks numNodes in
  (forall idx, 0 <= idx < numNodes ->
     exists block lane,
       0 <= block < blocks /\ 0 <= lane < export_blockSize /\
       idx = block * export_blockSize + lane) /\
  (forall block, 0 <= block < blocks -> block * export_blockSize < numNodes).
Proof.
  intros Hn blocks. unfold blocks, numBlocks, export_blockSize, INT_MAX in *.
  rewrite ceil_div_uint by lia.
  split.
  - intros idx Hidx. exists (idx / 32), (idx mod 32).
    Z.div_mod_to_equations. lia.
  - intros block Hb. Z.div_mod_to_equations. lia.
Qed.

Lemma launch_covers_every_node_witness :
  0 <= 33 <= INT_MAX /\
  numBlocks 33 = 2 /\
  exists block lane,
    0 <= block < numBlocks 33 /\ 0 <= lane < export_blockSize /\
    32 = block * export_blockSize + lane.
Proof.
  assert (H : 0 <= 33 <= INT_MAX) by (vm_compute; split; discriminate).
  split; [exact H|]. split; [reflexivity|].
  apply (launch_covers_every_node 33 H). lia.
Defined.

(** X13.  [RenderNanoVDB] computes both grid dimensions from [width].
    For a width below 2^32 - 8 the 8 x 8 blocks cover every column,
    and they cover every row when the image is not taller than wide; an
    image more than 7 rows taller than wide has rows without a thread.
    The image buffer has 4 bytes for each pixel as long as the pixel
    count stays below 2^62. *)
Theorem render_grid_coverage width height :
  0 <= width < 2 ^ 32 - 8 -> 0 <= height ->
  let gridX := RenderNanoVDB_gridX width height in
  let gridY := RenderNanoVDB_gridY width height in
  (forall x, 0 <= x < width -> x < gridX * render_blockSize) /\
  (height <= width -> forall y, 0 <= y < height -> y < gridY * render_blockSize) /\
  (width + 7 < height -> gridY * render_blockSize <= height - 1) /\
  (width * height < 2 ^ 62 -> RenderNanoVDB_imageSize width height = 4 * width * height).
Proof.
  intros Hw Hh gridX gridY.
  unfold gridX, gridY, RenderNanoVDB_gridX, RenderNanoVDB_gridY, render_blockSize.
  pose proof (ceil_div_uint width 8 ltac:(lia) Hw) as E.
  unfold uint in *. 
  rewrite (Z.mod_small width) in E by lia.
  rewrite E. clear E.
  split; [|split; [|split]].
  - intros x Hx. Z.div_mod_to_equations. lia.
  - intros Hle y Hy. Z.div_mod_to_equations. lia.
  - intros Hgt. Z.div_mod_to_equations. lia.
  - intros Hsmall. unfold RenderNanoVDB_imageSize, size_t.
    assert (0 <= width * height) by nia.
    rewrite (Z.mod_small (width * height)) by lia.
    rewrite (Z.mod_small (width * height * 4)) by lia.
    rewrite Z.mod_small by lia. lia.
Qed.

Lemma render_grid_coverage_witness :
  RenderNanoVDB_gridX 1024 768 = 128 /\
  (forall y, 0 <= y < 768 -> y < RenderNanoVDB_gridY 1024 768 * render_blockSize) /\
  RenderNanoVDB_imageSize 1024 768 = 4 * 1024 * 768.
Proof.
  destruct (render_grid_coverage 1024 768 ltac:(lia) ltac:(lia)) as (_ & Hrows & _ & Hsize).
  split; [reflexivity|]. split; [apply Hrows; lia|apply Hsize; lia].
Defined.

(** ** What the key keeps of an origin *)

(** X14.  For an origin without a sign bit and under [32 - T <= 21] the
    three shifted coordinates can be read back from the key: the low 21
    bits hold [k >> T], the next 21 bits [j >> T] and the bits from 42
    upwards [i >> T]. *)
Theorem key_fields ijk T :
  nonneg_coord ijk -> 32 - T <= 21 ->
  let k := CoordToKey ijk T in
  Z.land k (2 ^ 21 - 1) = int_shr (c2 ijk) T /\
  Z.land (Z.shiftr k 21) (2 ^ 21 - 1) = int_shr (c1 ijk) T /\
  Z.shiftr k 42 = int_shr (c0 ijk) T.
Proof.
  intros Hc HT k. unfold k. rewrite CoordToKey_sum by trivial.
  destruct Hc as (H0 & H1 & H2).
  apply (int_shr_range _ T) in H0, H1, H2; trivial.
  set (a := int_shr (c2 ijk) T) in *. set (b := int_shr (c1 ijk) T) in *.
  set (c := int_shr (c0 ijk) T) in *.
  change (2 ^ 21 - 1) with (Z.ones 21).
  rewrite !Z.land_ones, !Z.shiftr_div_pow2 by lia.
  repeat split; Z.div_mod_to_equations; lia.
Qed.

Lemma key_fields_witness :
  nonneg_coord (mkCoord 438603478 101217144 861900436) /\
  Z.shiftr (CoordToKey (mkCoord 438603478 101217144 861900436) 12) 42
    = Z.shiftr 438603478 12.
Proof.
  assert (H : nonneg_coord (mkCoord 438603478 101217144 861900436))
    by (vm_compute; repeat split; discriminate).
  split; [exact H|].
  apply (key_fields (mkCoord 438603478 101217144 861900436) 12 H). lia.
Defined.

(** A smaller key belongs to a lexicographically smaller cell. *)
Lemma CoordToKey_lt_cell a b T :
  nonneg_coord a -> nonneg_coord b -> 32 - T <= 21 ->
  CoordToKey a T < CoordToKey b T -> Coord_lex_lt (cell a T) (cell b T).
Proof.
  intros Ha Hb HT. rewrite !CoordToKey_sum by trivial.
  destruct Ha as (A0 & A1 & A2), Hb as (B0 & B1 & B2).
  apply (int_shr_range _ T) in A0, A1, A2, B0, B1, B2; trivial.
  unfold Coord_lex_lt, cell. simpl. lia.
Qed.

(** X15.  For origins without a sign bit and under [32 - T <= 21] the
    keys compare as the cells compare lexicographically, first coordinate
    first. *)
Theorem key_order_is_cell_order a b T :
  nonneg_coord a -> nonneg_coord b -> 32 - T <= 21 ->
  (CoordToKey a T < CoordToKey b T <-> Coord_lex_lt (cell a T) (cell b T)).
Proof.
  intros Ha Hb HT. split; [now apply CoordToKey_lt_cell|].
  rewrite !CoordToKey_sum by trivial.
  destruct Ha as (A0 & A1 & A2), Hb as (B0 & B1 & B2).
  apply (int_shr_range _ T) in A0, A1, A2, B0, B1, B2; trivial.
  unfold Coord_lex_lt, cell. simpl. lia.
Qed.

Lemma key_order_is_cell_order_witness :
  CoordToKey (mkCoord 0 0 4096) 12 < CoordToKey (mkCoord 4096 0 0) 12.
Proof.
  apply (key_order_is_cell_order (mkCoord 0 0 4096) (mkCoord 4096 0 0) 12).
  - vm_compute. repeat split; discriminate.
  - vm_compute. repeat split; discriminate.
  - lia.
  - left. vm_compute. reflexivity.
Defined.

Lemma Sorted_weaken {A} (R R' : A -> A -> Prop) l :
  Sorted R l ->
  (forall a b, In a l -> In b l -> R a b -> R' a b) ->
  Sorted R' l.
Proof.
  induction 1 as [|a l Hs IH Hhd]; intros Himp; constructor.
  - apply IH. intros x y Hx Hy. apply Himp; now right.
  - destruct Hhd as [|b l' Hab]; constructor.
    apply Himp; simpl; auto.
Qed.

(** X16.  When [32 - T <= 21] holds and the origins of the level-2 nodes
    have no negative component and fall in pairwise distinct cells, the
    emitted tiles reference the nodes in the strict lexicographic order of
    their cells. *)
Theorem tiles_in_cell_order nanovdb NDEBUG gvdb channel bgp name cls out w img sz w' :
  ExportToNanoVDB nanovdb NDEBUG gvdb channel bgp name cls out w
    = (Done (mkExported (bufferGPU img) sz), w') ->
  let T := getLD gvdb 0 + getLD gvdb 1 + getLD gvdb 2 in
  let origin := fun t => bbox_min (aabb (deviceNode2 gvdb t)) in
  let numNode2s := Z.to_nat (getNumTotalNodes gvdb 2) in
  let cell_of := fun tile => cell (origin (Z.to_nat (childID tile))) T in
  32 - T <= 21 ->
  (forall t, (t < numNode2s)%nat -> nonneg_coord (origin t)) ->
  (forall s t, (s < numNode2s)%nat -> (t < numNode2s)%nat ->
     cell (origin s) T = cell (origin t) T -> s = t) ->
  Sorted (fun a b => Coord_lex_lt (cell_of a) (cell_of b)) (root_tiles (rootData img)).
Proof.
  intros E T origin numNode2s cell_of HT Hpos Hcell.
  apply ExportToNanoVDB_root in E as (_ & Ht & _).
  replace (getLD gvdb 2 + getLD gvdb 1 + getLD gvdb 0) with T in Ht by (unfold T; lia).
  fold numNode2s in Ht.
  set (written := map (fun t => setChild (bbox_min (aabb (deviceNode2 gvdb t))) T t)
                    (seq 0 numNode2s)) in *.
  assert (Hperm : Permutation (root_tiles (rootData img)) written)
    by (rewrite Ht; apply std_sort_Permutation).
  assert (Hlt : Sorted key_lt (root_tiles (rootData img))).
  { apply Sorted_distinct_keys; [rewrite Ht; apply std_sort_Sorted|].
    eapply Permutation_NoDup;
      [apply Permutation_map, Permutation_sym, Hperm|].
    now apply written_keys_NoDup. }
  assert (Hform : forall tile, In tile (root_tiles (rootData img)) ->
            (Z.to_nat (childID tile) < numNode2s)%nat /\
            key tile = CoordToKey (origin (Z.to_nat (childID tile))) T).
  { intros tile Hin. apply (Permutation_in _ Hperm) in Hin.
    apply in_map_iff in Hin as (t & <- & Hin). apply in_seq in Hin.
    simpl. rewrite Nat2Z.id. split; [lia|reflexivity]. }
  apply (Sorted_weaken key_lt); [exact Hlt|].
  intros a b Ha Hb Hab. unfold key_lt in Hab.
  destruct (Hform a Ha) as [Hna Hka]. destruct (Hform b Hb) as [Hnb Hkb].
  rewrite Hka, Hkb in Hab.
  apply CoordToKey_lt_cell in Hab; trivial; now apply Hpos.
Qed.

Lemma tiles_in_cell_order_witness :
  exists img sz w',
    sample_call false gvdb_S2 = (Done (mkExported (bufferGPU img) sz), w') /\
    Sorted (fun a b =>
              Coord_lex_lt
                (cell (bbox_min (aabb (deviceNode2 gvdb_S2 (Z.to_nat (childID a))))) 12)
                (cell (bbox_min (aabb (deviceNode2 gvdb_S2 (Z.to_nat (childID b))))) 12))
      (root_tiles (rootData img)).
Proof.
  destruct sample_S2_returns as (img & sz & w' & E). exists img, sz, w'.
  split; [exact E|].
  apply (tiles_in_cell_order sample_nanovdb false gvdb_S2 0 (Some zero_union)
           name_volume 0 (Some 0) initial_world img sz w' E).
  - vm_compute. discriminate.
  - intros [|[|t]] Ht; [| |simpl in Ht; lia];
      vm_compute; repeat split; discriminate.
  - intros [|[|s]] [|[|t]] Hs Ht; simpl in Hs, Ht; try lia; trivial;
      vm_compute; discriminate.
Defined.

(** ** Null returns, assertions and reads outside an array *)

(** Every call that fails validation or the node count limit returns the
    null pointer. *)
Lemma ExportToNanoVDB_rejects nanovdb NDEBUG gvdb channel bgp name cls out w :
  ~ (bgp <> None /\ out <> None /\ supported (GetChannelType gvdb channel) /\
     1 <= getLD gvdb 0 <= 8 /\ 1 <= getLD gvdb 1 <= 8 /\ 1 <= getLD gvdb 2 <= 8 /\
     getNumTotalNodes gvdb 2 <= INT_MAX /\ getNumTotalNodes gvdb 1 <= INT_MAX /\
     getNumTotalNodes gvdb 0 <= INT_MAX) ->
  exists w',
    ExportToNanoVDB nanovdb NDEBUG gvdb channel bgp name cls out w
    = (Done (mkExported GVDB_EXPORT_NANOVDB_NULL out), w').
Proof.
  intros Hbad. unfold ExportToNanoVDB. cbv zeta.
  destruct bgp as [bg|]; [|eexists; reflexivity].
  destruct out as [old|]; [|eexists; reflexivity].
  destruct ((getLD gvdb 0 <? 1) || (getLD gvdb 0 >? 8)) eqn:H0; [eexists; reflexivity|].
  destruct ((getLD gvdb 1 <? 1) || (getLD gvdb 1 >? 8)) eqn:H1; [eexists; reflexivity|].
  destruct ((getLD gvdb 2 <? 1) || (getLD gvdb 2 >? 8)) eqn:H2; [eexists; reflexivity|].
  apply log2dim_check in H0, H1, H2.
  assert (Hnum : forall level (k : Z -> M Exported),
            INT_MAX < getNumTotalNodes gvdb level ->
            exists w',
              (n <- ExportToNanoVDB_GetNumNodes gvdb level ;;
               match n with None => failed (Some old) | Some c => k c end) w
              = (Done (mkExported GVDB_EXPORT_NANOVDB_NULL (Some old)), w')).
  { intros level k Hlt. unfold bind at 1, ExportToNanoVDB_GetNumNodes.
    destruct (Z.gtb_spec (getNumTotalNodes gvdb level) INT_MAX); [|lia].
    eexists. reflexivity. }
  assert (Hok : forall level (k : Z -> M Exported),
            getNumTotalNodes gvdb level <= INT_MAX ->
            (n <- ExportToNanoVDB_GetNumNodes gvdb level ;;
             match n with None => failed (Some old) | Some c => k c end) w
            = k (getNumTotalNodes gvdb level) w).
  { intros level k Hle. unfold bind at 1. now rewrite GetNumNodes_ok. }
  destruct (GetChannelType gvdb channel) as [| | |tag] eqn:Ety;
    [| | |eexists; reflexivity];
    (destruct (Z_le_dec (getNumTotalNodes gvdb 2) INT_MAX);
       [rewrite Hok by trivial|apply Hnum; lia]);
    (destruct (Z_le_dec (getNumTotalNodes gvdb 1) INT_MAX);
       [rewrite Hok by trivial|apply Hnum; lia]);
    (destruct (Z_le_dec (getNumTotalNodes gvdb 0) INT_MAX);
       [|apply Hnum; lia]);
    exfalso; apply Hbad; unfold supported; repeat split; auto; try discriminate; lia.
Qed.

Lemma validation_decidable gvdb channel (bgp : option ValueUnion) (out : option Z) :
  let V := bgp <> None /\ out <> None /\ supported (GetChannelType gvdb channel) /\
     1 <= getLD gvdb 0 <= 8 /\ 1 <= getLD gvdb 1 <= 8 /\ 1 <= getLD gvdb 2 <= 8 /\
     getNumTotalNodes gvdb 2 <= INT_MAX /\ getNumTotalNodes gvdb 1 <= INT_MAX /\
     getNumTotalNodes gvdb 0 <= INT_MAX in
  V \/ ~ V.
Proof.
  intros V. subst V. unfold supported.
  destruct bgp as [bg|]; [|right; intros (A & _); congruence].
  destruct out as [old|]; [|right; intros (_ & A & _); congruence].
  destruct (GetChannelType gvdb channel) as [| | |tag];
    [| | |right; intros (_ & _ & [A|[A|A]] & _); discriminate];
    (destruct (Z_le_dec 1 (getLD gvdb 0)); [|right; intros (_ & _ & _ & A); lia]);
    (destruct (Z_le_dec (getLD gvdb 0) 8); [|right; intros (_ & _ & _ & A); lia]);
    (destruct (Z_le_dec 1 (getLD gvdb 1)); [|right; intros (_ & _ & _ & A); lia]);
    (destruct (Z_le_dec (getLD gvdb 1) 8); [|right; intros (_ & _ & _ & A); lia]);
    (destruct (Z_le_dec 1 (getLD gvdb 2)); [|right; intros (_ & _ & _ & A); lia]);
    (destruct (Z_le_dec (getLD gvdb 2) 8); [|right; intros (_ & _ & _ & A); lia]);
    (destruct (Z_le_dec (getNumTotalNodes gvdb 2) INT_MAX);
       [|right; intros (_ & _ & _ & A); lia]);
    (destruct (Z_le_dec (getNumTotalNodes gvdb 1) INT_MAX);
       [|right; intros (_ & _ & _ & A); lia]);
    (destruct (Z_le_dec (getNumTotalNodes gvdb 0) INT_MAX);
       [|right; intros (_ & _ & _ & A); lia]);
    left; repeat split; auto; discriminate.
Qed.

(** X17.  The array reads the model follows are the lookups in
    [nodeSizes], [leafSizes] and [rangeFunctions] and the copy of
    MaxNameSize bytes out of the name array.  One of them leaves its
    array only in a call that passed the validation and has a name array
    shorter than MaxNameSize bytes or, compiled without assertions, a
    level-2 log2dim of 1 or 8; compiled with assertions every log2dim
    that reaches a table is in [2, 7]. *)
Theorem out_of_bounds_read_only_if nanovdb NDEBUG gvdb channel bgp name cls out w :
  fst (ExportToNanoVDB nanovdb NDEBUG gvdb channel bgp name cls out w) = Undefined ->
  bgp <> None /\ out <> None /\ supported (GetChannelType gvdb channel) /\
  1 <= getLD gvdb 0 <= 8 /\ 1 <= getLD gvdb 1 <= 8 /\ 1 <= getLD gvdb 2 <= 8 /\
  ((length name < MaxNameSize nanovdb)%nat \/
   (NDEBUG = true /\ (getLD gvdb 2 = 1 \/ getLD gvdb 2 = 8))) /\
  (NDEBUG = false ->
   2 <= getLD gvdb 0 <= 7 /\ 2 <= getLD gvdb 1 <= 7 /\ 2 <= getLD gvdb 2 <= 7).
Proof.
  destruct (validation_decidable gvdb channel bgp out) as [V|nV].
  - destruct V as (Hbg & Hout & Hsup & H0 & H1 & H2 & Hn2 & Hn1 & Hn0).
    intros H. do 6 (split; [assumption|]).
    destruct bgp as [bg|]; [|congruence]. destruct out as [old|]; [|congruence].
    rewrite ExportToNanoVDB_valid in H by trivial.
    destruct NDEBUG.
    + split; [|discriminate].
      destruct (ComputeTypeSizes_without_assertions nanovdb (GetChannelType gvdb channel)
                  (getLD gvdb 0) (getLD gvdb 1) (getLD gvdb 2) w Hsup) as [ts Ets].
      rewrite Ets in H. cbv zeta in H.
      destruct (Nat.leb_spec (MaxNameSize nanovdb) (length name)) as [Hl|Hl];
        [|left; exact Hl].
      right. split; [reflexivity|].
      destruct (Z_le_dec 2 (getLD gvdb 2)) as [l2|]; [|lia].
      destruct (Z_le_dec (getLD gvdb 2) 7) as [l7|]; [|lia].
      exfalso.
      match type of H with
      | context [ProcessGridExtents_switch ?a ?b ?c ?r0 ?r1 ?r2 ?d ?e (Some ?g) ?n ?ld ?tot ?w1] =>
          destruct (ProcessGridExtents_switch_runs a b c r0 r1 r2 d e g n ld tot w1 Hsup
                      (conj l2 l7))
            as (r & w' & Er)
      end.
      simpl in Er. rewrite Er in H. discriminate.
    + assert (D : (2 <= getLD gvdb 0 <= 7 /\ 2 <= getLD gvdb 1 <= 7 /\ 2 <= getLD gvdb 2 <= 7)
                  \/ ~ (2 <= getLD gvdb 0 <= 7 /\ 2 <= getLD gvdb 1 <= 7 /\
                        2 <= getLD gvdb 2 <= 7)) by lia.
      destruct D as [(R0 & R1 & R2)|nR];
        [|rewrite ComputeTypeSizes_aborts in H by trivial; discriminate].
      split; [|intros _; repeat split; lia].
      rewrite ComputeTypeSizes_in_range in H by trivial. cbv zeta in H.
      destruct (Nat.leb_spec (MaxNameSize nanovdb) (length name)) as [Hl|Hl];
        [|left; exact Hl].
      exfalso.
      match type of H with
      | context [ProcessGridExtents_switch ?a ?b ?c ?r0 ?r1 ?r2 ?d ?e (Some ?g) ?n ?ld ?tot ?w1] =>
          destruct (ProcessGridExtents_switch_runs a b c r0 r1 r2 d e g n ld tot w1 Hsup R2)
            as (r & w' & Er)
      end.
      rewrite Er in H.
      destruct (32 - (getLD gvdb 2 + getLD gvdb 1 + getLD gvdb 0) <=? 21); discriminate.
  - intros H.
    destruct (ExportToNanoVDB_rejects nanovdb NDEBUG gvdb channel bgp name cls out w nV)
      as [w' E].
    rewrite E in H. discriminate.
Qed.

Lemma out_of_bounds_read_only_if_witness :
  fst (sample_call true gvdb_ld8) = Undefined /\
  ((length name_volume < MaxNameSize sample_nanovdb)%nat \/
   (true = true /\ (getLD gvdb_ld8 2 = 1 \/ getLD gvdb_ld8 2 = 8))).
Proof.
  assert (H : fst (sample_call true gvdb_ld8) = Undefined) by (vm_compute; reflexivity).
  split; [exact H|].
  destruct (out_of_bounds_read_only_if sample_nanovdb true gvdb_ld8 0 (Some zero_union)
              name_volume 0 (Some 0) initial_world H)
    as (_ & _ & _ & _ & _ & _ & Hd & _).
  exact Hd.
Defined.

(** X19.  The export stops at an assertion of the model only when compiled
    with assertions and only in a call that passed the validation: at the
    assertion of the size lookup only when a log2dim is outside [2, 7],
    at [assert(32 - totalLog2Dim <= 21)] only when the three log2dims are
    in [2, 7] and [32 - T > 21].  The assertion of [TypeTableIndex] and
    the two null-pointer assertions of [ProcessGridExtents] stop no call
    of the export. *)
Theorem assertion_stop_only_if nanovdb NDEBUG gvdb channel bgp name cls out w which :
  fst (ExportToNanoVDB nanovdb NDEBUG gvdb channel bgp name cls out w) = Aborted which ->
  NDEBUG = false /\
  bgp <> None /\ out <> None /\ supported (GetChannelType gvdb channel) /\
  1 <= getLD gvdb 0 <= 8 /\ 1 <= getLD gvdb 1 <= 8 /\ 1 <= getLD gvdb 2 <= 8 /\
  ((which = DataTypeSizeLookup_out_of_range /\
    ~ (2 <= getLD gvdb 0 <= 7 /\ 2 <= getLD gvdb 1 <= 7 /\ 2 <= getLD gvdb 2 <= 7)) \/
   (which = CoordToKey_restriction /\
    2 <= getLD gvdb 0 <= 7 /\ 2 <= getLD gvdb 1 <= 7 /\ 2 <= getLD gvdb 2 <= 7 /\
    21 < 32 - (getLD gvdb 0 + getLD gvdb 1 + getLD gvdb 2))).
Proof.
  destruct (validation_decidable gvdb channel bgp out) as [V|nV].
  - destruct V as (Hbg & Hout & Hsup & H0 & H1 & H2 & Hn2 & Hn1 & Hn0).
    intros H.
    destruct bgp as [bg|]; [|congruence]. destruct out as [old|]; [|congruence].
    rewrite ExportToNanoVDB_valid in H by trivial.
    destruct NDEBUG.
    + exfalso.
      destruct (ComputeTypeSizes_without_assertions nanovdb (GetChannelType gvdb channel)
                  (getLD gvdb 0) (getLD gvdb 1) (getLD gvdb 2) w Hsup) as [ts Ets].
      rewrite Ets in H. cbv zeta in H.
      destruct (Nat.leb_spec (MaxNameSize nanovdb) (length name)) as [Hl|Hl];
        [|discriminate].
      destruct (Z_le_dec 2 (getLD gvdb 2)) as [l2|];
        [|rewrite ProcessGridExtents_switch_outside in H by (trivial; lia); discriminate].
      destruct (Z_le_dec (getLD gvdb 2) 7) as [l7|];
        [|rewrite ProcessGridExtents_switch_outside in H by (trivial; lia); discriminate].
      match type of H with
      | context [ProcessGridExtents_switch ?a ?b ?c ?r0 ?r1 ?r2 ?d ?e (Some ?g) ?n ?ld ?tot ?w1] =>
          destruct (ProcessGridExtents_switch_runs a b c r0 r1 r2 d e g n ld tot w1 Hsup
                      (conj l2 l7))
            as (r & w' & Er)
      end.
      simpl in Er. rewrite Er in H. discriminate.
    + split; [reflexivity|]. do 6 (split; [assumption|]).
      assert (D : (2 <= getLD gvdb 0 <= 7 /\ 2 <= getLD gvdb 1 <= 7 /\ 2 <= getLD gvdb 2 <= 7)
                  \/ ~ (2 <= getLD gvdb 0 <= 7 /\ 2 <= getLD gvdb 1 <= 7 /\
                        2 <= getLD gvdb 2 <= 7)) by lia.
      destruct D as [(R0 & R1 & R2)|nR].
      * rewrite ComputeTypeSizes_in_range in H by trivial. cbv zeta in H.
        destruct (Nat.leb_spec (MaxNameSize nanovdb) (length name)) as [Hl|Hl];
          [|discriminate].
        match type of H with
        | context [ProcessGridExtents_switch ?a ?b ?c ?r0 ?r1 ?r2 ?d ?e (Some ?g) ?n ?ld ?tot ?w1] =>
            destruct (ProcessGridExtents_switch_runs a b c r0 r1 r2 d e g n ld tot w1 Hsup R2)
              as (r & w' & Er)
        end.
        rewrite Er in H.
        destruct (Z.leb_spec (32 - (getLD gvdb 2 + getLD gvdb 1 + getLD gvdb 0)) 21)
          as [HT|HT]; cbn [fst orb] in H; [discriminate|].
        inversion H. subst which.
        right. split; [reflexivity|]. repeat split; trivial; lia.
      * rewrite ComputeTypeSizes_aborts in H by trivial. cbn [fst] in H.
        inversion H. subst which.
        left. split; [reflexivity|exact nR].
  - intros H.
    destruct (ExportToNanoVDB_rejects nanovdb NDEBUG gvdb channel bgp name cls out w nV)
      as [w' E].
    rewrite E in H. discriminate.
Qed.

Lemma assertion_stop_only_if_witness :
  fst (sample_call false gvdb_ld8) = Aborted DataTypeSizeLookup_out_of_range /\
  1 <= getLD gvdb_ld8 2 <= 8 /\
  ~ (2 <= getLD gvdb_ld8 0 <= 7 /\ 2 <= getLD gvdb_ld8 1 <= 7 /\
     2 <= getLD gvdb_ld8 2 <= 7).
Proof.
  assert (H : fst (sample_call false gvdb_ld8) = Aborted DataTypeSizeLookup_out_of_range)
    by (vm_compute; reflexivity).
  split; [exact H|].
  destruct (assertion_stop_only_if sample_nanovdb false gvdb_ld8 0 (Some zero_union)
              name_volume 0 (Some 0) initial_world _ H)
    as (_ & _ & _ & _ & _ & _ & H2 & [(_ & nR)|(E & _)]).
  - split; [exact H2|exact nR].
  - discriminate E.
Defined.

(** X20.  The export takes one of its null returns (lines 378-483, the
    only statements that return GVDB_EXPORT_NANOVDB_NULL) exactly in the
    calls that fail the validation of the entry point or have a level
    with more than INT_MAX nodes, in both builds. *)
Theorem null_iff_rejected nanovdb NDEBUG gvdb channel bgp name cls out w :
  (exists sz w',
      ExportToNanoVDB nanovdb NDEBUG gvdb channel bgp name cls out w
      = (Done (mkExported GVDB_EXPORT_NANOVDB_NULL sz), w'))
  <->
  ~ (bgp <> None /\ out <> None /\ supported (GetChannelType gvdb channel) /\
     1 <= getLD gvdb 0 <= 8 /\ 1 <= getLD gvdb 1 <= 8 /\ 1 <= getLD gvdb 2 <= 8 /\
     getNumTotalNodes gvdb 2 <= INT_MAX /\ getNumTotalNodes gvdb 1 <= INT_MAX /\
     getNumTotalNodes gvdb 0 <= INT_MAX).
Proof.
  split.
  - intros (sz & w' & E) (Hbg & Hout & Hsup & H0 & H1 & H2 & Hn2 & Hn1 & Hn0).
    destruct bgp as [bg|]; [|congruence]. destruct out as [old|]; [|congruence].
    rewrite ExportToNanoVDB_valid in E by trivial.
    destruct (ComputeTypeSizes _ _ _ _ _ _ _) as [[ts| |] w1]; try discriminate.
    cbv zeta in E.
    destruct (_ <=? _)%nat; [|discriminate].
    destruct (ProcessGridExtents_switch _ _ _ _ _ _ _ _ _ _ _ _ _) as [[r| |] w2];
      discriminate.
  - intros nV.
    destruct (ExportToNanoVDB_rejects nanovdb NDEBUG gvdb channel bgp name cls out w nV)
      as [w' E].
    exists out, w'. exact E.
Qed.
